(** * USB hub driver: device-topology manager

    A shallow embedding of the hub driver found in
    [drivers/usb/gadget/u_serial.h] (the file carries the hub driver's code
    below the gadget-serial declarations), and the properties of its
    status reader, debounce engine, reset wait, device-number allocator,
    device-state propagation, LPM exit latencies, event queue and port
    ownership interface. *)

From Stdlib Require Import ZArith Lia Bool.
From stdpp Require Import base option list gmap.
From Equations Require Import Equations.

Local Open Scope Z_scope.

(** ** Kernel constants used by the driver *)

(** Error numbers of [include/uapi/asm-generic/errno-base.h] and [errno.h];
    the driver returns them negated. *)
Module Errno.
Definition ENOENT    : Z := 2.
Definition EIO       : Z := 5.
Definition EBUSY     : Z := 16.
Definition ENODEV    : Z := 19.
Definition EINVAL    : Z := 22.
Definition EPIPE     : Z := 32.
Definition ENOTCONN  : Z := 107.
Definition ETIMEDOUT : Z := 110.
End Errno.
Import Errno.

(** Bits of [wPortStatus] and [wPortChange] ([include/uapi/linux/usb/ch11.h]). *)
Definition USB_PORT_STAT_CONNECTION   : Z := 0x0001.
Definition USB_PORT_STAT_ENABLE       : Z := 0x0002.
Definition USB_PORT_STAT_RESET        : Z := 0x0010.
Definition USB_PORT_STAT_LOW_SPEED    : Z := 0x0200.
Definition USB_PORT_STAT_HIGH_SPEED   : Z := 0x0400.
Definition USB_PORT_STAT_LINK_STATE   : Z := 0x01e0.
Definition USB_SS_PORT_LS_SS_INACTIVE : Z := 0x00c0.
Definition USB_SS_PORT_LS_COMP_MOD    : Z := 0x0140.
Definition USB_PORT_STAT_C_CONNECTION : Z := 0x0001.

(** [x & mask] is non-zero. *)
Definition tst (x mask : Z) : bool := negb (Z.land x mask =? 0).

(** [enum usb_device_speed] and [enum usb_device_state]
    ([include/uapi/linux/usb/ch9.h]). *)
Inductive usb_device_speed :=
| USB_SPEED_UNKNOWN | USB_SPEED_LOW | USB_SPEED_FULL | USB_SPEED_HIGH
| USB_SPEED_WIRELESS | USB_SPEED_SUPER.

Inductive usb_device_state :=
| USB_STATE_NOTATTACHED | USB_STATE_ATTACHED | USB_STATE_POWERED
| USB_STATE_RECONNECTING | USB_STATE_UNAUTHENTICATED | USB_STATE_DEFAULT
| USB_STATE_ADDRESS | USB_STATE_CONFIGURED | USB_STATE_SUSPENDED.

Global Instance usb_device_speed_eq_dec : EqDecision usb_device_speed.
Proof. solve_decision. Defined.
Global Instance usb_device_state_eq_dec : EqDecision usb_device_state.
Proof. solve_decision. Defined.

(** Memory accesses the C code performs without a check of its own (a
    pointer that may be NULL, an array index that may be out of range, a
    [BUG_ON]) are written in this error monad: [Fault] is the access the
    kernel would oops on. *)
Inductive mem (A : Type) :=
| Val (a : A)
| Fault.
Arguments Val {A} a.
Arguments Fault {A}.

Definition mem_bind {A B} (m : mem A) (f : A -> mem B) : mem B :=
  match m with Val a => f a | Fault => Fault end.

Declare Scope mem_scope.
Delimit Scope mem_scope with mem.
Notation "x <~ m ;; k" := (mem_bind m (fun x => k))
  (at level 100, m at next level, right associativity) : mem_scope.

(** Dereference of a pointer that may be NULL. *)
Definition deref {A} (p : option A) : mem A :=
  match p with Some a => Val a | None => Fault end.

(** Conversions to the C integer types the driver computes in. *)
Definition u16 (x : Z) : Z := x mod 2^16.
Definition u32 (x : Z) : Z := x mod 2^32.
Definition s32 (x : Z) : Z := (x + 2^31) mod 2^32 - 2^31.

(** ** The hub as seen through its control pipe

    Every [usb_control_msg] is a transfer on the wire.  The hardware side is
    an oracle: [wire port1 k] is what the [k]-th GET_STATUS transfer issued
    to the hub returns for port [port1] (port 0 stands for the hub itself):
    the return value of [usb_control_msg] and the two status words it left
    in the buffer.  The driver side is the state below, threaded through
    every operation. *)

Record urb_result := Urb {
  urb_ret     : Z;   (* bytes transferred, or a negative errno *)
  urb_wStatus : Z;   (* wPortStatus / wHubStatus, host order *)
  urb_wChange : Z    (* wPortChange / wHubChange, host order *)
}.

Record hub_io := HubIo {
  transfers : nat;        (* GET_STATUS transfers issued so far *)
  buffer    : Z * Z;      (* hub->status: the two words of the last full answer *)
  slept     : list Z;     (* arguments of msleep, most recent first *)
  cleared   : list Z      (* ports whose C_CONNECTION feature was cleared *)
}.

Definition io0 : hub_io := HubIo 0 (0, 0) [] [].

Definition M (A : Type) : Type := hub_io -> A * hub_io.
Definition ret {A} (a : A) : M A := fun s => (a, s).
Definition bind {A B} (m : M A) (f : A -> M B) : M B :=
  fun s => let (a, s') := m s in f a s'.

Declare Scope io_scope.
Delimit Scope io_scope with io.
Notation "x <- m ;; k" := (bind m (fun x => k))
  (at level 100, m at next level, right associativity) : io_scope.
Notation "m ;;; k" := (bind m (fun _ => k))
  (at level 100, right associativity) : io_scope.

Definition msleep (ms : Z) : M unit :=
  fun s => (tt, HubIo (transfers s) (buffer s) (ms :: slept s) (cleared s)).

Definition usb_clear_port_feature_C_CONNECTION (port1 : Z) : M unit :=
  fun s => (tt, HubIo (transfers s) (buffer s) (slept s) (port1 :: cleared s)).

Definition read_buffer : M (Z * Z) := fun s => (buffer s, s).

(** Total time spent in [msleep]. *)
Definition clock (s : hub_io) : Z := foldr Z.add 0 (slept s).

Module StatusReader.
Section Wire.

Variable wire : Z -> nat -> urb_result.

(** One GET_STATUS control transfer into [hub->status]; the buffer holds
    both words once the transfer delivered their four bytes. *)
Definition usb_control_msg (port1 : Z) : M Z :=
  fun s =>
    let r := wire port1 (transfers s) in
    (urb_ret r,
     HubIo (S (transfers s))
           (if 4 <=? urb_ret r then (urb_wStatus r, urb_wChange r)
            else buffer s)
           (slept s) (cleared s)).

Definition USB_STS_RETRIES : Z := 5.

(** The loop condition after [i < USB_STS_RETRIES]. *)
Definition retry (status : Z) : bool :=
  (status =? - ETIMEDOUT) || (status =? - EPIPE).

(** [for (i = 0; i < USB_STS_RETRIES && (status == -ETIMEDOUT ||
    status == -EPIPE); i++) status = usb_control_msg(...)], entered with
    [n] values of [i] left below [USB_STS_RETRIES]. *)
Fixpoint sts_loop (n : nat) (port1 : Z) (status : Z) : M Z :=
  match n with
  | O => ret status
  | S n' =>
      if retry status then
        (status' <- usb_control_msg port1 ;; sts_loop n' port1 status')%io
      else ret status
  end.

Definition get_hub_status : M Z :=
  sts_loop (Z.to_nat USB_STS_RETRIES) 0 (- ETIMEDOUT).

Definition get_port_status (port1 : Z) : M Z :=
  sts_loop (Z.to_nat USB_STS_RETRIES) port1 (- ETIMEDOUT).

(** [hub_port_status]: the status words reach the caller only when the
    transfer delivered at least the four bytes of both words; the
    out-parameters keep their old values ([old]) otherwise. *)
Definition hub_port_status (port1 : Z) (old : Z * Z) : M (Z * (Z * Z)) :=
  (r <- get_port_status port1 ;;
   if r <? 4 then
     ret (if 0 <=? r then - EIO else r, old)
   else
     (d <- read_buffer ;; ret (0, (u16 (fst d), u16 (snd d)))))%io.

End Wire.

(** What a bounded-retry read [get] through the oracle for port [p] does
    from any state: it issues [n] transfers, between one and five; its
    result is the return value of the last one; all but the last timed
    out or stalled; and it stops short of five only on another result. *)
Definition bounded_retry (wire : Z -> nat -> urb_result) (p : Z)
    (get : M Z) : Prop :=
  forall s : hub_io,
  exists n : nat,
    (1 <= n <= 5)%nat /\
    transfers (snd (get s)) = (transfers s + n)%nat /\
    fst (get s) = urb_ret (wire p (transfers s + n - 1)%nat) /\
    Forall (fun j => let r := urb_ret (wire p (transfers s + j)%nat) in
                     r = - ETIMEDOUT \/ r = - EPIPE) (seq 0 (n - 1)) /\
    (n = 5%nat \/
     (fst (get s) <> - ETIMEDOUT /\ fst (get s) <> - EPIPE)) /\
    slept (snd (get s)) = slept s /\ cleared (snd (get s)) = cleared s.

End StatusReader.

(** ** Debounce engine and reset wait *)

Module PortPolling.
Import StatusReader.

Definition HUB_DEBOUNCE_TIMEOUT : Z := 2000.
Definition HUB_DEBOUNCE_STEP    : Z := 25.
Definition HUB_DEBOUNCE_STABLE  : Z := 100.

Definition HUB_SHORT_RESET_TIME : Z := 10.
Definition HUB_LONG_RESET_TIME  : Z := 200.
Definition HUB_RESET_TIMEOUT    : Z := 800.

(** How a polling loop is left: by a [return] inside it, or by [break] (or
    its condition) with the loop variables as they are then. *)
Inductive loop_exit :=
| Return (r : Z)
| Break (time stable_or_delay portstatus portchange : Z).

Inductive sampled :=
| Exit (e : loop_exit)
| Continue (stable_time connection portstatus portchange : Z).

Section Port.

Variable wire : Z -> nat -> urb_result.
Variable port1 : Z.

(** The body of the debounce loop up to the timeout test. *)
Definition debounce_sample (must_be_connected : bool)
    (total_time stable_time connection : Z) (old : Z * Z) : M sampled :=
  (r <- hub_port_status wire port1 old ;;
   let '(ret_, (portstatus, portchange)) := r in
   if ret_ <? 0 then ret (Exit (Return ret_))
   else
     let clear :=
       if tst portchange USB_PORT_STAT_C_CONNECTION
       then usb_clear_port_feature_C_CONNECTION port1 else ret tt in
     if negb (tst portchange USB_PORT_STAT_C_CONNECTION) &&
        (Z.land portstatus USB_PORT_STAT_CONNECTION =? connection)
     then
       let stable_time' :=
         if negb must_be_connected ||
            (connection =? USB_PORT_STAT_CONNECTION)
         then stable_time + HUB_DEBOUNCE_STEP else stable_time in
       if stable_time' >=? HUB_DEBOUNCE_STABLE
       then ret (Exit (Break total_time stable_time' portstatus portchange))
       else (clear ;;;
             ret (Continue stable_time' connection portstatus portchange))
     else
       (clear ;;;
        ret (Continue 0 (Z.land portstatus USB_PORT_STAT_CONNECTION)
               portstatus portchange)))%io.

(** [for (total_time = 0; ; total_time += HUB_DEBOUNCE_STEP) { ... }] *)
Equations? debounce_loop (must_be_connected : bool)
    (total_time stable_time connection : Z) (old : Z * Z) (s : hub_io)
  : loop_exit * hub_io
  by wf (Z.to_nat (HUB_DEBOUNCE_TIMEOUT + HUB_DEBOUNCE_STEP - total_time)) lt :=
debounce_loop must total_time stable_time connection old s
  with debounce_sample must total_time stable_time connection old s => {
  | (Exit e, s1) := (e, s1);
  | (Continue stable_time' connection' portstatus portchange, s1)
      with Z_lt_dec total_time HUB_DEBOUNCE_TIMEOUT => {
      | right _ := (Break total_time stable_time' portstatus portchange, s1);
      | left _ :=
          debounce_loop must (total_time + HUB_DEBOUNCE_STEP)
            stable_time' connection' (portstatus, portchange)
            (snd (msleep HUB_DEBOUNCE_STEP s1)) } }.
Proof. unfold HUB_DEBOUNCE_TIMEOUT, HUB_DEBOUNCE_STEP in *. lia. Qed.

Definition hub_port_debounce (must_be_connected : bool) : M Z :=
  fun s =>
    match debounce_loop must_be_connected 0 0 0xffff (0, 0) s with
    | (Return r, s') => (r, s')
    | (Break total_time stable_time portstatus _, s') =>
        (if stable_time <? HUB_DEBOUNCE_STABLE then - ETIMEDOUT
         else portstatus, s')
    end.

(** *** [hub_port_wait_reset] *)

Variable hub_is_superspeed : bool.   (* hub_is_superspeed(hub->hdev) *)
Variable hub_is_wusb : bool.         (* hub_is_wusb(hub) *)

Definition hub_port_warm_reset_required (portstatus : Z) : bool :=
  hub_is_superspeed &&
  ((Z.land portstatus USB_PORT_STAT_LINK_STATE =? USB_SS_PORT_LS_SS_INACTIVE)
   || (Z.land portstatus USB_PORT_STAT_LINK_STATE =? USB_SS_PORT_LS_COMP_MOD)).

(** [for (delay_time = 0; delay_time < HUB_RESET_TIMEOUT;
    delay_time += delay) { ... }].  The loop has no bound of its own when
    [delay] is 0, hence the fuel: [None] is a loop still running after
    [fuel] polls.  [delay_time] is an [int], [delay] an [unsigned]. *)
Fixpoint wait_reset_loop (fuel : nat) (delay_time delay : Z) (old : Z * Z)
  : M (option loop_exit) :=
  match fuel with
  | O => ret None
  | S fuel' =>
      if delay_time <? HUB_RESET_TIMEOUT then
        (msleep delay ;;;
         r <- hub_port_status wire port1 old ;;
         let '(ret_, (portstatus, portchange)) := r in
         if ret_ <? 0 then ret (Some (Return ret_))
         else if negb (tst portstatus USB_PORT_STAT_RESET)
         then ret (Some (Break delay_time delay portstatus portchange))
         else
           let delay' :=
             if delay_time >=? 2 * HUB_SHORT_RESET_TIME
             then HUB_LONG_RESET_TIME else delay in
           wait_reset_loop fuel' (s32 (delay_time + delay')) delay'
             (portstatus, portchange))%io
      else ret (Some (Break delay_time delay (fst old) (snd old)))
  end.

(** The checks after the loop; [udev] is the device's [speed] field when a
    device is passed, and is returned with the speed the port reports. *)
Definition wait_reset_finish (udev : option usb_device_speed)
    (portstatus portchange : Z) : Z * option usb_device_speed :=
  if tst portstatus USB_PORT_STAT_RESET then (- EBUSY, udev)
  else if hub_port_warm_reset_required portstatus then (- ENOTCONN, udev)
  else if negb (tst portstatus USB_PORT_STAT_CONNECTION)
  then (- ENOTCONN, udev)
  else if negb hub_is_superspeed &&
          tst portchange USB_PORT_STAT_C_CONNECTION
  then (- ENOTCONN, udev)
  else if negb (tst portstatus USB_PORT_STAT_ENABLE) then (- EBUSY, udev)
  else match udev with
       | None => (0, None)
       | Some _ =>
           (0, Some (if hub_is_wusb then USB_SPEED_WIRELESS
                     else if hub_is_superspeed then USB_SPEED_SUPER
                     else if tst portstatus USB_PORT_STAT_HIGH_SPEED
                     then USB_SPEED_HIGH
                     else if tst portstatus USB_PORT_STAT_LOW_SPEED
                     then USB_SPEED_LOW
                     else USB_SPEED_FULL))
       end.

Definition hub_port_wait_reset (fuel : nat)
    (udev : option usb_device_speed) (delay : Z)
  : M (option (Z * option usb_device_speed)) :=
  (e <- wait_reset_loop fuel 0 delay (0, 0) ;;
   ret (match e with
        | None => None
        | Some (Return r) => Some (r, udev)
        | Some (Break _ _ portstatus portchange) =>
            Some (wait_reset_finish udev portstatus portchange)
        end))%io.

(** *** What the port answers *)

(** Every GET_STATUS transfer for the port delivers both status words. *)
Definition answers : Prop := forall k, 4 <= urb_ret (wire port1 k).

(** The connection bit of the [k]-th answer, as the driver reads it. *)
Definition connection_of (k : nat) : Z :=
  Z.land (u16 (urb_wStatus (wire port1 k))) USB_PORT_STAT_CONNECTION.

(** The connection bit differs from one sample to the next. *)
Definition toggles : Prop := forall k, connection_of (S k) <> connection_of k.

(** The reset bit of the [k]-th answer, as the driver reads it. *)
Definition resetting (k : nat) : bool :=
  tst (u16 (urb_wStatus (wire port1 k))) USB_PORT_STAT_RESET.

End Port.

(** The sleeps of a wait that starts with the short delay, in order. *)
Definition short_reset_sleeps : list Z := [10; 10; 10; 200; 200; 200].

(** The value of [delay_time] at the start of each poll of such a wait. *)
Definition short_reset_times : list Z := [0; 10; 20; 220; 420; 620].

(** A port whose connection bit reads 1, 0, 1, 0, ... *)
Definition toggling_port (port1 : Z) (k : nat) : urb_result :=
  Urb 4 (if Nat.even k then 1 else 0) 0.

(** The connection bit of a contact that bounces every 10 ms, sampled every
    25 ms: it reads the same at most twice in a row. *)
Definition bouncing_port (port1 : Z) (k : nat) : urb_result :=
  Urb 4 (if Z.even (25 * Z.of_nat k / 10) then 1 else 0) 0.

(** A port that never comes out of reset (connected, enabled, in reset). *)
Definition stuck_port (port1 : Z) (k : nat) : urb_result := Urb 4 0x13 0.

End PortPolling.

(** ** Link power management: exit latencies *)

Module Lpm.

Record usb3_lpm_parameters := LpmParams {
  mel : Z;        (* unsigned int, ns *)
  pel : Z;        (* unsigned int, ns *)
  sel : Z         (* unsigned int, ns *)
}.

Record usb_ss_cap_descriptor := SsCap {
  bU1devExitLat : Z;    (* __u8 *)
  bU2DevExitLat : Z     (* __le16 *)
}.

(** [struct usb_device] as the LPM code reads it: the device and its
    chain of [parent] pointers up to the root hub, whose [parent] is
    NULL.  [bHubHdrDecLat] is the field of the hub descriptor reached
    through [usb_hub_to_struct_hub], absent when that returns NULL. *)
#[warnings="-register-all"]
Inductive usb_device := UsbDevice {
  parent        : option usb_device;
  speed         : usb_device_speed;
  lpm_capable   : bool;
  ss_cap        : option usb_ss_cap_descriptor;   (* udev->bos->ss_cap *)
  bHubHdrDecLat : option Z;
  u1_params     : usb3_lpm_parameters;
  u2_params     : usb3_lpm_parameters
}.

Definition usb_set_lpm_mel (udev_lpm_params : usb3_lpm_parameters)
    (udev_exit_latency : Z) (hub_bHubHdrDecLat : Z)
    (hub_lpm_params : usb3_lpm_parameters) (hub_exit_latency : Z)
  : usb3_lpm_parameters :=
  let total_mel := u32 (mel hub_lpm_params + u32 (hub_bHubHdrDecLat * 100)) in
  let device_mel := u32 (udev_exit_latency * 1000) in
  let hub_mel := u32 (hub_exit_latency * 1000) in
  let total_mel :=
    if device_mel >? hub_mel then u32 (total_mel + device_mel)
    else u32 (total_mel + hub_mel) in
  LpmParams total_mel (pel udev_lpm_params) (sel udev_lpm_params).

Definition usb_set_lpm_pel (udev_lpm_params : usb3_lpm_parameters)
    (udev_exit_latency : Z)
    (hub_lpm_params : usb3_lpm_parameters) (hub_exit_latency : Z)
    (port_to_port_exit_latency : Z) : usb3_lpm_parameters :=
  let first_link_pel :=
    if udev_exit_latency >? hub_exit_latency
    then u32 (udev_exit_latency * 1000)
    else u32 (hub_exit_latency * 1000) in
  let hub_pel :=
    u32 (u32 (port_to_port_exit_latency * 1000) + pel hub_lpm_params) in
  LpmParams (mel udev_lpm_params)
    (if first_link_pel >? hub_pel then first_link_pel else hub_pel)
    (sel udev_lpm_params).

(** [for (parent = udev->parent, num_hubs = 0; parent->parent;
    parent = parent->parent) num_hubs++;] from [parent] on. *)
Fixpoint count_hubs (p : usb_device) (num_hubs : Z) : Z :=
  match parent p with
  | Some pp => count_hubs pp (u32 (num_hubs + 1))
  | None => num_hubs
  end.

Definition usb_set_lpm_sel (udev : usb_device)
    (udev_lpm_params : usb3_lpm_parameters) : mem usb3_lpm_parameters :=
  (p <~ deref (parent udev) ;;
   let total_sel := pel udev_lpm_params in
   let num_hubs := count_hubs p 0 in
   let total_sel :=
     if num_hubs >? 0
     then u32 (total_sel + u32 (2100 + u32 (250 * u32 (num_hubs - 1))))
     else total_sel in
   let total_sel := u32 (total_sel + u32 (250 * num_hubs)) in
   Val (LpmParams (mel udev_lpm_params) (pel udev_lpm_params) total_sel))%mem.

Definition with_params (udev : usb_device)
    (u1 u2 : usb3_lpm_parameters) : usb_device :=
  UsbDevice (parent udev) (speed udev) (lpm_capable udev) (ss_cap udev)
    (bHubHdrDecLat udev) u1 u2.

Definition usb_set_lpm_parameters (udev : usb_device) : mem usb_device :=
  if negb (lpm_capable udev) || negb (bool_decide (speed udev = USB_SPEED_SUPER))
  then Val udev
  else
    match parent udev with
    | None => Val udev       (* usb_hub_to_struct_hub(NULL) is NULL *)
    | Some hdev =>
        match bHubHdrDecLat hdev with
        | None => Val udev
        | Some declat =>
            (ucap <~ deref (ss_cap udev) ;;
             hcap <~ deref (ss_cap hdev) ;;
             let udev_u1_del := bU1devExitLat ucap in
             let udev_u2_del := bU2DevExitLat ucap in
             let hub_u1_del := bU1devExitLat hcap in
             let hub_u2_del := bU2DevExitLat hcap in
             let u1 := usb_set_lpm_mel (u1_params udev) udev_u1_del
                         declat (u1_params hdev) hub_u1_del in
             let u2 := usb_set_lpm_mel (u2_params udev) udev_u2_del
                         declat (u2_params hdev) hub_u2_del in
             let port_to_port_delay := 1 in
             let u1 := usb_set_lpm_pel u1 udev_u1_del
                         (u1_params hdev) hub_u1_del port_to_port_delay in
             let port_to_port_delay :=
               if hub_u2_del >? hub_u1_del
               then u32 (1 + hub_u2_del - hub_u1_del)
               else u32 (1 + hub_u1_del) in
             let u2 := usb_set_lpm_pel u2 udev_u2_del
                         (u2_params hdev) hub_u2_del port_to_port_delay in
             u1 <~ usb_set_lpm_sel udev u1 ;;
             u2 <~ usb_set_lpm_sel udev u2 ;;
             Val (with_params udev u1 u2))%mem
        end
    end.

(** Number of devices above [d] on the way to the root hub. *)
Fixpoint ancestors (d : usb_device) : nat :=
  match parent d with
  | Some p => S (ancestors p)
  | None => 0
  end.

(** The external hubs between a device and the root port are the hubs
    above it that are not the root hub: the ancestors of its parent. *)
Definition external_hubs (udev : usb_device) : Z :=
  match parent udev with
  | Some p => Z.of_nat (ancestors p)
  | None => 0
  end.

(** A device behind two external hubs, with a PEL of 50 us. *)
Definition p0 : usb3_lpm_parameters := LpmParams 0 0 0.
Definition root_hub : usb_device :=
  UsbDevice None USB_SPEED_SUPER true (Some (SsCap 10 50)) (Some 4) p0 p0.
Definition hub1 : usb_device :=
  UsbDevice (Some root_hub) USB_SPEED_SUPER true (Some (SsCap 10 50)) (Some 4) p0 p0.
Definition hub2 : usb_device :=
  UsbDevice (Some hub1) USB_SPEED_SUPER true (Some (SsCap 10 50)) (Some 4) p0 p0.
Definition disk : usb_device :=
  UsbDevice (Some hub2) USB_SPEED_SUPER true (Some (SsCap 10 50)) None p0 p0.

End Lpm.

(** ** Device numbers *)

Module Devnum.

(** [struct usb_bus]: the 128-bit [devmap.devicemap] as the integer whose
    bit [i] is bit [i] of the map, and the next number to hand out. *)
Record usb_bus := UsbBus {
  devicemap   : Z;
  devnum_next : Z      (* int *)
}.

(** The fields of [struct usb_device] the allocator touches. *)
Record usb_device := UsbDevice {
  devnum  : Z;         (* int *)
  wusb    : bool;      (* unsigned wusb:1 *)
  portnum : Z          (* u8 *)
}.

Definition MAP_BITS : Z := 128.

(** Bit operations of [<linux/bitops.h>] on the 128-bit map; a bit number
    outside the map is an access outside the array. *)
Definition in_map (nr : Z) : bool := (0 <=? nr) && (nr <? MAP_BITS).

Definition test_bit (nr : Z) (map : Z) : mem bool :=
  if in_map nr then Val (Z.testbit map nr) else Fault.
Definition set_bit (nr : Z) (map : Z) : mem Z :=
  if in_map nr then Val (Z.setbit map nr) else Fault.
Definition clear_bit (nr : Z) (map : Z) : mem Z :=
  if in_map nr then Val (Z.clearbit map nr) else Fault.

(** Scan of the bits [i, i+1, ...] with [n] bits left below [size]. *)
Fixpoint scan_zero (map : Z) (size : Z) (n : nat) (i : Z) : Z :=
  match n with
  | O => size
  | S n' => if Z.testbit map i then scan_zero map size n' (i + 1) else i
  end.

(** Modelled from the spec: [find_next_zero_bit] is the kernel's bitmap
    helper ([lib/find_next_bit.c]), whose code is not in this file.  It
    returns the number of the first clear bit at or after [offset] and
    below [size], and [size] when there is none; [offset] is an
    [unsigned long], so a negative [int] passed for it is at or above
    [size]. *)
Definition find_next_zero_bit (map : Z) (size offset : Z) : Z :=
  let offset := offset mod 2^64 in
  scan_zero map size (Z.to_nat (size - offset)) offset.

Definition BUG_ON (cond : bool) : mem unit :=
  if cond then Fault else Val tt.

Definition choose_devnum (bus : usb_bus) (udev : usb_device)
  : mem (usb_bus * usb_device) :=
  (r <~ (if wusb udev then
           let devnum := portnum udev + 1 in
           b <~ test_bit devnum (devicemap bus) ;;
           _ <~ BUG_ON b ;;
           Val (devnum, bus)
         else
           let devnum :=
             find_next_zero_bit (devicemap bus) 128 (devnum_next bus) in
           let devnum :=
             if devnum >=? 128
             then find_next_zero_bit (devicemap bus) 128 1 else devnum in
           Val (devnum,
                UsbBus (devicemap bus)
                       (if devnum >=? 127 then 1 else devnum + 1))) ;;
   let '(devnum, bus) := r in
   if devnum <? 128 then
     map <~ set_bit devnum (devicemap bus) ;;
     Val (UsbBus map (devnum_next bus),
          UsbDevice devnum (wusb udev) (portnum udev))
   else Val (bus, udev))%mem.

Definition release_devnum (bus : usb_bus) (udev : usb_device)
  : mem (usb_bus * usb_device) :=
  if devnum udev >? 0 then
    (map <~ clear_bit (devnum udev) (devicemap bus) ;;
     Val (UsbBus map (devnum_next bus),
          UsbDevice (-1) (wusb udev) (portnum udev)))%mem
  else Val (bus, udev).

(** *** The devices of one bus

    The devices allocated on a bus, by identity, and what the driver
    does with their numbers: [hub_port_connect_change] allocates a
    device and calls [choose_devnum]; its failure path and
    [usb_disconnect] call [release_devnum] and then drop the device. *)
Record bus_state := BusState {
  bus     : usb_bus;
  devices : gmap nat usb_device
}.

(** Modelled from the spec: [usb_alloc_dev] and [usb_bus_init] are not in
    this file.  A new device is unaddressed (device number 0), and a new
    bus has an empty map and starts handing out numbers at 1. *)
Definition usb_alloc_dev (is_wusb : bool) (port1 : Z) : usb_device :=
  UsbDevice 0 is_wusb port1.
Definition usb_bus_init : usb_bus := UsbBus 0 1.

Inductive step : bus_state -> bus_state -> Prop :=
| step_alloc st id w p :
    devices st !! id = None ->
    0 <= p < 256 ->
    step st (BusState (bus st) (<[id := usb_alloc_dev w p]> (devices st)))
| step_choose st id udev bus' udev' :
    devices st !! id = Some udev ->
    choose_devnum (bus st) udev = Val (bus', udev') ->
    step st (BusState bus' (<[id := udev']> (devices st)))
| step_release st id udev bus' udev' :
    devices st !! id = Some udev ->
    release_devnum (bus st) udev = Val (bus', udev') ->
    step st (BusState bus' (<[id := udev']> (devices st)))
| step_put st id udev :
    devices st !! id = Some udev ->
    devnum udev <= 0 ->
    step st (BusState (bus st) (delete id (devices st))).

Inductive reachable : bus_state -> Prop :=
| reach_init : reachable (BusState usb_bus_init ∅)
| reach_step st st' : reachable st -> step st st' -> reachable st'.

(** [n] more devices are connected one after the other, each being handed
    a number by [choose_devnum]; the numbers handed out, in order. *)
Fixpoint connect_many (n : nat) (b : usb_bus) : mem (list Z) :=
  match n with
  | O => Val []
  | S n' =>
      (r <~ choose_devnum b (usb_alloc_dev false 0) ;;
       rest <~ connect_many n' (fst r) ;;
       Val (devnum (snd r) :: rest))%mem
  end.

(** [d] is the lowest free number at or above [lo]. *)
Definition first_free (map lo d : Z) : Prop :=
  lo <= d < 128 /\ Z.testbit map d = false /\
  forall j, lo <= j < d -> Z.testbit map j = true.

(** No number at or above [lo] is free. *)
Definition none_free (map lo : Z) : Prop :=
  forall j, lo <= j < 128 -> Z.testbit map j = true.

(** The number a round-robin scan from [next] settles on: the first free
    one at or after [next], or else, wrapping, the first free one from 1. *)
Definition round_robin (map next d : Z) : Prop :=
  first_free map next d \/ (none_free map next /\ first_free map 1 d).

(** What holds of a bus and its devices at any time: the next number to
    try is between 1 and 127; the bit of every number a device holds is
    set; and no number is held twice.  A device holds a number when its
    [devnum] is positive (0 is unaddressed, -1 is released). *)
Definition numbers_marked (st : bus_state) : Prop :=
  forall id u, devices st !! id = Some u -> 0 < devnum u ->
    devnum u < 128 /\ Z.testbit (devicemap (bus st)) (devnum u) = true.

Definition numbers_distinct (st : bus_state) : Prop :=
  forall i j u v,
    devices st !! i = Some u -> devices st !! j = Some v ->
    0 < devnum u -> devnum u = devnum v -> i = j.

Definition bus_inv (st : bus_state) : Prop :=
  1 <= devnum_next (bus st) <= 127 /\ numbers_marked st /\ numbers_distinct st.

(** How far the scan has to go from [next] to reach [addr], going up and
    wrapping from 127 to 1. *)
Definition scan_distance (next addr : Z) : Z :=
  if next <=? addr then addr - next else addr - next + 127.

(** A bus after its first device was connected on port 3. *)
Definition one_alloc : bus_state :=
  BusState usb_bus_init (<[0%nat := usb_alloc_dev false 3]> ∅).
Definition one_device : bus_state :=
  BusState (UsbBus 2 2) (<[0%nat := UsbDevice 1 false 3]> (devices one_alloc)).

End Devnum.

(** ** The device tree *)

Module Topology.

(** [struct dev_state *]: an owner handle, compared by identity; the
    pointer may be NULL. *)
Definition dev_state := nat.

(** [struct usb_port]. *)
Record usb_port (D : Type) := UsbPort {
  child      : option D;
  port_owner : option dev_state
}.
Arguments UsbPort {D} child port_owner.
Arguments child {D} _.
Arguments port_owner {D} _.

(** [struct usb_device] with the [struct usb_hub] bound to its interface.
    The devices below a hub hang off its ports, so the tree has no cycle
    by construction; [has_parent] stands for [udev->parent != NULL],
    [actconfig] holds [actconfig->desc.bmAttributes], and [intfdata] is
    [usb_get_intfdata(actconfig->interface[0])], the hub's port array. *)
#[warnings="-register-all"]
Inductive usb_device := UsbDevice {
  state           : usb_device_state;
  devnum          : Z;                       (* int *)
  has_parent      : bool;
  maxchild        : Z;                       (* int *)
  actconfig       : option Z;
  active_duration : Z;                       (* unsigned long *)
  intfdata        : option (list (usb_port usb_device))
}.

Abbreviation usb_hub := (list (usb_port usb_device)).

Definition ulong (x : Z) : Z := x mod 2^64.
Definition USB_CONFIG_ATT_WAKEUP : Z := 0x20.

Definition usb_hub_to_struct_hub (hdev : usb_device) : option usb_hub :=
  match actconfig hdev with
  | None => None
  | Some _ => if maxchild hdev =? 0 then None else intfdata hdev
  end.

Definition set_state (udev : usb_device) (st : usb_device_state)
    (dur : Z) (hub : option usb_hub) : usb_device :=
  UsbDevice st (devnum udev) (has_parent udev) (maxchild udev)
    (actconfig udev) dur hub.

Section Jiffies.

Variable jiffies : Z.

(** [recursively_mark_NOTATTACHED].  The [for (i = 0; i < udev->maxchild;
    ++i)] loop runs over the first [maxchild] entries of [hub->ports]; an
    entry missing from the array is a read past its end.  The port array
    is taken from [intfdata] before the two other tests of
    [usb_hub_to_struct_hub], which lets the recursion descend into it
    structurally; [recursively_mark_NOTATTACHED_eq] below restates the
    function in the order of the source. *)
Fixpoint recursively_mark_NOTATTACHED (udev : usb_device) : mem usb_device :=
  match intfdata udev with
  | None => Val udev
  | Some hub =>
      if bool_decide (actconfig udev = None) || (maxchild udev =? 0)
      then Val udev
      else
      (ports <~
         (fix loop (ports : usb_hub) (n : nat) {struct ports} : mem usb_hub :=
            match ports, n with
            | _, O => Val ports
            | [], S _ => Fault
            | port :: rest, S n' =>
                port' <~ match child port with
                         | Some c =>
                             c' <~ recursively_mark_NOTATTACHED c ;;
                             Val (UsbPort (Some c') (port_owner port))
                         | None => Val port
                         end ;;
                rest' <~ loop rest n' ;;
                Val (port' :: rest')
            end) hub (Z.to_nat (maxchild udev)) ;;
       let dur :=
         if bool_decide (state udev = USB_STATE_SUSPENDED)
         then ulong (active_duration udev - jiffies)
         else active_duration udev in
       Val (set_state udev USB_STATE_NOTATTACHED dur (Some ports)))%mem
  end.

(** The loop of [recursively_mark_NOTATTACHED] on its own. *)
Fixpoint mark_ports (n : nat) (ports : usb_hub) : mem usb_hub :=
  match n with
  | O => Val ports
  | S n' =>
      match ports with
      | [] => Fault
      | port :: rest =>
          (port' <~ match child port with
                    | Some c =>
                        c' <~ recursively_mark_NOTATTACHED c ;;
                        Val (UsbPort (Some c') (port_owner port))
                    | None => Val port
                    end ;;
           rest' <~ mark_ports n' rest ;;
           Val (port' :: rest'))%mem
      end
  end.

(** [usb_set_device_state], with the value of [wakeup] it ends with (the
    argument of [device_set_wakeup_capable] when not negative). *)
Definition usb_set_device_state (udev : usb_device)
    (new_state : usb_device_state) : mem (usb_device * Z) :=
  if bool_decide (state udev = USB_STATE_NOTATTACHED) then Val (udev, -1)
  else if negb (bool_decide (new_state = USB_STATE_NOTATTACHED)) then
    (wakeup <~
       (if has_parent udev then
          if bool_decide (state udev = USB_STATE_SUSPENDED)
             || bool_decide (new_state = USB_STATE_SUSPENDED)
          then Val (-1)
          else if bool_decide (new_state = USB_STATE_CONFIGURED)
          then bmAttributes <~ deref (actconfig udev) ;;
               Val (Z.land bmAttributes USB_CONFIG_ATT_WAKEUP)
          else Val 0
        else Val (-1)) ;;
     let dur :=
       if bool_decide (state udev = USB_STATE_SUSPENDED)
          && negb (bool_decide (new_state = USB_STATE_SUSPENDED))
       then ulong (active_duration udev - jiffies)
       else if bool_decide (new_state = USB_STATE_SUSPENDED)
               && negb (bool_decide (state udev = USB_STATE_SUSPENDED))
       then ulong (active_duration udev + jiffies)
       else active_duration udev in
     Val (set_state udev new_state dur (intfdata udev), wakeup))%mem
  else
    (udev' <~ recursively_mark_NOTATTACHED udev ;; Val (udev', -1))%mem.

End Jiffies.

(** *** Views of a subtree *)

(** The devices attached below [udev], through the ports of its hub. *)
Fixpoint descendants (udev : usb_device) : list usb_device :=
  match intfdata udev with
  | None => []
  | Some hub =>
      (fix go (ports : usb_hub) : list usb_device :=
         match ports with
         | [] => []
         | port :: rest =>
             match child port with
             | Some c => c :: descendants c ++ go rest
             | None => go rest
             end
         end) hub
  end.

Definition subtree (udev : usb_device) : list usb_device :=
  udev :: descendants udev.

Definition count_NOTATTACHED (l : list usb_device) : nat :=
  length (filter (fun d => state d = USB_STATE_NOTATTACHED) l).

(** The device numbers held in a subtree. *)
Definition held_devnums (udev : usb_device) : list Z :=
  filter (fun n => 0 < n) (devnum <$> subtree udev).

(** *** Port ownership and topology queries *)

(** [hub->ports[i]]. *)
Definition port_at (hub : usb_hub) (i : Z) : mem (usb_port usb_device) :=
  if i <? 0 then Fault else deref (hub !! Z.to_nat i).

(** [find_port_owner]: the error code and, on success, the port whose
    [port_owner] field [*ppowner] points to ([port1] is [unsigned]). *)
Definition find_port_owner (hdev : usb_device) (port1 : Z)
  : mem (Z * option (usb_port usb_device)) :=
  match usb_hub_to_struct_hub hdev with
  | None => Val (- ENODEV, None)
  | Some hub =>
      if bool_decide (state hdev = USB_STATE_NOTATTACHED)
      then Val (- ENODEV, None)
      else if (port1 =? 0) || (port1 >? u32 (maxchild hdev))
      then Val (- EINVAL, None)
      else (port <~ port_at hub (port1 - 1) ;; Val (0, Some port))%mem
  end.

(** [*powner = owner] through the pointer [find_port_owner] returned. *)
Definition store_owner (hdev : usb_device) (port1 : Z)
    (owner : option dev_state) : usb_device :=
  set_state hdev (state hdev) (active_duration hdev)
    (alter (fun port => UsbPort (child port) owner) (Z.to_nat (port1 - 1))
       <$> intfdata hdev).

Definition usb_hub_claim_port (hdev : usb_device) (port1 : Z)
    (owner : option dev_state) : mem (Z * usb_device) :=
  (r <~ find_port_owner hdev port1 ;;
   match r with
   | (0, Some port) =>
       match port_owner port with
       | Some _ => Val (- EBUSY, hdev)
       | None => Val (0, store_owner hdev port1 owner)
       end
   | (rc, _) => Val (rc, hdev)
   end)%mem.

Definition usb_hub_release_port (hdev : usb_device) (port1 : Z)
    (owner : option dev_state) : mem (Z * usb_device) :=
  (r <~ find_port_owner hdev port1 ;;
   match r with
   | (0, Some port) =>
       if bool_decide (port_owner port = owner)
       then Val (0, store_owner hdev port1 None)
       else Val (- ENOENT, hdev)
   | (rc, _) => Val (rc, hdev)
   end)%mem.

(** [usb_hub_find_child] ([port1] is an [int]). *)
Definition usb_hub_find_child (hdev : usb_device) (port1 : Z)
  : mem (option usb_device) :=
  match usb_hub_to_struct_hub hdev with
  | None => Val None
  | Some hub =>
      if (port1 <? 1) || (port1 >? maxchild hdev) then Val None
      else (port <~ port_at hub (port1 - 1) ;; Val (child port))%mem
  end.

(** The port array of the device has [maxchild] entries ([hub_configure]
    allocates it so). *)
Definition ports_ok (udev : usb_device) : Prop :=
  match intfdata udev with
  | Some hub => Z.of_nat (length hub) = maxchild udev
  | None => True
  end.

(** A subtree all of whose devices are configured hubs with their port
    array in place (leaf hubs included: hubs with nothing on their ports). *)
Fixpoint hub_tree (udev : usb_device) : Prop :=
  match intfdata udev with
  | None => False
  | Some hub =>
      is_Some (actconfig udev) /\ maxchild udev <> 0 /\
      Z.of_nat (length hub) = maxchild udev /\
      (fix all (ports : usb_hub) : Prop :=
         match ports with
         | [] => True
         | port :: rest =>
             match child port with
             | Some c => hub_tree c
             | None => True
             end /\ all rest
         end) hub
  end.

(** The devices hanging off a port array. *)
Definition ports_devices (hub : usb_hub) : list usb_device :=
  flat_map (fun port => match child port with
                        | Some c => subtree c
                        | None => []
                        end) hub.

(** What marking a subtree achieves: every device of the subtree is
    NOTATTACHED afterwards and holds the device number it held. *)
Definition marked (jiffies : Z) (udev : usb_device) : Prop :=
  exists udev',
    recursively_mark_NOTATTACHED jiffies udev = Val udev' /\
    Forall (fun d => state d = USB_STATE_NOTATTACHED) (subtree udev') /\
    devnum <$> subtree udev' = devnum <$> subtree udev.

(** A hub that holds device number 2, with nothing on its one port. *)
Definition lone_hub : usb_device :=
  UsbDevice USB_STATE_CONFIGURED 2 true 1 (Some 0xe0) 0 (Some [UsbPort None None]).

(** A configured device that is not a hub. *)
Definition leaf_device : usb_device :=
  UsbDevice USB_STATE_CONFIGURED 3 true 0 (Some 0x80) 0 None.

(** A hub with two hubs on its ports, one of them suspended. *)
Definition small_tree : usb_device :=
  UsbDevice USB_STATE_CONFIGURED 1 false 2 (Some 0xe0) 0
    (Some [UsbPort (Some lone_hub) None;
           UsbPort (Some (UsbDevice USB_STATE_SUSPENDED 3 true 4 (Some 0xe0) 7
                            (Some [UsbPort None None; UsbPort None (Some 5%nat);
                                   UsbPort None None; UsbPort None None])))
                   None]).

(** A hub with a device on the second of its two ports. *)
Definition two_port_hub : usb_device :=
  UsbDevice USB_STATE_CONFIGURED 1 false 2 (Some 0xe0) 0
    (Some [UsbPort None None;
           UsbPort (Some (UsbDevice USB_STATE_CONFIGURED 2 true 0 (Some 0x80) 0 None))
                   (Some 7%nat)]).

(** The same hub once it has been marked NOTATTACHED: the hub structure
    and the owner of port 2 are still there. *)
Definition detached_hub : usb_device :=
  UsbDevice USB_STATE_NOTATTACHED 1 false 2 (Some 0xe0) 0
    (Some [UsbPort None None;
           UsbPort (Some (UsbDevice USB_STATE_CONFIGURED 2 true 0 (Some 0x80) 0 None))
                   (Some 7%nat)]).

End Topology.

(** ** The queue of hubs with pending events *)

Module EventQueue.

(** The fields of [struct usb_hub] the queue code touches.  [event_list]
    is the hub's list node: [true] when it is linked into a list
    ([list_empty(&hub->event_list)] is false), [false] when it points to
    itself.  [pm_usage] counts the autosuspend references taken for the
    queue. *)
Record usb_hub := UsbHub {
  disconnected : bool;
  event_list   : bool;
  pm_usage     : Z
}.

(** The hubs by identity, and the global [hub_event_list] from its head. *)
Record khubd := Khubd {
  hubs           : gmap nat usb_hub;
  hub_event_list : list nat
}.

(** [list_add_tail(&hub->event_list, &hub_event_list)]. *)
Definition list_add_tail (h : nat) (hub : usb_hub) (st : khubd) : khubd :=
  Khubd (<[h := UsbHub (disconnected hub) true (pm_usage hub)]> (hubs st))
        (hub_event_list st ++ [h]).

(** Unlinking a node takes that one node out of the list it is in. *)
Fixpoint unlink (h : nat) (l : list nat) : list nat :=
  match l with
  | [] => []
  | x :: l' => if bool_decide (x = h) then l' else x :: unlink h l'
  end.

(** [list_del_init(&hub->event_list)]. *)
Definition list_del_init (h : nat) (hub : usb_hub) (st : khubd) : khubd :=
  Khubd (<[h := UsbHub (disconnected hub) false (pm_usage hub)]> (hubs st))
        (unlink h (hub_event_list st)).

Definition update_hub (h : nat) (f : usb_hub -> usb_hub) (st : khubd) : khubd :=
  Khubd (alter f h (hubs st)) (hub_event_list st).

(** [hub_probe]: [kzalloc] and [INIT_LIST_HEAD(&hub->event_list)]. *)
Definition hub_probe (h : nat) (st : khubd) : khubd :=
  Khubd (<[h := UsbHub false false 0]> (hubs st)) (hub_event_list st).

(** [kick_khubd], between taking and dropping [hub_event_lock]. *)
Definition kick_khubd (h : nat) (st : khubd) : khubd :=
  match hubs st !! h with
  | None => st
  | Some hub =>
      if negb (disconnected hub) && negb (event_list hub) then
        update_hub h
          (fun hub => UsbHub (disconnected hub) (event_list hub)
                        (pm_usage hub + 1))
          (list_add_tail h hub st)
      else st
  end.

(** [hub_disconnect], between taking and dropping [hub_event_lock]. *)
Definition hub_disconnect (h : nat) (st : khubd) : khubd :=
  match hubs st !! h with
  | None => st
  | Some hub =>
      let st :=
        if event_list hub then
          update_hub h
            (fun hub => UsbHub (disconnected hub) (event_list hub)
                          (pm_usage hub - 1))
            (list_del_init h hub st)
        else st in
      update_hub h
        (fun hub => UsbHub true (event_list hub) (pm_usage hub)) st
  end.

(** [hub_events], from taking [hub_event_lock] to dropping it: the hub at
    the head of the list is taken off it. *)
Definition hub_events_dequeue (st : khubd) : option nat * khubd :=
  match hub_event_list st with
  | [] => (None, st)
  | h :: _ =>
      match hubs st !! h with
      | None => (Some h, Khubd (hubs st) (unlink h (hub_event_list st)))
      | Some hub => (Some h, list_del_init h hub st)
      end
  end.

(** The critical sections run one at a time (they all hold
    [hub_event_lock]), in any order and for any hub. *)
Inductive step : khubd -> khubd -> Prop :=
| step_probe h st :
    hubs st !! h = None -> step st (hub_probe h st)
| step_kick h st :
    is_Some (hubs st !! h) -> step st (kick_khubd h st)
| step_disconnect h st :
    is_Some (hubs st !! h) -> step st (hub_disconnect h st)
| step_events st :
    step st (snd (hub_events_dequeue st)).

Definition khubd0 : khubd := Khubd ∅ [].

Definition reachable : khubd -> Prop := rtc step khubd0.

(** Number of times hub [h] is on the list. *)
Definition times_queued (h : nat) (st : khubd) : nat :=
  length (filter (fun x => x = h) (hub_event_list st)).

Definition is_disconnected (h : nat) (st : khubd) : Prop :=
  exists hub, hubs st !! h = Some hub /\ disconnected hub = true.

(** What holds of the queue at any time: no hub is on the list twice; the
    hubs on the list are those whose list node is linked; and the node of
    a disconnected hub is not linked. *)
Definition queue_inv (st : khubd) : Prop :=
  NoDup (hub_event_list st) /\
  (forall h, h ∈ hub_event_list st <->
             exists hub, hubs st !! h = Some hub /\ event_list hub = true) /\
  (forall h hub, hubs st !! h = Some hub -> disconnected hub = true ->
                 event_list hub = false).

(** One hub, probed and kicked. *)
Definition one_hub_queued : khubd := kick_khubd 0%nat (hub_probe 0%nat khubd0).

End EventQueue.

(** ** More of the status path *)

Module HubStatus.
Import StatusReader PortPolling.

Section Wire.

Variable wire : Z -> nat -> urb_result.

(** [hub_hub_status]: unlike [hub_port_status] it takes any result that is
    not negative as success, whatever the number of bytes; the words it
    hands back are then those the status buffer holds, which are the
    words of this answer when it was a full one. *)
Definition hub_hub_status (old : Z * Z) : M (Z * (Z * Z)) :=
  (r <- get_hub_status wire ;;
   if r <? 0 then ret (r, old)
   else (d <- read_buffer ;; ret (0, (u16 (fst d), u16 (snd d)))))%io.

(** [check_ports_changed]: the loop over the ports from [port1] on, with
    [n] ports left up to [maxchild]. *)
Fixpoint check_ports_from (n : nat) (port1 : Z) : M Z :=
  match n with
  | O => ret 0
  | S n' =>
      (r <- hub_port_status wire port1 (0, 0) ;;
       let '(status, (portstatus, portchange)) := r in
       if (status =? 0) && negb (portchange =? 0) then ret 1
       else check_ports_from n' (port1 + 1))%io
  end.

Definition check_ports_changed (maxchild : Z) : M Z :=
  check_ports_from (Z.to_nat maxchild) 1.

(** The state after the status of [n] ports, from [port1] on, has been
    read one after the other. *)
Fixpoint read_ports (n : nat) (port1 : Z) (s : hub_io) : hub_io :=
  match n with
  | O => s
  | S n' =>
      read_ports n' (port1 + 1) (snd (hub_port_status wire port1 (0, 0) s))
  end.

(** The answer that decides the read of the [k]-th of these ports: the
    last transfer issued for it. *)
Definition answer_at (port1 : Z) (s : hub_io) (k : nat) : urb_result :=
  wire (port1 + Z.of_nat k) (transfers (read_ports (S k) port1 s) - 1)%nat.

(** What [hub_port_status] hands back for the answer [last] of the last
    transfer it issued. *)
Definition port_status_of (last : urb_result) (old : Z * Z) : Z * (Z * Z) :=
  if 4 <=? urb_ret last
  then (0, (u16 (urb_wStatus last), u16 (urb_wChange last)))
  else if 0 <=? urb_ret last then (- EIO, old)
  else (urb_ret last, old).

(** Number of polls [hub_port_wait_reset] can still make when its
    [delay_time] is [dt] and its delay is at least 1 ms: one per
    millisecond up to 20 ms, then one per 200 ms up to 800 ms. *)
Definition reset_polls_left (dt : Z) : Z :=
  if 800 <=? dt then 0
  else if 20 <=? dt then (999 - dt) / 200
  else 24 - dt.

End Wire.

(** A port that reports a finished reset at the third poll: connected,
    enabled, high speed. *)
Definition reset_done_port (port1 : Z) (k : nat) : urb_result :=
  Urb 4 (if (k <? 2)%nat then 0x0113 else 0x0503) 0.

(** An answer that delivers both words with a change word other than 0. *)
Definition reports_change (r : urb_result) : bool :=
  (4 <=? urb_ret r) && negb (u16 (urb_wChange r) =? 0).

(** A port with a steady connection. *)
Definition steady_port (port1 : Z) (k : nat) : urb_result := Urb 4 0x0101 0.

End HubStatus.

(** ** Port owners: releasing all ports, owned devices *)

Module Ownership.
Import Topology.

(** What [usb_hub_release_all_ports] does to one port. *)
Definition disown (owner : option dev_state) (port : usb_port usb_device)
  : usb_port usb_device :=
  if bool_decide (port_owner port = owner)
  then UsbPort (child port) None else port.

(** [for (n = 0; n < hdev->maxchild; n++) ...] with [k] values of [n]
    left below [maxchild]. *)
Fixpoint release_all_loop (k : nat) (n : Z) (owner : option dev_state)
    (hub : usb_hub) : mem usb_hub :=
  match k with
  | O => Val hub
  | S k' =>
      (port <~ port_at hub n ;;
       release_all_loop k' (n + 1) owner
         (if bool_decide (port_owner port = owner)
          then <[Z.to_nat n := UsbPort (child port) None]> hub
          else hub))%mem
  end.

Definition usb_hub_release_all_ports (hdev : usb_device)
    (owner : option dev_state) : mem usb_device :=
  match usb_hub_to_struct_hub hdev with
  | None => Val hdev
  | Some hub =>
      (hub' <~ release_all_loop (Z.to_nat (maxchild hdev)) 0 owner hub ;;
       Val (set_state hdev (state hdev) (active_duration hdev) (Some hub')))%mem
  end.

(** [usb_device_is_owned].  [parent] is [udev->parent], of which the
    device record keeps only whether it is NULL, and [portnum] is
    [udev->portnum]. *)
Definition usb_device_is_owned (udev : usb_device)
    (parent : option usb_device) (portnum : Z) : mem bool :=
  if bool_decide (state udev = USB_STATE_NOTATTACHED) then Val false
  else
    match parent with
    | None => Val false
    | Some hdev =>
        match usb_hub_to_struct_hub hdev with
        | None => Val false
        | Some hub =>
            (port <~ port_at hub (portnum - 1) ;;
             Val (bool_decide (is_Some (port_owner port))))%mem
        end
    end.

(** A hub with three ports, two of them claimed by owner 7. *)
Definition claimed_hub : usb_device :=
  UsbDevice USB_STATE_CONFIGURED 1 false 3 (Some 0xe0) 0
    (Some [UsbPort None (Some 7%nat);
           UsbPort (Some leaf_device) (Some 4%nat);
           UsbPort None (Some 7%nat)]).

End Ownership.

(** ** Interrupt completion *)

Module HubIrq.
Import EventQueue.

Definition ECONNRESET : Z := 104.
Definition ESHUTDOWN  : Z := 108.

(** The fields of [struct usb_hub] the completion handler touches. *)
Record irq_hub := IrqHub {
  nerrors    : Z;       (* int *)
  error      : Z;       (* int *)
  event_bits : Z;       (* unsigned long event_bits[0] *)
  quiescing  : bool
}.

(** The completed [struct urb]: its status, the number of bytes that
    arrived, and the bytes of the hub's buffer ([char] is unsigned on
    this target). *)
Record urb := MkUrb {
  urb_status    : Z;         (* int *)
  actual_length : Z;         (* u32 *)
  urb_buffer    : list Z
}.

(** The loop [for (i = 0; i < urb->actual_length; ++i)] that ORs byte
    [i] of the hub's buffer, as an [unsigned long] shifted left by
    [i*8], into [bits]; [n] values of [i] are left. *)
Fixpoint collect_bits (n : nat) (i : Z) (buf : list Z) (bits : Z) : mem Z :=
  match n with
  | O => Val bits
  | S n' =>
      (b <~ deref (buf !! Z.to_nat i) ;;
       collect_bits n' (i + 1) buf
         (Z.lor bits (Topology.ulong (Z.shiftl b (i * 8)))))%mem
  end.

(** [hub_irq] for the hub [h]: the hub's fields and the event queue
    afterwards, and whether the URB was submitted again. *)
Definition hub_irq (h : nat) (u : urb) (hub : irq_hub) (st : khubd)
  : mem (irq_hub * khubd * bool) :=
  let status := urb_status u in
  if (status =? - ENOENT) || (status =? - ECONNRESET)
     || (status =? - ESHUTDOWN)
  then Val (hub, st, false)
  else
    (* [case 0:] and the code after the [switch] *)
    let got_data (hub : irq_hub) : mem (irq_hub * khubd) :=
      (bits <~ collect_bits (Z.to_nat (actual_length u)) 0 (urb_buffer u) 0 ;;
       Val (IrqHub 0 (error hub) bits (quiescing hub), kick_khubd h st))%mem in
    (r <~ (if status =? 0 then got_data hub
           else
             let hub := IrqHub (s32 (nerrors hub + 1)) (error hub)
                          (event_bits hub) (quiescing hub) in
             if (nerrors hub <? 10) || negb (error hub =? 0)
             then Val (hub, st)
             else got_data (IrqHub (nerrors hub) status (event_bits hub)
                              (quiescing hub))) ;;
     let '(hub, st) := r in
     Val (hub, st, negb (quiescing hub)))%mem.

(** The completions of a list of URBs, one after the other. *)
Fixpoint hub_irq_all (h : nat) (urbs : list urb) (hub : irq_hub) (st : khubd)
  : mem (irq_hub * khubd) :=
  match urbs with
  | [] => Val (hub, st)
  | u :: rest =>
      (r <~ hub_irq h u hub st ;;
       hub_irq_all h rest (fst (fst r)) (snd (fst r)))%mem
  end.

(** A completion that reports a transfer error: not success, and not one
    of the three codes of an unlinked URB. *)
Definition is_error (u : urb) : Prop :=
  urb_status u <> 0 /\ urb_status u <> - ENOENT /\
  urb_status u <> - ECONNRESET /\ urb_status u <> - ESHUTDOWN.

(** A hub that was probed, and nine failed transfers followed by a
    tenth. *)
Definition fresh_hub : irq_hub := IrqHub 0 0 0 false.
Definition nine_errors : list urb := replicate 9 (MkUrb (- EPIPE) 0 []).
Definition tenth_error : urb := MkUrb (- ETIMEDOUT) 0 [].

(** A completion with the change bits of ports 1 and 9. *)
Definition two_bytes : urb := MkUrb 0 2 [0x02; 0x02; 0; 0; 0; 0; 0; 0].

End HubIrq.

(** ** The worker's side of the event queue *)

Module Worker.
Import EventQueue.

(** [n] passes of the worker's loop: the hubs taken off the list, in
    order, and the queue afterwards. *)
Fixpoint drain (n : nat) (st : khubd) : list nat * khubd :=
  match n with
  | O => ([], st)
  | S n' =>
      match hub_events_dequeue st with
      | (None, st') => ([], st')
      | (Some h, st') =>
          let '(l, st'') := drain n' st' in (h :: l, st'')
      end
  end.

(** Two hubs, probed and kicked one after the other. *)
Definition two_hubs_queued : khubd :=
  kick_khubd 1%nat (hub_probe 1%nat (kick_khubd 0%nat (hub_probe 0%nat khubd0))).

End Worker.

(** ** The port after a resume *)

Module PortResume.

(** Port status and feature numbers ([include/uapi/linux/usb/ch11.h]). *)
Definition USB_PORT_STAT_SUSPEND   : Z := 0x0004.
Definition USB_PORT_STAT_POWER     : Z := 0x0100.
Definition USB_SS_PORT_STAT_POWER  : Z := 0x0200.
Definition USB_SS_PORT_LS_U3       : Z := 0x0060.
Definition USB_PORT_STAT_C_ENABLE  : Z := 0x0002.
Definition USB_PORT_FEAT_C_CONNECTION : Z := 16.
Definition USB_PORT_FEAT_C_ENABLE     : Z := 17.

(** The two bits of [struct usb_device] the check reads and writes. *)
Record usb_device := UsbDevice {
  reset_resume    : bool;    (* unsigned reset_resume:1 *)
  persist_enabled : bool     (* unsigned persist_enabled:1 *)
}.

Section Hub.

Variable hub_is_superspeed : bool.   (* hub_is_superspeed(hub->hdev) *)

Definition port_is_power_on (portstatus : Z) : Z :=
  if hub_is_superspeed
  then (if tst portstatus USB_SS_PORT_STAT_POWER then 1 else 0)
  else (if tst portstatus USB_PORT_STAT_POWER then 1 else 0).

Definition port_is_suspended (portstatus : Z) : Z :=
  if hub_is_superspeed
  then (if Z.land portstatus USB_PORT_STAT_LINK_STATE =? USB_SS_PORT_LS_U3
        then 1 else 0)
  else (if tst portstatus USB_PORT_STAT_SUSPEND then 1 else 0).

(** [check_port_resume_type]: the status returned, the device afterwards,
    and the port features cleared, in order. *)
Definition check_port_resume_type (udev : usb_device)
    (status portchange portstatus : Z) : Z * usb_device * list Z :=
  let '(status, udev) :=
    if negb (status =? 0) || negb (port_is_suspended portstatus =? 0)
       || (port_is_power_on portstatus =? 0)
       || negb (tst portstatus USB_PORT_STAT_CONNECTION)
    then ((if status >=? 0 then - ENODEV else status), udev)
    else if negb (tst portstatus USB_PORT_STAT_ENABLE)
            && negb (reset_resume udev)
    then
      if persist_enabled udev
      then (status, UsbDevice true (persist_enabled udev))
      else (- ENODEV, udev)
    else (status, udev) in
  let clears :=
    if negb (status =? 0) then []
    else if reset_resume udev then
      (if tst portchange USB_PORT_STAT_C_CONNECTION
       then [USB_PORT_FEAT_C_CONNECTION] else []) ++
      (if tst portchange USB_PORT_STAT_C_ENABLE
       then [USB_PORT_FEAT_C_ENABLE] else [])
    else [] in
  (status, udev, clears).

End Hub.
End PortResume.

(** ** Reading the hub descriptor *)

Module HubDescriptor.

Definition USB_DT_HUB_NONVAR_SIZE : Z := 7.

Section Wire.

Variable wire : Z -> nat -> urb_result.

(** The GET_DESCRIPTOR control transfer: its result is the number of
    bytes that arrived, or an error. *)
Definition usb_control_msg : M Z :=
  fun s =>
    (urb_ret (wire 0 (transfers s)),
     HubIo (S (transfers s)) (buffer s) (slept s) (cleared s)).

(** [for (i = 0; i < 3; i++) { ... }] with [n] tries left. *)
Fixpoint get_descriptor_loop (n : nat) : M Z :=
  match n with
  | O => ret (- EINVAL)
  | S n' =>
      (r <- usb_control_msg ;;
       if r >=? USB_DT_HUB_NONVAR_SIZE + 2 then ret r
       else get_descriptor_loop n')%io
  end.

Definition get_hub_descriptor : M Z := get_descriptor_loop 3.

End Wire.
End HubDescriptor.

(** ** Which devices take part in link power management *)

Module LpmSupport.
Import Lpm.





End LpmSupport.

(** ** Connect types and the removable bits of the hub descriptor *)

Module Removable.

(** Modelled from the spec: the ports' connect-type and the devices'
    removable classification are enumerations of [include/linux/usb.h],
    which is not in this file; the code here names
    [USB_PORT_CONNECT_TYPE_UNKNOWN], [USB_PORT_CONNECT_TYPE_HARD_WIRED],
    [USB_DEVICE_REMOVABLE] and [USB_DEVICE_FIXED]. *)
Inductive usb_port_connect_type :=
| USB_PORT_CONNECT_TYPE_UNKNOWN | USB_PORT_CONNECT_TYPE_HOT_PLUG
| USB_PORT_CONNECT_TYPE_HARD_WIRED | USB_PORT_NOT_USED.


Global Instance usb_port_connect_type_eq_dec : EqDecision usb_port_connect_type.
Proof. solve_decision. Defined.


Definition u8 (x : Z) : Z := x mod 2 ^ 8.

(** [struct usb_hub_descriptor] as this code reads it.  The two
    [DeviceRemovable] fields are those of the members [hs] and [ss] of
    the union [u]; the code touches the one that fits the hub's speed. *)
Record usb_hub_descriptor := HubDescriptor {
  wHubCharacteristics : Z;          (* __le16 *)
  hs_DeviceRemovable  : list Z;     (* __u8 DeviceRemovable[] *)
  ss_DeviceRemovable  : Z           (* __le16 *)
}.

(** The hub as [usb_hub_to_struct_hub] finds it: NULL, or the connect
    types of [hub->ports]. *)
Abbreviation usb_hub := (option (list usb_port_connect_type)).

Definition port_at (ports : list usb_port_connect_type) (i : Z)
  : mem usb_port_connect_type :=
  if i <? 0 then Fault else deref (ports !! Z.to_nat i).


Definition usb_get_hub_port_connect_type (hub : usb_hub) (port1 : Z)
  : mem usb_port_connect_type :=
  match hub with
  | None => Val USB_PORT_CONNECT_TYPE_UNKNOWN
  | Some ports => port_at ports (port1 - 1)
  end.

(** The loop of [usb_hub_adjust_deviceremovable] for a hub below
    SuperSpeed, from port [i] on with [n] ports left. *)
Fixpoint adjust_hs (n : nat) (i : Z) (hub : usb_hub) (dr : list Z)
  : mem (list Z) :=
  match n with
  | O => Val dr
  | S n' =>
      (connect_type <~ usb_get_hub_port_connect_type hub i ;;
       dr' <~
         (if bool_decide (connect_type = USB_PORT_CONNECT_TYPE_HARD_WIRED)
          then
            let mask := u8 (Z.shiftl 1 (Z.rem i 8)) in
            byte <~ deref (dr !! Z.to_nat (Z.quot i 8)) ;;
            if Z.land byte mask =? 0
            then Val (<[Z.to_nat (Z.quot i 8) := Z.lor byte mask]> dr)
            else Val dr
          else Val dr) ;;
       adjust_hs n' (i + 1) hub dr')%mem
  end.

(** The same loop for a SuperSpeed hub, on the 16-bit [port_removable]. *)
Fixpoint adjust_ss (n : nat) (i : Z) (hub : usb_hub) (port_removable : Z)
  : mem Z :=
  match n with
  | O => Val port_removable
  | S n' =>
      (connect_type <~ usb_get_hub_port_connect_type hub i ;;
       let port_removable :=
         if bool_decide (connect_type = USB_PORT_CONNECT_TYPE_HARD_WIRED)
         then
           let mask := u16 (Z.shiftl 1 i) in
           if Z.land port_removable mask =? 0
           then u16 (Z.lor port_removable mask) else port_removable
         else port_removable in
       adjust_ss n' (i + 1) hub port_removable)%mem
  end.

Definition usb_hub_adjust_deviceremovable (hub_is_superspeed : bool)
    (maxchild : Z) (hub : usb_hub) (desc : usb_hub_descriptor)
  : mem usb_hub_descriptor :=
  if negb hub_is_superspeed then
    (dr <~ adjust_hs (Z.to_nat maxchild) 1 hub (hs_DeviceRemovable desc) ;;
     Val (HubDescriptor (wHubCharacteristics desc) dr
            (ss_DeviceRemovable desc)))%mem
  else
    (pr <~ adjust_ss (Z.to_nat maxchild) 1 hub (u16 (ss_DeviceRemovable desc)) ;;
     Val (HubDescriptor (wHubCharacteristics desc) (hs_DeviceRemovable desc)
            pr))%mem.


(** Bit [k] of the byte array [dr], bytes and bits counted from 0. *)
Definition hs_bit (dr : list Z) (k : Z) : bool :=
  Z.testbit (nth (Z.to_nat (k / 8)) dr 0) (k mod 8).

(** The removable bit of port [k] as [set_usb_port_removable] reads it. *)
Definition removable_bit (hub_is_superspeed : bool)
    (desc : usb_hub_descriptor) (k : Z) : bool :=
  if hub_is_superspeed then Z.testbit (u16 (ss_DeviceRemovable desc)) k
  else hs_bit (hs_DeviceRemovable desc) k.

Definition hard_wired (hub : usb_hub) (k : Z) : bool :=
  match hub with
  | Some ports =>
      bool_decide (ports !! Z.to_nat (k - 1)
                   = Some USB_PORT_CONNECT_TYPE_HARD_WIRED)
  | None => false
  end.

(** A compound hub with four ports, the third of them hard-wired. *)
Definition compound_ports : usb_hub :=
  Some [USB_PORT_CONNECT_TYPE_UNKNOWN; USB_PORT_CONNECT_TYPE_HOT_PLUG;
        USB_PORT_CONNECT_TYPE_HARD_WIRED; USB_PORT_CONNECT_TYPE_UNKNOWN].
Definition compound_desc : usb_hub_descriptor :=
  HubDescriptor 0x000d [0; 0; 0; 0] 0.

End Removable.

(** ** Link power management: enabling and disabling U1 and U2

    The calls out of the driver (control transfers to the device,
    requests to the parent hub, the host controller's callbacks and the
    allocator) are events: each is recorded, and its result is what the
    outside world [answer]s to the call of that position. *)

Module LpmControl.

Inductive usb3_link_state :=
| USB3_LPM_U0 | USB3_LPM_U1 | USB3_LPM_U2 | USB3_LPM_U3.

Global Instance usb3_link_state_eq_dec : EqDecision usb3_link_state.
Proof. solve_decision. Defined.

(** Limits of the SET_SEL request and of the U1 timeout
    ([include/linux/usb.h], [include/uapi/linux/usb/ch11.h]). *)
Definition USB3_LPM_MAX_U1_SEL_PEL   : Z := 0xFF.
Definition USB3_LPM_MAX_U2_SEL_PEL   : Z := 0xFFFF.
Definition USB3_LPM_U1_MAX_TIMEOUT   : Z := 0x7F.
Definition USB3_LPM_DEVICE_INITIATED : Z := 0xFF.
Definition ENOMEM : Z := 12.

Inductive event :=
| Kmalloc
| SetSel (u1_sel u1_pel u2_sel u2_pel : Z)
| DeviceFeature (enable : bool) (state : usb3_link_state)
| PortTimeout (state : usb3_link_state) (timeout : Z)
| HcdEnable (state : usb3_link_state)
| HcdDisable (state : usb3_link_state).

Record world := World {
  calls : nat;             (* calls made so far *)
  log   : list event       (* the calls, most recent first *)
}.

Definition L (A : Type) : Type := world -> A * world.
Definition lret {A} (a : A) : L A := fun w => (a, w).
Definition lbind {A B} (m : L A) (f : A -> L B) : L B :=
  fun w => let (a, w') := m w in f a w'.

Declare Scope lpm_scope.
Delimit Scope lpm_scope with lpm.
Notation "x <- m ;; k" := (lbind m (fun x => k))
  (at level 100, m at next level, right associativity) : lpm_scope.

(** The fields of [struct usb_device] this code reads and writes; the
    exit latencies are those of [udev->bos->ss_cap], and the counter is
    an [unsigned] (the structure is declared in [include/linux/usb.h]). *)
Record usb_device := UsbDevice {
  state             : usb_device_state;
  has_parent        : bool;
  speed             : usb_device_speed;
  lpm_capable       : bool;
  actconfig         : bool;      (* udev->actconfig != NULL *)
  bU1devExitLat     : Z;
  bU2DevExitLat     : Z;
  u1_sel            : Z;         (* u1_params.sel, unsigned int *)
  u1_pel            : Z;
  u2_sel            : Z;
  u2_pel            : Z;
  u1_timeout        : Z;         (* u1_params.timeout, int *)
  u2_timeout        : Z;
  lpm_disable_count : Z
}.

(** The callbacks of [hcd->driver] that are not NULL. *)
Record hc_driver := HcDriver {
  enable_usb3_lpm_timeout  : bool;
  disable_usb3_lpm_timeout : bool
}.

Definition set_timeout (udev : usb_device) (state : usb3_link_state)
    (timeout : Z) : usb_device :=
  UsbDevice (LpmControl.state udev) (has_parent udev) (speed udev)
    (lpm_capable udev) (actconfig udev) (bU1devExitLat udev)
    (bU2DevExitLat udev) (u1_sel udev) (u1_pel udev) (u2_sel udev)
    (u2_pel udev)
    (if bool_decide (state = USB3_LPM_U1) then timeout else u1_timeout udev)
    (if bool_decide (state = USB3_LPM_U1) then u2_timeout udev else timeout)
    (lpm_disable_count udev).

Definition set_count (udev : usb_device) (count : Z) : usb_device :=
  UsbDevice (state udev) (has_parent udev) (speed udev)
    (lpm_capable udev) (actconfig udev) (bU1devExitLat udev)
    (bU2DevExitLat udev) (u1_sel udev) (u1_pel udev) (u2_sel udev)
    (u2_pel udev) (u1_timeout udev) (u2_timeout udev) count.

(** [DIV_ROUND_UP] on [unsigned int]. *)
Definition DIV_ROUND_UP (n d : Z) : Z := u32 (u32 (n + d) - 1) / d.

Section World.

Variable answer : nat -> Z.

Definition call (e : event) : L Z :=
  fun w => (answer (calls w), World (S (calls w)) (e :: log w)).

Definition usb_req_set_sel (udev : usb_device) (state : usb3_link_state)
  : L Z :=
  let u1_sel := DIV_ROUND_UP (u1_sel udev) 1000 in
  let u1_pel := DIV_ROUND_UP (u1_pel udev) 1000 in
  let u2_sel := DIV_ROUND_UP (u2_sel udev) 1000 in
  let u2_pel := DIV_ROUND_UP (u2_pel udev) 1000 in
  if (bool_decide (state = USB3_LPM_U1) &&
      ((u1_sel >? USB3_LPM_MAX_U1_SEL_PEL) ||
       (u1_pel >? USB3_LPM_MAX_U1_SEL_PEL)))
     || (bool_decide (state = USB3_LPM_U2) &&
         ((u2_sel >? USB3_LPM_MAX_U2_SEL_PEL) ||
          (u2_pel >? USB3_LPM_MAX_U2_SEL_PEL)))
  then lret (- EINVAL)
  else
    let u1_sel := if u1_sel >? USB3_LPM_MAX_U1_SEL_PEL
                  then USB3_LPM_MAX_U1_SEL_PEL else u1_sel in
    let u1_pel := if u1_pel >? USB3_LPM_MAX_U1_SEL_PEL
                  then USB3_LPM_MAX_U1_SEL_PEL else u1_pel in
    let u2_sel := if u2_sel >? USB3_LPM_MAX_U2_SEL_PEL
                  then USB3_LPM_MAX_U2_SEL_PEL else u2_sel in
    let u2_pel := if u2_pel >? USB3_LPM_MAX_U2_SEL_PEL
                  then USB3_LPM_MAX_U2_SEL_PEL else u2_pel in
    (sel_values <- call Kmalloc ;;
     if sel_values =? 0 then lret (- ENOMEM)
     else call (SetSel u1_sel u1_pel u2_sel u2_pel))%lpm.

Definition usb_set_device_initiated_lpm (udev : usb_device)
    (state : usb3_link_state) (enable : bool) : L Z :=
  match state with
  | USB3_LPM_U1 | USB3_LPM_U2 =>
      if negb (bool_decide (LpmControl.state udev = USB_STATE_CONFIGURED))
      then lret 0
      else
        (ret_ <- call (DeviceFeature enable state) ;;
         lret (if ret_ <? 0 then - EBUSY else 0))%lpm
  | _ => lret (- EINVAL)
  end.

(** [usb_set_lpm_timeout]: its result and the device afterwards.  The
    request goes to [udev->parent], which its callers have tested. *)
Definition usb_set_lpm_timeout (udev : usb_device)
    (state : usb3_link_state) (timeout : Z) : L (Z * usb_device) :=
  match state with
  | USB3_LPM_U1 | USB3_LPM_U2 =>
      if bool_decide (state = USB3_LPM_U1)
         && (timeout >? USB3_LPM_U1_MAX_TIMEOUT)
         && negb (timeout =? USB3_LPM_DEVICE_INITIATED)
      then lret (- EINVAL, udev)
      else
        (ret_ <- call (PortTimeout state timeout) ;;
         lret (if ret_ <? 0 then (- EBUSY, udev)
               else (0, set_timeout udev state timeout)))%lpm
  | _ => lret (- EINVAL, udev)
  end.

Definition usb_enable_link_state (udev : usb_device)
    (state : usb3_link_state) : L usb_device :=
  let u1_mel := bU1devExitLat udev in
  let u2_mel := bU2DevExitLat udev in
  if (bool_decide (state = USB3_LPM_U1) && (u1_mel =? 0))
     || (bool_decide (state = USB3_LPM_U2) && (u2_mel =? 0))
  then lret udev
  else
    (ret_ <- usb_req_set_sel udev state ;;
     if ret_ <? 0 then lret udev
     else
       timeout <- call (HcdEnable state) ;;
       if timeout =? 0 then lret udev
       else if timeout <? 0 then lret udev
       else
         r <- usb_set_lpm_timeout udev state timeout ;;
         let '(rc, udev) := r in
         if negb (rc =? 0)
         then (_ <- call (HcdDisable state) ;; lret udev)
         else if actconfig udev
         then (_ <- usb_set_device_initiated_lpm udev state true ;; lret udev)
         else lret udev)%lpm.

Definition usb_disable_link_state (udev : usb_device)
    (state : usb3_link_state) : L (Z * usb_device) :=
  match state with
  | USB3_LPM_U1 | USB3_LPM_U2 =>
      (r <- usb_set_lpm_timeout udev state 0 ;;
       let '(rc, udev) := r in
       if negb (rc =? 0) then lret (- EBUSY, udev)
       else
         _ <- usb_set_device_initiated_lpm udev state false ;;
         _ <- call (HcdDisable state) ;;
         lret (0, udev))%lpm
  | _ => lret (- EINVAL, udev)
  end.

(** [usb_enable_lpm]; [hcd] is [bus_to_hcd(udev->bus)] and its driver. *)
Definition usb_enable_lpm (hcd : option hc_driver) (udev : usb_device)
  : L usb_device :=
  if negb (has_parent udev)
     || negb (bool_decide (speed udev = USB_SPEED_SUPER))
     || negb (lpm_capable udev)
  then lret udev
  else
    let udev := set_count udev (u32 (lpm_disable_count udev - 1)) in
    match hcd with
    | None => lret udev
    | Some driver =>
        if negb (enable_usb3_lpm_timeout driver)
           || negb (disable_usb3_lpm_timeout driver)
        then lret udev
        else if lpm_disable_count udev >? 0 then lret udev
        else
          (udev <- usb_enable_link_state udev USB3_LPM_U1 ;;
           usb_enable_link_state udev USB3_LPM_U2)%lpm
    end.

Definition usb_disable_lpm (hcd : option hc_driver) (udev : usb_device)
  : L (Z * usb_device) :=
  if negb (has_parent udev)
     || negb (bool_decide (speed udev = USB_SPEED_SUPER))
     || negb (lpm_capable udev)
  then lret (0, udev)
  else
    match hcd with
    | None => lret (0, udev)
    | Some driver =>
        if negb (disable_usb3_lpm_timeout driver) then lret (0, udev)
        else
          let udev := set_count udev (u32 (lpm_disable_count udev + 1)) in
          if (u1_timeout udev =? 0) && (u2_timeout udev =? 0)
          then lret (0, udev)
          else
            (r <- usb_disable_link_state udev USB3_LPM_U1 ;;
             let '(rc, udev) := r in
             if negb (rc =? 0)
             then (udev <- usb_enable_lpm hcd udev ;; lret (- EBUSY, udev))
             else
               r <- usb_disable_link_state udev USB3_LPM_U2 ;;
               let '(rc, udev) := r in
               if negb (rc =? 0)
               then (udev <- usb_enable_lpm hcd udev ;; lret (- EBUSY, udev))
               else lret (0, udev))%lpm
    end.

End World.

(** What the handling of the timeouts leaves alone: the fields the two
    entry points test, and the counter. *)
Definition same_device (udev udev' : usb_device) : Prop :=
  has_parent udev' = has_parent udev /\ speed udev' = speed udev /\
  lpm_capable udev' = lpm_capable udev /\
  lpm_disable_count udev' = lpm_disable_count udev.

(** The device takes part in LPM and the host controller can switch the
    timeouts off: what [usb_disable_lpm] tests before it counts. *)
Definition lpm_managed (hcd : option hc_driver) (udev : usb_device) : Prop :=
  has_parent udev = true /\ speed udev = USB_SPEED_SUPER /\
  lpm_capable udev = true /\
  exists driver, hcd = Some driver /\ disable_usb3_lpm_timeout driver = true.

(** A configured SuperSpeed device with both timeouts programmed, a host
    controller with both callbacks, and a world where every call
    succeeds with result 0 except the allocator, which returns memory. *)
Definition lpm_disk : usb_device :=
  UsbDevice USB_STATE_CONFIGURED true USB_SPEED_SUPER true true
    10 50 12000 10000 60000 50000 0x7f 0xfe 0.
Definition xhci : option hc_driver := Some (HcDriver true true).
Definition lpm_disk_held : usb_device := set_count lpm_disk 2.
Definition all_fine (k : nat) : Z := 0.
Definition memory_then_zero (k : nat) : Z := if (k =? 0)%nat then 1 else 0.

End LpmControl.

(** ** Disabling a SuperSpeed port *)

Module PortDisable.
Import StatusReader PortPolling.

Definition USB_SS_PORT_LS_SS_DISABLED : Z := 0x0080.
Definition USB_SS_PORT_LS_RX_DETECT   : Z := 0x00a0.

(** One pass through the wait loop up to the timeout test: the loop is
    left, or goes on with the status words it read. *)
Inductive polled :=
| Done (e : loop_exit)
| Again (portstatus portchange : Z).

Section Port.

Variable wire : Z -> nat -> urb_result.
Variable port1 : Z.

(** The result of [hub_set_port_link_state] for each link state asked
    for. *)
Variable hub_set_port_link_state : Z -> Z.

Definition disable_sample (total_time : Z) (old : Z * Z) : M polled :=
  (r <- hub_port_status wire port1 old ;;
   let '(ret_, (portstatus, portchange)) := r in
   if ret_ <? 0 then ret (Done (Return ret_))
   else if Z.land portstatus USB_PORT_STAT_LINK_STATE
           =? USB_SS_PORT_LS_SS_DISABLED
   then ret (Done (Break total_time 0 portstatus portchange))
   else ret (Again portstatus portchange))%io.

(** [for (total_time = 0; ; total_time += HUB_DEBOUNCE_STEP) { ... }] *)
Equations? disable_loop (total_time : Z) (old : Z * Z) (s : hub_io)
  : loop_exit * hub_io
  by wf (Z.to_nat (HUB_DEBOUNCE_TIMEOUT + HUB_DEBOUNCE_STEP - total_time)) lt :=
disable_loop total_time old s with disable_sample total_time old s => {
  | (Done e, s1) := (e, s1);
  | (Again portstatus portchange, s1)
      with Z_lt_dec total_time HUB_DEBOUNCE_TIMEOUT => {
      | right _ := (Break total_time 0 portstatus portchange, s1);
      | left _ :=
          disable_loop (total_time + HUB_DEBOUNCE_STEP)
            (portstatus, portchange)
            (snd (msleep HUB_DEBOUNCE_STEP s1)) } }.
Proof. unfold HUB_DEBOUNCE_TIMEOUT, HUB_DEBOUNCE_STEP in *. lia. Qed.

Definition hub_usb3_port_disable (hub_is_superspeed : bool) : M Z :=
  if negb hub_is_superspeed then ret (- EINVAL)
  else
    let ret_ := hub_set_port_link_state USB_SS_PORT_LS_SS_DISABLED in
    if negb (ret_ =? 0) then ret ret_
    else
      fun s =>
        match disable_loop 0 (0, 0) s with
        | (Return r, s') => (r, s')
        | (Break _ _ _ _, s') =>
            (hub_set_port_link_state USB_SS_PORT_LS_RX_DETECT, s')
        end.

End Port.

(** A port whose link reaches the disabled state at the third poll, and
    a hub that accepts every request. *)
Definition disabling_port (port1 : Z) (k : nat) : urb_result :=
  Urb 4 (if (k <? 2)%nat then 0x0203 else 0x0280) 0.
Definition link_state_accepted (link_status : Z) : Z := 0.

End PortDisable.

(** ** Resetting a port *)

Module PortReset.
Import StatusReader PortPolling.

Definition PORT_RESET_TRIES : Z := 5.

(** Port features ([include/uapi/linux/usb/ch11.h]). *)
Definition USB_PORT_FEAT_RESET             : Z := 4.
Definition USB_PORT_FEAT_C_CONNECTION      : Z := 16.
Definition USB_PORT_FEAT_C_RESET           : Z := 20.
Definition USB_PORT_FEAT_C_PORT_LINK_STATE : Z := 25.
Definition USB_PORT_FEAT_BH_PORT_RESET     : Z := 28.
Definition USB_PORT_FEAT_C_BH_PORT_RESET   : Z := 29.

(** What the reset asks of the hub, of the host controller and of the
    device's bookkeeping, besides reading the port status. *)
Inductive request :=
| SetFeature (feature : Z)                   (* set_port_feature *)
| ClearFeature (feature : Z)                 (* usb_clear_port_feature *)
| UpdateDevnum (devnum : Z)                  (* update_devnum *)
| ResetDevice                                (* hcd->driver->reset_device *)
| SetDeviceState (st : usb_device_state).    (* usb_set_device_state *)

Record reset_io := ResetIo {
  hubio    : hub_io;
  requests : list request;     (* most recent first *)
  sets     : nat               (* set_port_feature calls so far *)
}.

Definition R (A : Type) : Type := reset_io -> A * reset_io.
Definition rret {A} (a : A) : R A := fun r => (a, r).
Definition rbind {A B} (m : R A) (f : A -> R B) : R B :=
  fun r => let (a, r') := m r in f a r'.

Declare Scope reset_scope.
Delimit Scope reset_scope with reset.
Notation "x <- m ;; k" := (rbind m (fun x => k))
  (at level 100, m at next level, right associativity) : reset_scope.
Notation "m ;;; k" := (rbind m (fun _ => k))
  (at level 100, right associativity) : reset_scope.

(** The status reads and sleeps of the earlier sections, run here. *)
Definition lift {A} (m : M A) : R A :=
  fun r => let (a, s') := m (hubio r) in (a, ResetIo s' (requests r) (sets r)).

Definition note (q : request) : R unit :=
  fun r => (tt, ResetIo (hubio r) (q :: requests r) (sets r)).

Definition when (b : bool) (m : R unit) : R unit := if b then m else rret tt.

Section Port.

Variable wire : Z -> nat -> urb_result.
Variable port1 : Z.
Variables hub_is_superspeed hub_is_wusb : bool.

(** The result of the [k]-th [set_port_feature]. *)
Variable set_answer : nat -> Z.

(** [hcd->driver->reset_device] is not NULL. *)
Variable has_reset_device : bool.

Definition set_port_feature (feature : Z) : R Z :=
  fun r =>
    (set_answer (sets r),
     ResetIo (hubio r) (SetFeature feature :: requests r) (S (sets r))).

Definition usb_clear_port_feature (feature : Z) : R unit :=
  note (ClearFeature feature).

(** [hub_port_finish_reset]; [udev] tells whether a device was passed. *)
Definition hub_port_finish_reset (udev : bool) (status : Z) : R unit :=
  let tail : R unit :=
    (usb_clear_port_feature USB_PORT_FEAT_C_RESET ;;;
     when hub_is_superspeed
       (usb_clear_port_feature USB_PORT_FEAT_C_BH_PORT_RESET ;;;
        usb_clear_port_feature USB_PORT_FEAT_C_PORT_LINK_STATE ;;;
        usb_clear_port_feature USB_PORT_FEAT_C_CONNECTION) ;;;
     when udev
       (note (SetDeviceState (if negb (status =? 0)
                              then USB_STATE_NOTATTACHED
                              else USB_STATE_DEFAULT))))%reset in
  if status =? 0 then
    (lift (msleep (10 + 40)) ;;;
     when udev
       (note (UpdateDevnum 0) ;;; when has_reset_device (note ResetDevice)) ;;;
     tail)%reset
  else if (status =? - ENOTCONN) || (status =? - ENODEV) then tail
  else rret tt.

(** [for (i = 0; i < PORT_RESET_TRIES; i++) { ... }] with [n] tries
    left; [None] is a wait that is still running when its fuel is used
    up.  The result is the status and the device's speed at [done:]. *)
Fixpoint reset_tries (n : nat) (fuel : nat) (udev : option usb_device_speed)
    (delay : Z) (warm : bool) (status : Z)
  : R (option (Z * option usb_device_speed)) :=
  match n with
  | O => rret (Some (status, udev))
  | S n' =>
      (status <- set_port_feature (if warm then USB_PORT_FEAT_BH_PORT_RESET
                                   else USB_PORT_FEAT_RESET) ;;
       w <- (if status =? - ENODEV then rret (Some (status, udev))
             else if negb (status =? 0) then rret (Some (status, udev))
             else lift (hub_port_wait_reset wire port1 hub_is_superspeed
                          hub_is_wusb fuel udev delay)) ;;
       match w with
       | None => rret None
       | Some (status, udev) =>
           if (status =? 0) || (status =? - ENOTCONN) || (status =? - ENODEV)
           then
             (hub_port_finish_reset (bool_decide (is_Some udev)) status ;;;
              if negb hub_is_superspeed then rret (Some (status, udev))
              else
                st <- lift (hub_port_status wire port1 (0, 0)) ;;
                let '(rc, (portstatus, _)) := st in
                if rc <? 0 then rret (Some (status, udev))
                else if negb (hub_port_warm_reset_required hub_is_superspeed
                                portstatus)
                then rret (Some (status, udev))
                else reset_tries n' fuel udev HUB_LONG_RESET_TIME true status)
           else reset_tries n' fuel udev HUB_LONG_RESET_TIME warm status
       end)%reset
  end.

Definition hub_port_reset (fuel : nat) (udev : option usb_device_speed)
    (delay : Z) (warm : bool) : R (option (Z * option usb_device_speed)) :=
  if negb hub_is_superspeed then
    if warm then rret (Some (- EINVAL, udev))
    else reset_tries (Z.to_nat PORT_RESET_TRIES) fuel udev delay warm 0
  else if negb warm then
    (st <- lift (hub_port_status wire port1 (0, 0)) ;;
     let '(status, (portstatus, _)) := st in
     if status <? 0 then rret (Some (status, udev))
     else
       reset_tries (Z.to_nat PORT_RESET_TRIES) fuel udev delay
         (hub_port_warm_reset_required hub_is_superspeed portstatus)
         status)%reset
  else reset_tries (Z.to_nat PORT_RESET_TRIES) fuel udev delay warm 0.

End Port.

Definition is_state_change (q : request) : bool :=
  match q with SetDeviceState _ => true | _ => false end.

Definition is_hot_reset (q : request) : bool :=
  match q with
  | SetFeature f => f =? USB_PORT_FEAT_RESET
  | _ => false
  end.

Definition is_warm_reset (q : request) : bool :=
  match q with
  | SetFeature f => f =? USB_PORT_FEAT_BH_PORT_RESET
  | _ => false
  end.

(** The statuses after which the reset is finished off. *)
Definition settled (status : Z) : bool :=
  (status =? 0) || (status =? - ENOTCONN) || (status =? - ENODEV).

Definition rio0 : reset_io := ResetIo io0 [] 0.

(** A hub that accepts every request. *)
Definition accepted (k : nat) : Z := 0.

End PortReset.

(** ** Giving a device its address *)

Module Addressing.
Import Topology.

(** [update_devnum]; [wusb] is [udev->wusb]. *)
Definition update_devnum (udev : usb_device) (wusb : bool) (devnum : Z)
  : usb_device :=
  if negb wusb then
    UsbDevice (state udev) devnum (has_parent udev) (maxchild udev)
      (actconfig udev) (active_duration udev) (intfdata udev)
  else udev.

(** [hub_set_address]: its result and the device afterwards.
    [has_address_device] tells whether [hcd->driver->address_device] is
    set, and [answer] is the result of that callback or else of the
    SET_ADDRESS transfer. *)
Definition hub_set_address (jiffies : Z) (has_address_device : bool)
    (answer : Z) (udev : usb_device) (wusb : bool) (devnum : Z)
  : mem (Z * usb_device) :=
  if negb has_address_device && (devnum <=? 1) then Val (- EINVAL, udev)
  else if bool_decide (state udev = USB_STATE_ADDRESS) then Val (0, udev)
  else if negb (bool_decide (state udev = USB_STATE_DEFAULT))
  then Val (- EINVAL, udev)
  else
    let retval := answer in
    if retval =? 0 then
      (r <~ usb_set_device_state jiffies (update_devnum udev wusb devnum)
              USB_STATE_ADDRESS ;;
       Val (retval, fst r))%mem
    else Val (retval, udev).

(** A device that has just been reset. *)
Definition reset_device : usb_device :=
  UsbDevice USB_STATE_DEFAULT 0 true 0 None 0 None.

End Addressing.

(** * Properties *)

(** ** Port status reader *)

Module StatusReaderSpec.
Import StatusReader.

Lemma retry_true status :
  retry status = true <-> status = - ETIMEDOUT \/ status = - EPIPE.
Proof. unfold retry. rewrite orb_true_iff, !Z.eqb_eq. tauto. Qed.

Lemma retry_false status :
  retry status = false <-> status <> - ETIMEDOUT /\ status <> - EPIPE.
Proof. unfold retry. rewrite orb_false_iff, !Z.eqb_neq. tauto. Qed.

(** The loop entered with [n] tries left after an attempt that came back
    [status] either stops at once or goes on to issue [k >= 1] more. *)
Lemma sts_loop_spec wire p n : forall status s,
  let out := sts_loop wire n p status s in
  (out = (status, s) /\ (n = 0%nat \/ retry status = false)) \/
  (retry status = true /\
   exists k : nat,
     (1 <= k <= n)%nat /\
     transfers (snd out) = (transfers s + k)%nat /\
     fst out = urb_ret (wire p (transfers s + k - 1)%nat) /\
     Forall (fun j => retry (urb_ret (wire p (transfers s + j)%nat)) = true)
            (seq 0 (k - 1)) /\
     (k = n \/ retry (fst out) = false) /\
     slept (snd out) = slept s /\ cleared (snd out) = cleared s).
Proof.
  induction n as [|n IH]; intros status s; cbn.
  - left. split; [reflexivity | now left].
  - destruct (retry status) eqn:Hr.
    + right. split; [reflexivity|].
      unfold bind, usb_control_msg at 1. cbn.
      set (s1 := HubIo _ _ _ _).
      set (st1 := urb_ret (wire p (transfers s))).
      destruct (IH st1 s1) as [[Heq Hstop] | [Hr1 (k & Hk & Ht & Hf & Hall & Hlast & Hsl & Hcl)]].
      * rewrite Heq. exists 1%nat. cbn.
        replace (transfers s + 1 - 1)%nat with (transfers s) by lia.
        repeat split; try lia; try reflexivity.
        -- constructor.
        -- destruct Hstop as [-> | Hst]; [now left | now right].
      * exists (S k). cbn in Ht. rewrite Ht, Hf.
        repeat split; try lia.
        -- f_equal. f_equal. cbn. lia.
        -- replace (S k - 1)%nat with (S (k - 1)) by lia.
           cbn [seq]. constructor.
           ++ now rewrite Nat.add_0_r.
           ++ rewrite <- seq_shift, Forall_fmap.
              eapply Forall_impl; [exact Hall|].
              intros j Hj. cbn in *.
              now replace (transfers s + S j)%nat with (S (transfers s + j)) by lia.
        -- destruct Hlast as [-> | Hl]; [now left | right].
           now rewrite <- Hf.
        -- exact Hsl.
        -- exact Hcl.
    + left. split; [reflexivity | now right].
Qed.

Lemma sts_loop_bounded_retry wire p :
  bounded_retry wire p (sts_loop wire (Z.to_nat USB_STS_RETRIES) p (- ETIMEDOUT)).
Proof.
  intros s.
  destruct (sts_loop_spec wire p (Z.to_nat USB_STS_RETRIES) (- ETIMEDOUT) s)
    as [[_ [H | H]] | [_ (k & Hk & Ht & Hf & Hall & Hlast & Hsl & Hcl)]].
  - discriminate H.
  - discriminate H.
  - exists k. change (Z.to_nat USB_STS_RETRIES) with 5%nat in *.
    repeat split; try lia; try assumption.
    + eapply Forall_impl; [exact Hall|]. intros j Hj. now apply retry_true.
    + destruct Hlast as [-> | Hl]; [now left | right]. now apply retry_false.
Qed.

(** C4: [get_port_status] and [get_hub_status] issue the GET_STATUS
    transfer at most five times, go on only after a transfer that
    returned -ETIMEDOUT or -EPIPE, and return the result of the last
    transfer issued: a success or any other error ends the loop. *)
Theorem status_read_retries_only_on_timeout_or_stall
    (wire : Z -> nat -> urb_result) (port1 : Z) :
  bounded_retry wire port1 (get_port_status wire port1) /\
  bounded_retry wire 0 (get_hub_status wire).
Proof. split; apply sts_loop_bounded_retry. Qed.

End StatusReaderSpec.

(** ** Debounce engine and reset wait *)

Module PortPollingSpec.
Import StatusReader PortPolling.

Section Port.

Variable wire : Z -> nat -> urb_result.
Variable port1 : Z.

Local Abbreviation answers := (PortPolling.answers wire port1).
Local Abbreviation toggles := (PortPolling.toggles wire port1).
Local Abbreviation connection_of := (PortPolling.connection_of wire port1).

Lemma debounce_loop_unfold must total_time stable_time connection old s :
  debounce_loop wire port1 must total_time stable_time connection old s =
  match debounce_sample wire port1 must total_time stable_time connection old s with
  | (Exit e, s1) => (e, s1)
  | (Continue stable_time' connection' portstatus portchange, s1) =>
      if total_time <? HUB_DEBOUNCE_TIMEOUT then
        debounce_loop wire port1 must (total_time + HUB_DEBOUNCE_STEP)
          stable_time' connection' (portstatus, portchange)
          (snd (msleep HUB_DEBOUNCE_STEP s1))
      else (Break total_time stable_time' portstatus portchange, s1)
  end.
Proof.
  rewrite debounce_loop_equation_1.
  destruct (debounce_sample _ _ _ _ _ _ _ _) as [[e | st' c' ps pc] s1].
  - reflexivity.
  - cbn. destruct (Z_lt_dec total_time HUB_DEBOUNCE_TIMEOUT) as [Hlt | Hge]; cbn.
    + apply Z.ltb_lt in Hlt. rewrite Hlt. reflexivity.
    + apply Z.ltb_nlt in Hge. rewrite Hge. reflexivity.
Qed.

(** A transfer that answers is not retried: one transfer per sample. *)
Lemma hub_port_status_answer old s :
  4 <= urb_ret (wire port1 (transfers s)) ->
  hub_port_status wire port1 old s =
  ((0, (u16 (urb_wStatus (wire port1 (transfers s))),
        u16 (urb_wChange (wire port1 (transfers s))))),
   HubIo (S (transfers s))
         (urb_wStatus (wire port1 (transfers s)),
          urb_wChange (wire port1 (transfers s)))
         (slept s) (cleared s)).
Proof.
  intros Hret.
  unfold hub_port_status, get_port_status, bind.
  change (Z.to_nat USB_STS_RETRIES) with 5%nat.
  cbn [sts_loop]. change (retry (- ETIMEDOUT)) with true. cbn iota.
  unfold bind, usb_control_msg at 1.
  assert (Hnr : retry (urb_ret (wire port1 (transfers s))) = false).
  { apply StatusReaderSpec.retry_false. unfold ETIMEDOUT, EPIPE. lia. }
  rewrite Hnr. unfold ret.
  assert (H4 : (4 <=? urb_ret (wire port1 (transfers s))) = true)
    by (apply Z.leb_le; lia).
  assert (Hlt : (urb_ret (wire port1 (transfers s)) <? 4) = false)
    by (apply Z.ltb_ge; lia).
  rewrite H4, Hlt. reflexivity.
Qed.

Lemma debounce_sample_changed must total_time stable_time connection old s :
  4 <= urb_ret (wire port1 (transfers s)) ->
  connection <> connection_of (transfers s) ->
  exists s1,
    debounce_sample wire port1 must total_time stable_time connection old s =
    (Continue 0 (connection_of (transfers s))
       (u16 (urb_wStatus (wire port1 (transfers s))))
       (u16 (urb_wChange (wire port1 (transfers s)))), s1) /\
    transfers s1 = S (transfers s) /\ slept s1 = slept s.
Proof.
  intros Hret Hne.
  unfold debounce_sample, bind at 1.
  rewrite (hub_port_status_answer old s Hret).
  change (0 <? 0) with false. cbn iota.
  fold (connection_of (transfers s)).
  assert (Hc : (connection_of (transfers s) =? connection) = false)
    by (apply Z.eqb_neq; congruence).
  rewrite Hc, andb_false_r.
  destruct (tst _ USB_PORT_STAT_C_CONNECTION); eexists; (split; [reflexivity|]);
    split; reflexivity.
Qed.

(** The stable time goes back to 0 whenever the sample shows the
    connection-change bit or a connection bit other than the remembered
    one, and the sample's connection bit is remembered. *)
Lemma debounce_sample_resets must total_time stable_time connection old s :
  4 <= urb_ret (wire port1 (transfers s)) ->
  tst (u16 (urb_wChange (wire port1 (transfers s)))) USB_PORT_STAT_C_CONNECTION
    = true \/ connection <> connection_of (transfers s) ->
  exists s1,
    debounce_sample wire port1 must total_time stable_time connection old s =
    (Continue 0 (connection_of (transfers s))
       (u16 (urb_wStatus (wire port1 (transfers s))))
       (u16 (urb_wChange (wire port1 (transfers s)))), s1) /\
    transfers s1 = S (transfers s) /\ slept s1 = slept s.
Proof.
  intros Hret [Hch | Hne];
    [| exact (debounce_sample_changed must total_time stable_time connection
                old s Hret Hne)].
  unfold debounce_sample, bind at 1.
  rewrite (hub_port_status_answer old s Hret).
  change (0 <? 0) with false. cbn iota.
  rewrite Hch. cbn [negb andb].
  eexists; split; [reflexivity|]; split; reflexivity.
Qed.

(** With [n] steps left before the timeout and a toggling connection bit,
    the loop runs to the timeout with its stable time at 0. *)
Lemma debounce_loop_toggling must (Ha : answers) (Ht : toggles) :
  forall (n : nat) total_time stable_time connection old s,
    total_time = HUB_DEBOUNCE_TIMEOUT - HUB_DEBOUNCE_STEP * Z.of_nat n ->
    connection <> connection_of (transfers s) ->
    exists ps pc s',
      debounce_loop wire port1 must total_time stable_time connection old s =
      (Break HUB_DEBOUNCE_TIMEOUT 0 ps pc, s') /\
      transfers s' = (transfers s + S n)%nat /\
      slept s' = replicate n HUB_DEBOUNCE_STEP ++ slept s.
Proof.
  induction n as [|n IH]; intros total_time stable_time connection old s Htt Hne;
    rewrite debounce_loop_unfold;
    destruct (debounce_sample_changed must total_time stable_time connection
                old s (Ha _) Hne) as (s1 & -> & Htr & Hsl).
  - assert (Hge : (total_time <? HUB_DEBOUNCE_TIMEOUT) = false)
      by (apply Z.ltb_ge; lia).
    rewrite Hge. do 3 eexists. split; [subst total_time; f_equal; f_equal; lia|].
    split; [lia | exact Hsl].
  - assert (Hlt : (total_time <? HUB_DEBOUNCE_TIMEOUT) = true)
      by (apply Z.ltb_lt; unfold HUB_DEBOUNCE_STEP in *; lia).
    rewrite Hlt.
    edestruct (IH (total_time + HUB_DEBOUNCE_STEP) 0 (connection_of (transfers s))
                 (u16 (urb_wStatus (wire port1 (transfers s))),
                  u16 (urb_wChange (wire port1 (transfers s))))
                 (snd (msleep HUB_DEBOUNCE_STEP s1)))
      as (ps & pc & s' & Heq & Htr' & Hsl').
    + lia.
    + cbn. rewrite Htr. intros Heq. exact (Ht _ (eq_sym Heq)).
    + exists ps, pc, s'. split; [exact Heq|]. cbn in Htr', Hsl'.
      split; [lia|]. rewrite Hsl', Hsl.
      change (HUB_DEBOUNCE_STEP :: slept s) with ([HUB_DEBOUNCE_STEP] ++ slept s).
      rewrite app_assoc. f_equal.
      change [HUB_DEBOUNCE_STEP] with (replicate 1 HUB_DEBOUNCE_STEP).
      rewrite <- replicate_add. f_equal. lia.
Qed.

Lemma clock_replicate n d l s :
  slept s = replicate n d ++ l -> clock s = Z.of_nat n * d + foldr Z.add 0 l.
Proof.
  unfold clock. intros ->. induction n as [|n IH]; cbn [replicate app foldr]; lia.
Qed.

End Port.

(** C1 (on the code): with a connection bit that toggles on every sample,
    [hub_port_debounce] never counts any stable time and returns -ETIMEDOUT;
    it does so after 81 samples taken 25 ms apart, when its total time has
    reached [HUB_DEBOUNCE_TIMEOUT], which is 2000 ms in this code and not
    the 1500 ms of the specification and of the function's own comment. *)
Theorem debounce_toggling_times_out_at_2000ms
    (wire : Z -> nat -> urb_result) (port1 : Z) (must_be_connected : bool)
    (s : hub_io) :
  answers wire port1 -> toggles wire port1 ->
  let out := hub_port_debounce wire port1 must_be_connected s in
  fst out = - ETIMEDOUT /\
  transfers (snd out) = (transfers s + 81)%nat /\
  slept (snd out) = replicate 80 HUB_DEBOUNCE_STEP ++ slept s /\
  clock (snd out) - clock s = HUB_DEBOUNCE_TIMEOUT /\
  HUB_DEBOUNCE_TIMEOUT = 2000 /\ HUB_DEBOUNCE_STEP = 25.
Proof.
  intros Ha Ht. unfold hub_port_debounce.
  destruct (debounce_loop_toggling wire port1 must_be_connected Ha Ht 80
              0 0 0xffff (0, 0) s) as (ps & pc & s' & -> & Htr & Hsl).
  - reflexivity.
  - unfold connection_of, USB_PORT_STAT_CONNECTION.
    intros Heq. symmetry in Heq.
    pose proof (Z.land_ones (u16 (urb_wStatus (wire port1 (transfers s)))) 1
                  ltac:(lia)) as Hm.
    change (Z.ones 1) with 1 in Hm. rewrite Hm in Heq.
    pose proof (Z.mod_pos_bound (u16 (urb_wStatus (wire port1 (transfers s))))
                  (2 ^ 1) ltac:(lia)).
    lia.
  - cbn. repeat split; try assumption.
    rewrite (clock_replicate 80 HUB_DEBOUNCE_STEP (slept s) s' Hsl).
    unfold clock, HUB_DEBOUNCE_STEP, HUB_DEBOUNCE_TIMEOUT. lia.
Qed.

Lemma toggling_port_toggles port1 : toggles toggling_port port1.
Proof.
  intros k. unfold connection_of, toggling_port. cbn [urb_wStatus].
  rewrite Nat.even_succ, <- Nat.negb_even.
  destruct (Nat.even k); cbn; discriminate.
Qed.

Example debounce_bouncing_10ms :
  let out := hub_port_debounce bouncing_port 1 true io0 in
  fst out = - ETIMEDOUT /\ transfers (snd out) = 81%nat /\
  clock (snd out) = 2000.
Proof. vm_compute. repeat split. Qed.

Lemma debounce_toggling_witness :
  answers toggling_port 1 /\ toggles toggling_port 1 /\
  fst (hub_port_debounce toggling_port 1 true io0) = - ETIMEDOUT /\
  clock (snd (hub_port_debounce toggling_port 1 true io0)) = 2000.
Proof.
  assert (Ha : answers toggling_port 1) by (intros k; cbn; lia).
  pose proof (debounce_toggling_times_out_at_2000ms toggling_port 1 true io0
                Ha (toggling_port_toggles 1)) as (Hr & _ & _ & Hc & _ & _).
  split; [exact Ha|]. split; [apply toggling_port_toggles|].
  split; [exact Hr|].
  change (clock io0) with 0 in Hc. rewrite Z.sub_0_r in Hc. exact Hc.
Defined.


(** *** Waiting for the end of a reset *)

Section Reset.

Variable wire : Z -> nat -> urb_result.
Variable port1 : Z.
Variables hub_is_superspeed hub_is_wusb : bool.

Local Abbreviation resetting := (PortPolling.resetting wire port1).

(** One poll of the loop, when the port answers. *)
Lemma wait_reset_loop_poll fuel delay_time delay old s :
  delay_time < HUB_RESET_TIMEOUT ->
  4 <= urb_ret (wire port1 (transfers s)) ->
  let s1 := HubIo (S (transfers s))
              (urb_wStatus (wire port1 (transfers s)),
               urb_wChange (wire port1 (transfers s)))
              (delay :: slept s) (cleared s) in
  let portstatus := u16 (urb_wStatus (wire port1 (transfers s))) in
  let portchange := u16 (urb_wChange (wire port1 (transfers s))) in
  wait_reset_loop wire port1 (S fuel) delay_time delay old s =
  if resetting (transfers s) then
    let delay' := if delay_time >=? 2 * HUB_SHORT_RESET_TIME
                  then HUB_LONG_RESET_TIME else delay in
    wait_reset_loop wire port1 fuel (s32 (delay_time + delay')) delay'
      (portstatus, portchange) s1
  else (Some (Break delay_time delay portstatus portchange), s1).
Proof.
  intros Hlt Hret. cbn zeta. cbn [wait_reset_loop].
  apply Z.ltb_lt in Hlt. rewrite Hlt.
  unfold bind at 1. unfold msleep at 1.
  unfold bind at 1.
  rewrite hub_port_status_answer by exact Hret.
  cbn [transfers slept cleared buffer].
  change (0 <? 0) with false. cbn iota.
  unfold resetting. destruct (tst _ USB_PORT_STAT_RESET); reflexivity.
Qed.

(** Evaluation of the next poll of the loop: [Hr] tells what the reset bit
    of that poll reads. *)
Ltac poll Ha Hr :=
  rewrite wait_reset_loop_poll; [ | vm_compute; reflexivity | apply Ha ];
  cbn [transfers slept cleared buffer]; rewrite Hr; cbn zeta;
  try match goal with
  | |- context [wait_reset_loop _ _ _ ?dt ?d _ _] =>
      let dt' := eval vm_compute in dt in
      let d' := eval vm_compute in d in
      change dt with dt'; change d with d'
  end.

Lemma wait_reset_finish_busy udev portstatus portchange :
  tst portstatus USB_PORT_STAT_RESET = true ->
  wait_reset_finish hub_is_superspeed hub_is_wusb udev portstatus portchange
  = (- EBUSY, udev).
Proof. intros H. unfold wait_reset_finish. now rewrite H. Qed.

(** Started with the 10 ms short delay on a port that answers,
    [hub_port_wait_reset] sleeps before every poll and polls until the reset
    bit reads clear or [delay_time] has reached [HUB_RESET_TIMEOUT].  With
    the reset bit set in the first [j] polls and clear in the next, the
    wait ends after [j + 1] polls with the checks of that status; with the
    bit set in all six polls the loop ends with [delay_time] at 820. *)
Lemma wait_reset_short_delay_polls
    (udev : option usb_device_speed) (s : hub_io) (j fuel : nat) :
  answers wire port1 ->
  (j <= 6)%nat -> (7 <= fuel)%nat ->
  (forall k, (k < j)%nat -> resetting (k + transfers s) = true) ->
  ((j < 6)%nat -> resetting (j + transfers s) = false) ->
  let polls := Nat.min (S j) 6 in
  let last := (polls - 1 + transfers s)%nat in
  let portstatus := u16 (urb_wStatus (wire port1 last)) in
  let portchange := u16 (urb_wChange (wire port1 last)) in
  let loop :=
    wait_reset_loop wire port1 fuel 0 HUB_SHORT_RESET_TIME (0, 0) s in
  let out :=
    hub_port_wait_reset wire port1 hub_is_superspeed hub_is_wusb fuel udev
      HUB_SHORT_RESET_TIME s in
  transfers (snd out) = (polls + transfers s)%nat /\
  slept (snd out) = rev (take polls short_reset_sleeps) ++ slept s /\
  (j = 6%nat ->
     fst loop = Some (Break 820 HUB_LONG_RESET_TIME portstatus portchange) /\
     HUB_RESET_TIMEOUT <= 820 /\
     fst out = Some (- EBUSY, udev)) /\
  ((j < 6)%nat ->
     fst loop = Some (Break (nth j short_reset_times 0)
                            (nth j short_reset_sleeps 0)
                            portstatus portchange) /\
     fst out = Some (wait_reset_finish hub_is_superspeed hub_is_wusb udev
                       portstatus portchange)).
Proof.
  intros Ha Hj Hfuel Hset Hclr.
  do 7 (destruct fuel as [|fuel]; [lia|]). clear Hfuel.
  pose proof (Hset 0%nat) as H0. pose proof (Hset 1%nat) as H1.
  pose proof (Hset 2%nat) as H2. pose proof (Hset 3%nat) as H3.
  pose proof (Hset 4%nat) as H4. pose proof (Hset 5%nat) as H5.
  cbn [Nat.add] in H0, H1, H2, H3, H4, H5.
  destruct j as [|[|[|[|[|[|[|j]]]]]]]; try lia;
    cbn [Nat.add] in Hclr;
    cbn zeta; unfold hub_port_wait_reset, bind.
  - specialize (Hclr ltac:(lia)).
    poll Ha Hclr. cbn. repeat split; intros; try lia; reflexivity.
  - specialize (Hclr ltac:(lia)). specialize (H0 ltac:(lia)).
    poll Ha H0. poll Ha Hclr. cbn. repeat split; intros; try lia; reflexivity.
  - specialize (Hclr ltac:(lia)). specialize (H0 ltac:(lia)).
    specialize (H1 ltac:(lia)).
    poll Ha H0. poll Ha H1. poll Ha Hclr.
    cbn. repeat split; intros; try lia; reflexivity.
  - specialize (Hclr ltac:(lia)). specialize (H0 ltac:(lia)).
    specialize (H1 ltac:(lia)). specialize (H2 ltac:(lia)).
    poll Ha H0. poll Ha H1. poll Ha H2. poll Ha Hclr.
    cbn. repeat split; intros; try lia; reflexivity.
  - specialize (Hclr ltac:(lia)). specialize (H0 ltac:(lia)).
    specialize (H1 ltac:(lia)). specialize (H2 ltac:(lia)).
    specialize (H3 ltac:(lia)).
    poll Ha H0. poll Ha H1. poll Ha H2. poll Ha H3. poll Ha Hclr.
    cbn. repeat split; intros; try lia; reflexivity.
  - specialize (Hclr ltac:(lia)). specialize (H0 ltac:(lia)).
    specialize (H1 ltac:(lia)). specialize (H2 ltac:(lia)).
    specialize (H3 ltac:(lia)). specialize (H4 ltac:(lia)).
    poll Ha H0. poll Ha H1. poll Ha H2. poll Ha H3. poll Ha H4. poll Ha Hclr.
    cbn. repeat split; intros; try lia; reflexivity.
  - clear Hclr. specialize (H0 ltac:(lia)).
    specialize (H1 ltac:(lia)). specialize (H2 ltac:(lia)).
    specialize (H3 ltac:(lia)). specialize (H4 ltac:(lia)).
    specialize (H5 ltac:(lia)).
    poll Ha H0. poll Ha H1. poll Ha H2. poll Ha H3. poll Ha H4. poll Ha H5.
    cbn [wait_reset_loop];
      change (820 <? HUB_RESET_TIMEOUT) with false; cbn iota;
      unfold ret; cbn [fst snd transfers slept];
      rewrite wait_reset_finish_busy by exact H5;
      (repeat split; intros; try lia; try reflexivity;
       unfold HUB_RESET_TIMEOUT; lia).
Qed.

(** C5: on a port that stays in reset, [hub_port_wait_reset] started
    with the 10 ms short delay gives up with -EBUSY after six polls and
    630 ms of sleeping, before the waiting has reached
    [HUB_RESET_TIMEOUT]: the sleeps are 10, 10, 10 ms and then 200 ms
    each, so the delay is still the short one after two failed polls and
    20 ms, and becomes 200 ms only after the third.  A poll that reads the
    reset bit clear ends the wait at once, with the checks of that
    status. *)
Theorem wait_reset_short_delay_gives_up_at_630ms
    (udev : option usb_device_speed) (s : hub_io) (j fuel : nat) :
  answers wire port1 ->
  (j <= 6)%nat -> (7 <= fuel)%nat ->
  (forall k, (k < j)%nat -> resetting (k + transfers s) = true) ->
  ((j < 6)%nat -> resetting (j + transfers s) = false) ->
  let polls := Nat.min (S j) 6 in
  let last := (polls - 1 + transfers s)%nat in
  let portstatus := u16 (urb_wStatus (wire port1 last)) in
  let portchange := u16 (urb_wChange (wire port1 last)) in
  let out :=
    hub_port_wait_reset wire port1 hub_is_superspeed hub_is_wusb fuel udev
      HUB_SHORT_RESET_TIME s in
  transfers (snd out) = (polls + transfers s)%nat /\
  slept (snd out) = rev (take polls short_reset_sleeps) ++ slept s /\
  clock (snd out) - clock s = foldr Z.add 0 (take polls short_reset_sleeps) /\
  ((j < 6)%nat ->
     fst out = Some (wait_reset_finish hub_is_superspeed hub_is_wusb udev
                       portstatus portchange)) /\
  (j = 6%nat ->
     fst out = Some (- EBUSY, udev) /\
     slept (snd out) =
       [HUB_LONG_RESET_TIME; HUB_LONG_RESET_TIME; HUB_LONG_RESET_TIME;
        HUB_SHORT_RESET_TIME; HUB_SHORT_RESET_TIME; HUB_SHORT_RESET_TIME]
       ++ slept s /\
     clock (snd out) - clock s = 630 /\
     clock (snd out) - clock s < HUB_RESET_TIMEOUT).
Proof.
  intros Ha Hj Hfuel Hset Hclr.
  destruct (wait_reset_short_delay_polls udev s j fuel Ha Hj Hfuel Hset Hclr)
    as (Ht & Hs & H6 & Hlt).
  cbn zeta in *.
  assert (Hc : clock (snd (hub_port_wait_reset wire port1 hub_is_superspeed
                             hub_is_wusb fuel udev HUB_SHORT_RESET_TIME s))
               - clock s
               = foldr Z.add 0 (take (Nat.min (S j) 6) short_reset_sleeps)).
  { unfold clock. rewrite Hs.
    destruct j as [|[|[|[|[|[|[|j]]]]]]]; try lia;
      cbn [Nat.min take short_reset_sleeps rev app foldr]; lia. }
  split; [exact Ht|]. split; [exact Hs|]. split; [exact Hc|].
  split; [intros H; exact (proj2 (Hlt H))|].
  intros ->. destruct (H6 eq_refl) as (_ & _ & Hout).
  split; [exact Hout|]. split; [exact Hs|].
  rewrite Hc. cbn. unfold HUB_RESET_TIMEOUT. lia.
Qed.

End Reset.

Lemma wait_reset_gives_up_witness :
  let out := hub_port_wait_reset stuck_port 1 false false 7 None
               HUB_SHORT_RESET_TIME io0 in
  fst out = Some (- EBUSY, None) /\
  slept (snd out) = [200; 200; 200; 10; 10; 10] /\
  clock (snd out) = 630.
Proof.
  destruct (wait_reset_short_delay_gives_up_at_630ms stuck_port 1 false false
              None io0 6 7) as (_ & _ & _ & _ & H6).
  - intros k. cbn. lia.
  - lia.
  - lia.
  - intros k _. reflexivity.
  - intros H. exfalso. lia.
  - destruct (H6 eq_refl) as (Hout & Hs & Hc & _).
    split; [exact Hout|]. split; [exact Hs|].
    change (clock io0) with 0 in Hc. rewrite Z.sub_0_r in Hc. exact Hc.
Defined.

End PortPollingSpec.

(** ** Link power management *)

Module LpmSpec.
Import Lpm.

Lemma u32_small x : 0 <= x < 2^32 -> u32 x = x.
Proof. intros H. unfold u32. now apply Z.mod_small. Qed.

Lemma u32_u32_add x y : u32 (u32 x + y) = u32 (x + y).
Proof. unfold u32. now rewrite Zplus_mod_idemp_l. Qed.

Lemma u32_add_u32 x y : u32 (x + u32 y) = u32 (x + y).
Proof. unfold u32. now rewrite Zplus_mod_idemp_r. Qed.

Lemma count_hubs_spec : forall (k : nat) (p : usb_device) (n : Z),
  ancestors p = k -> count_hubs p (u32 n) = u32 (n + Z.of_nat k).
Proof.
  induction k as [|k IH]; intros p n Hk; destruct p as [[pp|] sp lc sc bh u1 u2];
    cbn in Hk; try discriminate; cbn [count_hubs parent].
  - now rewrite Z.add_0_r.
  - injection Hk as Hk. rewrite u32_u32_add, (IH pp (n + 1) Hk).
    f_equal. lia.
Qed.

(** The arithmetic of [usb_set_lpm_sel], with the wrap at 32 bits. *)
Lemma usb_set_lpm_sel_spec udev params p :
  parent udev = Some p ->
  let N := external_hubs udev in
  N < 2^32 ->
  usb_set_lpm_sel udev params =
  Val (LpmParams (mel params) (pel params)
         (if N >? 0
          then u32 (pel params + 2100 + 250 * (N - 1) + 250 * N)
          else u32 (pel params))).
Proof.
  intros Hp N HN. unfold usb_set_lpm_sel. rewrite Hp. cbn [deref mem_bind].
  assert (HNp : N = Z.of_nat (ancestors p)) by (unfold N, external_hubs; now rewrite Hp).
  assert (Hc : count_hubs p 0 = N).
  { change 0 with (u32 0). rewrite (count_hubs_spec (ancestors p) p 0 eq_refl).
    rewrite Z.add_0_l, <- HNp. apply u32_small. lia. }
  rewrite Hc. do 2 f_equal.
  destruct (N >? 0) eqn:Hpos.
  - unfold u32. change (2 ^ 32) with 4294967296.
    Z.div_mod_to_equations. lia.
  - rewrite u32_add_u32. apply (f_equal u32).
    assert (0 <= N) by (unfold N, external_hubs; rewrite Hp; lia).
    rewrite Z.gtb_ltb in Hpos. apply Z.ltb_ge in Hpos. lia.
Qed.

(** C3: [usb_set_lpm_sel] sets the System Exit Latency to the Path Exit
    Latency when no external hub lies between the device and the root
    port, and to PEL + 2100 + 250 * (numHubs - 1) + 250 * numHubs
    nanoseconds when [numHubs > 0] of them do ([unsigned int] arithmetic:
    the sum is the exact one as long as it fits 32 bits). *)
Theorem lpm_sel_is_pel_plus_hub_overhead
    (udev p : usb_device) (params : usb3_lpm_parameters) :
  parent udev = Some p ->
  0 <= pel params < 2^32 ->
  let numHubs := external_hubs udev in
  exists params',
    usb_set_lpm_sel udev params = Val params' /\
    mel params' = mel params /\ pel params' = pel params /\
    (numHubs = 0 -> sel params' = pel params) /\
    (0 < numHubs ->
     pel params + 2100 + 250 * (numHubs - 1) + 250 * numHubs < 2^32 ->
     sel params' = pel params + 2100 + 250 * (numHubs - 1) + 250 * numHubs).
Proof.
  intros Hp Hpel numHubs.
  assert (H0 : 0 <= numHubs).
  { unfold numHubs, external_hubs. rewrite Hp. lia. }
  destruct (Z_lt_dec numHubs (2^32)) as [Hlt | Hge].
  - rewrite (usb_set_lpm_sel_spec udev params p Hp Hlt). fold numHubs.
    eexists. split; [reflexivity|]. cbn [mel pel sel].
    repeat split.
    + intros ->. cbn. now apply u32_small.
    + intros Hpos Hfit. apply Z.gtb_lt in Hpos as Hgt. rewrite Hgt.
      apply u32_small. lia.
  - unfold usb_set_lpm_sel. rewrite Hp. cbn [deref mem_bind].
    eexists. split; [reflexivity|]. cbn [mel pel sel].
    repeat split; intros; lia.
Qed.

(** [usb_set_lpm_parameters] derives both SELs from the PELs it has just
    computed. *)
Lemma usb_set_lpm_parameters_sel udev hdev declat ucap hcap :
  lpm_capable udev = true -> speed udev = USB_SPEED_SUPER ->
  parent udev = Some hdev -> bHubHdrDecLat hdev = Some declat ->
  ss_cap udev = Some ucap -> ss_cap hdev = Some hcap ->
  external_hubs udev < 2^32 ->
  let overhead pel :=
    if external_hubs udev >? 0
    then u32 (pel + 2100 + 250 * (external_hubs udev - 1)
              + 250 * external_hubs udev)
    else u32 pel in
  exists udev',
    usb_set_lpm_parameters udev = Val udev' /\
    sel (u1_params udev') = overhead (pel (u1_params udev')) /\
    sel (u2_params udev') = overhead (pel (u2_params udev')).
Proof.
  intros Hl Hs Hp Hd Hu Hh HN overhead.
  unfold usb_set_lpm_parameters.
  rewrite Hl, Hs, Hp, Hd, Hu, Hh. cbn [negb orb deref mem_bind].
  rewrite bool_decide_eq_true_2 by reflexivity. cbn [negb].
  rewrite !(usb_set_lpm_sel_spec udev _ hdev Hp HN).
  cbn [mem_bind]. eexists. split; [reflexivity|].
  split; reflexivity.
Qed.

Lemma lpm_sel_witness :
  exists params',
    usb_set_lpm_sel disk (LpmParams 0 50000 0) = Val params' /\
    sel params' = 50000 + 2100 + 250 * (2 - 1) + 250 * 2.
Proof.
  destruct (lpm_sel_is_pel_plus_hub_overhead disk hub2 (LpmParams 0 50000 0)
              eq_refl ltac:(cbn; lia)) as (params' & Heq & _ & _ & _ & Hsel).
  exists params'. split; [exact Heq|].
  apply Hsel; cbn; lia.
Defined.

End LpmSpec.

(** ** Device numbers *)

Module DevnumSpec.
Import Devnum.

Lemma scan_zero_spec map size : forall (n : nat) (i : Z),
  i + Z.of_nat n = size ->
  let r := scan_zero map size n i in
  (i <= r < size /\ Z.testbit map r = false /\
   forall j, i <= j < r -> Z.testbit map j = true) \/
  (r = size /\ forall j, i <= j < size -> Z.testbit map j = true).
Proof.
  induction n as [|n IH]; intros i Hi; cbn [scan_zero].
  - right. split; [reflexivity | intros j Hj; lia].
  - destruct (Z.testbit map i) eqn:Hb.
    + destruct (IH (i + 1) ltac:(lia)) as [(Hr & Hf & Hall) | (Hr & Hall)].
      * left. split; [lia|]. split; [exact Hf|].
        intros j Hj. destruct (Z.eq_dec j i) as [-> | Hne]; [exact Hb|].
        apply Hall. lia.
      * right. split; [exact Hr|].
        intros j Hj. destruct (Z.eq_dec j i) as [-> | Hne]; [exact Hb|].
        apply Hall. lia.
    + left. split; [lia|]. split; [exact Hb|]. intros j Hj. lia.
Qed.

Lemma find_next_zero_bit_spec map offset :
  0 <= offset < 2^64 ->
  let r := find_next_zero_bit map 128 offset in
  first_free map offset r \/ (r = 128 /\ none_free map offset).
Proof.
  intros Ho. unfold find_next_zero_bit. cbn zeta.
  rewrite (Z.mod_small offset (2^64)) by lia.
  destruct (Z_lt_dec offset 128) as [Hlt | Hge].
  - destruct (scan_zero_spec map 128 (Z.to_nat (128 - offset)) offset
                ltac:(lia)) as [H | H]; [left | right]; exact H.
  - right. replace (Z.to_nat (128 - offset)) with 0%nat by lia.
    split; [reflexivity | intros j Hj; lia].
Qed.

Lemma first_free_unique map lo d d' :
  first_free map lo d -> first_free map lo d' -> d = d'.
Proof.
  intros (Hd & Hf & Hall) (Hd' & Hf' & Hall').
  destruct (Z.lt_trichotomy d d') as [Hlt | [Heq | Hgt]]; [|exact Heq|].
  - rewrite (Hall' d) in Hf by lia. discriminate.
  - rewrite (Hall d') in Hf' by lia. discriminate.
Qed.

(** [choose_devnum] for a device that is not wireless. *)
Lemma choose_devnum_scan bus udev :
  wusb udev = false ->
  1 <= devnum_next bus < 2^31 ->
  (exists d,
     round_robin (devicemap bus) (devnum_next bus) d /\ 1 <= d <= 127 /\
     choose_devnum bus udev =
     Val (UsbBus (Z.setbit (devicemap bus) d) (if d >=? 127 then 1 else d + 1),
          UsbDevice d false (portnum udev))) \/
  (none_free (devicemap bus) 1 /\
   choose_devnum bus udev = Val (UsbBus (devicemap bus) 1, udev)).
Proof.
  intros Hw Hn. unfold choose_devnum. rewrite Hw. cbn [mem_bind].
  destruct (find_next_zero_bit_spec (devicemap bus) (devnum_next bus)
              ltac:(lia)) as [Hff | (H128 & Hnone)].
  - destruct Hff as (Hd & Hf & Hall).
    set (d := find_next_zero_bit (devicemap bus) 128 (devnum_next bus)) in *.
    left. exists d.
    assert (Hlt : (d >=? 128) = false) by lia.
    rewrite Hlt. cbn [devicemap devnum_next].
    assert (Hlt' : (d <? 128) = true) by lia. rewrite Hlt'.
    unfold set_bit, in_map, MAP_BITS.
    assert (Hin : (0 <=? d) && (d <? 128) = true) by lia. rewrite Hin.
    cbn [mem_bind]. split; [|split; [lia|]].
    + left. repeat split; try assumption; lia.
    + reflexivity.
  - rewrite H128. change (128 >=? 128) with true. cbn iota.
    destruct (find_next_zero_bit_spec (devicemap bus) 1 ltac:(lia))
      as [Hff | (H128' & Hnone')].
    + destruct Hff as (Hd & Hf & Hall).
      set (d := find_next_zero_bit (devicemap bus) 128 1) in *.
      left. exists d. cbn [devicemap devnum_next].
      assert (Hlt' : (d <? 128) = true) by lia. rewrite Hlt'.
      unfold set_bit, in_map, MAP_BITS.
      assert (Hin : (0 <=? d) && (d <? 128) = true) by lia. rewrite Hin.
      cbn [mem_bind]. split; [|split; [lia|]].
      * right. split; [exact Hnone|]. repeat split; try assumption; lia.
      * reflexivity.
    + right. split; [exact Hnone'|]. rewrite H128'.
      change (128 >=? 127) with true. change (128 <? 128) with false.
      cbn iota. destruct bus; reflexivity.
Qed.

(** C6: for a device that is not wireless, [choose_devnum] scans the map
    for the first free number from [devnum_next] on and, when there is
    none, again from 1; number 0 is never handed out.  On success the
    number's bit is set, the device has the number, and [devnum_next] is 1
    when the number is 127 and the number plus one otherwise; when no
    number from 1 to 127 is free, map and device are left as they were. *)
Theorem choose_devnum_next_free_wrapping (bus : usb_bus) (udev : usb_device) :
  wusb udev = false ->
  1 <= devnum_next bus < 2^31 ->
  exists bus' udev',
    choose_devnum bus udev = Val (bus', udev') /\
    ((exists d,
        round_robin (devicemap bus) (devnum_next bus) d /\
        d <> 0 /\ 1 <= d <= 127 /\
        devicemap bus' = Z.setbit (devicemap bus) d /\
        devnum udev' = d /\
        devnum_next bus' = (if d >=? 127 then 1 else d + 1)) \/
     (none_free (devicemap bus) 1 /\
      devicemap bus' = devicemap bus /\ udev' = udev)).
Proof.
  intros Hw Hn.
  destruct (choose_devnum_scan bus udev Hw Hn)
    as [(d & Hrr & Hd & ->) | (Hnone & ->)]; do 2 eexists;
    (split; [reflexivity|]).
  - left. exists d. cbn. repeat split; try assumption; lia.
  - right. repeat split; assumption.
Qed.

(** Numbers 1 to 4 and 6 taken, the last number handed out was 4. *)
Lemma choose_devnum_witness :
  exists bus' udev',
    choose_devnum (UsbBus 0x5e 5) (usb_alloc_dev false 2) = Val (bus', udev') /\
    devnum udev' = 5 /\ devicemap bus' = 0x7e /\ devnum_next bus' = 6.
Proof.
  destruct (choose_devnum_next_free_wrapping (UsbBus 0x5e 5)
              (usb_alloc_dev false 2) eq_refl ltac:(cbn; lia))
    as (bus' & udev' & Heq & _).
  exists bus', udev'. split; [exact Heq|].
  vm_compute in Heq. injection Heq as <- <-. repeat split.
Defined.


(** *** Numbers in use on a bus *)

Lemma choose_devnum_effect b udev b' udev' :
  1 <= devnum_next b <= 127 ->
  choose_devnum b udev = Val (b', udev') ->
  1 <= devnum_next b' <= 127 /\
  ((udev' = udev /\ devicemap b' = devicemap b) \/
   (exists d, 0 <= d < 128 /\ Z.testbit (devicemap b) d = false /\
              devicemap b' = Z.setbit (devicemap b) d /\ devnum udev' = d)).
Proof.
  intros Hn Hc. destruct (wusb udev) eqn:Hw.
  - unfold choose_devnum in Hc. rewrite Hw in Hc.
    unfold test_bit in Hc.
    destruct (in_map (portnum udev + 1)) eqn:Hin; [|discriminate].
    cbn [mem_bind] in Hc.
    destruct (Z.testbit (devicemap b) (portnum udev + 1)) eqn:Hb;
      [discriminate|].
    cbn [BUG_ON mem_bind] in Hc. unfold set_bit in Hc. rewrite Hin in Hc.
    unfold in_map, MAP_BITS in Hin.
    assert (Hlt : (portnum udev + 1 <? 128) = true) by lia.
    rewrite Hlt in Hc. cbn [mem_bind] in Hc. injection Hc as <- <-.
    cbn. split; [exact Hn|]. right. exists (portnum udev + 1).
    repeat split; try assumption; lia.
  - destruct (choose_devnum_scan b udev Hw ltac:(lia))
      as [(d & Hrr & Hd & Heq) | (Hnone & Heq)];
      rewrite Heq in Hc; injection Hc as <- <-; cbn.
    + split; [destruct (d >=? 127) eqn:?; lia|].
      right. exists d. split; [lia|].
      split; [|split; reflexivity].
      destruct Hrr as [(_ & Hf & _) | (_ & _ & Hf & _)]; exact Hf.
    + split; [lia|]. left. split; reflexivity.
Qed.

Lemma release_devnum_effect b udev b' udev' :
  release_devnum b udev = Val (b', udev') ->
  devnum_next b' = devnum_next b /\
  ((devnum udev <= 0 /\ b' = b /\ udev' = udev) \/
   (0 < devnum udev < 128 /\
    devicemap b' = Z.clearbit (devicemap b) (devnum udev) /\
    devnum udev' = -1)).
Proof.
  unfold release_devnum. intros Hr.
  destruct (devnum udev >? 0) eqn:Hpos.
  - unfold clear_bit in Hr.
    destruct (in_map (devnum udev)) eqn:Hin; [|discriminate].
    cbn [mem_bind] in Hr. injection Hr as <- <-. cbn.
    unfold in_map, MAP_BITS in Hin.
    split; [reflexivity|]. right. repeat split; lia.
  - injection Hr as <- <-. split; [reflexivity|]. left.
    repeat split. lia.
Qed.

Lemma bus_inv_init : bus_inv (BusState usb_bus_init ∅).
Proof.
  split; [cbn; lia|]. split.
  - intros id u Hl. cbn in Hl. now rewrite lookup_empty in Hl.
  - intros i j u v Hl. cbn in Hl. now rewrite lookup_empty in Hl.
Qed.

Lemma bus_inv_step st st' : bus_inv st -> step st st' -> bus_inv st'.
Proof.
  intros (Hnext & Hmark & Hdist) Hstep.
  destruct Hstep as [st id w p Hfresh Hp
                    | st id udev b' udev' Hl Hc
                    | st id udev b' udev' Hl Hr
                    | st id udev Hl Hd].
  - (* usb_alloc_dev: the new device holds no number *)
    split; [exact Hnext|]. split.
    + intros i u. cbn [devices bus]. rewrite lookup_insert.
      case_decide as Hi; [intros [= <-]; cbn; lia | apply Hmark].
    + intros i j u v. cbn [devices]. rewrite !lookup_insert.
      case_decide as Hi; case_decide as Hj.
      * congruence.
      * intros [= <-]. cbn. lia.
      * intros Hu [= <-] Hpos Heq. cbn in Heq. lia.
      * apply Hdist.
  - (* choose_devnum *)
    destruct (choose_devnum_effect _ _ _ _ Hnext Hc)
      as (Hnext' & [(-> & Hmap) | (d & Hd & Hfree & Hmap & Hdev)]).
    + split; [exact Hnext'|]. rewrite insert_id by exact Hl.
      split.
      * intros i u Hu Hpos. cbn [devices bus] in *. rewrite Hmap.
        exact (Hmark i u Hu Hpos).
      * exact Hdist.
    + assert (Hnobody : forall i u, devices st !! i = Some u ->
                          0 < devnum u -> devnum u <> d).
      { intros i u Hu Hpos Heq. destruct (Hmark i u Hu Hpos) as (_ & Hb).
        rewrite Heq, Hfree in Hb. discriminate. }
      split; [exact Hnext'|]. split.
      * intros i u. cbn [devices bus]. rewrite lookup_insert, Hmap.
        case_decide as Hi.
        -- intros [= <-] Hpos. rewrite Hdev. split; [lia|].
           apply Z.setbit_eq. lia.
        -- intros Hu Hpos. destruct (Hmark i u Hu Hpos) as (Hlt & Hb).
           split; [exact Hlt|].
           rewrite Z.setbit_neq by
             (try lia; intros E; exact (Hnobody i u Hu Hpos (eq_sym E))).
           exact Hb.
      * intros i j u v. cbn [devices]. rewrite !lookup_insert.
        case_decide as Hi; case_decide as Hj.
        -- congruence.
        -- intros [= <-] Hv Hpos Heq. exfalso.
           apply (Hnobody j v Hv); congruence.
        -- intros Hu [= <-] Hpos Heq. exfalso.
           apply (Hnobody i u Hu Hpos). congruence.
        -- apply Hdist.
  - (* release_devnum *)
    destruct (release_devnum_effect _ _ _ _ Hr)
      as (Hnext' & [(_ & -> & ->) | (Hd & Hmap & Hdev)]).
    + rewrite insert_id by exact Hl.
      destruct st; split; [exact Hnext | split; assumption].
    + split; [cbn [bus]; rewrite Hnext'; exact Hnext|]. split.
      * intros i u. cbn [devices bus]. rewrite lookup_insert, Hmap.
        case_decide as Hi.
        -- intros [= <-] Hpos. lia.
        -- intros Hu Hpos. destruct (Hmark i u Hu Hpos) as (Hlt & Hb).
           split; [exact Hlt|].
           rewrite Z.clearbit_neq; [exact Hb|].
           intros E. apply Hi. symmetry.
           apply (Hdist i id u udev Hu Hl Hpos). congruence.
      * intros i j u v. cbn [devices]. rewrite !lookup_insert.
        case_decide as Hi; case_decide as Hj.
        -- congruence.
        -- intros [= <-] Hv Hpos. lia.
        -- intros Hu [= <-] Hpos Heq. lia.
        -- apply Hdist.
  - (* the device is dropped *)
    split; [exact Hnext|]. split.
    + intros i u. cbn [devices bus]. rewrite lookup_delete.
      case_decide as Hi; [discriminate | apply Hmark].
    + intros i j u v. cbn [devices]. rewrite !lookup_delete.
      case_decide as Hi; [discriminate|].
      case_decide as Hj; [discriminate|]. apply Hdist.
Qed.

Lemma reachable_bus_inv st : reachable st -> bus_inv st.
Proof.
  induction 1 as [|st st' _ IH Hstep]; [apply bus_inv_init|].
  exact (bus_inv_step st st' IH Hstep).
Qed.

(** *** Reissue of a released number *)

(** One [choose_devnum] either hands out the free number [addr] or moves
    [devnum_next] closer to it, leaving it free. *)
Lemma choose_devnum_approaches b addr :
  1 <= devnum_next b <= 127 -> 1 <= addr <= 127 ->
  Z.testbit (devicemap b) addr = false ->
  exists b' udev',
    choose_devnum b (usb_alloc_dev false 0) = Val (b', udev') /\
    (devnum udev' = addr \/
     (1 <= devnum_next b' <= 127 /\
      Z.testbit (devicemap b') addr = false /\
      scan_distance (devnum_next b') addr
      < scan_distance (devnum_next b) addr)).
Proof.
  intros Hn Ha Hfree.
  destruct (choose_devnum_scan b (usb_alloc_dev false 0) eq_refl ltac:(lia))
    as [(d & Hrr & Hd & Heq) | (Hnone & _)].
  2: { rewrite (Hnone addr) in Hfree by lia. discriminate. }
  rewrite Heq. do 2 eexists. split; [reflexivity|]. cbn.
  destruct (Z.eq_dec d addr) as [-> | Hne]; [now left | right].
  assert (Hstill : Z.testbit (Z.setbit (devicemap b) d) addr = false)
    by (rewrite Z.setbit_neq by lia; exact Hfree).
  unfold scan_distance.
  destruct Hrr as [(Hr & _ & Hall) | (Hnf & Hr & _ & Hall)].
  - destruct (Z_le_dec (devnum_next b) addr) as [Hle | Hgt].
    + assert (d < addr).
      { destruct (Z_lt_dec addr d) as [Hlt|]; [|lia].
        rewrite (Hall addr) in Hfree by lia. discriminate. }
      destruct (d >=? 127) eqn:?; [lia|].
      split; [lia|]. split; [exact Hstill|].
      destruct (d + 1 <=? addr) eqn:?; destruct (devnum_next b <=? addr) eqn:?;
        lia.
    + destruct (d >=? 127) eqn:?.
      * split; [lia|]. split; [exact Hstill|].
        destruct (1 <=? addr) eqn:?; destruct (devnum_next b <=? addr) eqn:?;
          lia.
      * split; [lia|]. split; [exact Hstill|].
        destruct (d + 1 <=? addr) eqn:?; destruct (devnum_next b <=? addr) eqn:?;
          lia.
  - assert (addr < devnum_next b).
    { destruct (Z_lt_dec addr (devnum_next b)) as [|Hge]; [lia|].
      rewrite (Hnf addr) in Hfree by lia. discriminate. }
    assert (d < addr).
    { destruct (Z_lt_dec addr d) as [Hlt|]; [|lia].
      rewrite (Hall addr) in Hfree by lia. discriminate. }
    destruct (d >=? 127) eqn:?; [lia|].
    split; [lia|]. split; [exact Hstill|].
    destruct (d + 1 <=? addr) eqn:?; destruct (devnum_next b <=? addr) eqn:?;
      lia.
Qed.

(** A free number is handed out after finitely many connections. *)
Lemma free_number_reissued : forall (k : nat) b addr,
  1 <= devnum_next b <= 127 -> 1 <= addr <= 127 ->
  Z.testbit (devicemap b) addr = false ->
  scan_distance (devnum_next b) addr <= Z.of_nat k ->
  exists (n : nat) nums,
    connect_many (S n) b = Val nums /\ last nums = Some addr.
Proof.
  induction k as [|k IH]; intros b addr Hn Ha Hfree Hdist;
    destruct (choose_devnum_approaches b addr Hn Ha Hfree)
      as (b' & udev' & Heq & [Hgot | (Hn' & Hfree' & Hcloser)]).
  - exists 0%nat. eexists. cbn [connect_many]. rewrite Heq. cbn.
    split; [reflexivity|]. now rewrite Hgot.
  - exfalso. unfold scan_distance in *.
    destruct (devnum_next b' <=? addr) eqn:?;
      destruct (devnum_next b <=? addr) eqn:?; lia.
  - exists 0%nat. eexists. cbn [connect_many]. rewrite Heq. cbn.
    split; [reflexivity|]. now rewrite Hgot.
  - destruct (IH b' addr Hn' Ha Hfree' ltac:(lia)) as (n & nums & Hmany & Hlast).
    exists (S n), (devnum udev' :: nums).
    change (connect_many (S (S n)) b) with
      (mem_bind (choose_devnum b (usb_alloc_dev false 0))
         (fun r => mem_bind (connect_many (S n) (fst r))
                     (fun rest => Val (devnum (snd r) :: rest)))).
    rewrite Heq. cbn [mem_bind fst snd]. rewrite Hmany. cbn [mem_bind].
    split; [reflexivity|].
    destruct nums as [|x nums]; [discriminate|].
    now rewrite last_cons_cons.
Qed.

(** C7: on any bus the driver has worked on, no two devices hold the same
    device number (the bit of every number held is set in the map, and
    [choose_devnum] only hands out numbers whose bit is clear); and once
    [release_devnum] has released a number, that number's bit is clear and
    it is handed out again to one of the devices connected next. *)
Theorem devnum_injective_and_reissued (st : bus_state) :
  reachable st ->
  (forall i j u v,
     devices st !! i = Some u -> devices st !! j = Some v ->
     0 < devnum u -> devnum u = devnum v -> i = j) /\
  (forall id u,
     devices st !! id = Some u -> 0 < devnum u ->
     exists bus' u',
       release_devnum (bus st) u = Val (bus', u') /\
       devnum u' = -1 /\
       Z.testbit (devicemap bus') (devnum u) = false /\
       exists (n : nat) nums,
         connect_many (S n) bus' = Val nums /\ last nums = Some (devnum u)).
Proof.
  intros Hreach. destruct (reachable_bus_inv st Hreach) as (Hnext & Hmark & Hdist).
  split; [exact Hdist|].
  intros id u Hl Hpos. destruct (Hmark id u Hl Hpos) as (Hlt & Hbit).
  assert (Hrel : release_devnum (bus st) u =
                 Val (UsbBus (Z.clearbit (devicemap (bus st)) (devnum u))
                             (devnum_next (bus st)),
                      UsbDevice (-1) (wusb u) (portnum u))).
  { unfold release_devnum, clear_bit, in_map, MAP_BITS.
    assert (H1 : (devnum u >? 0) = true) by lia.
    assert (H2 : (0 <=? devnum u) && (devnum u <? 128) = true) by lia.
    now rewrite H1, H2. }
  rewrite Hrel. do 2 eexists. split; [reflexivity|].
  split; [reflexivity|]. cbn [devicemap].
  split; [apply Z.clearbit_eq|].
  apply (free_number_reissued
           (Z.to_nat (scan_distance (devnum_next (bus st)) (devnum u)))).
  - exact Hnext.
  - lia.
  - apply Z.clearbit_eq.
  - cbn [devnum_next]. unfold scan_distance.
    destruct (devnum_next (bus st) <=? devnum u) eqn:?; lia.
Qed.

Lemma one_device_reachable : reachable one_device.
Proof.
  apply (reach_step one_alloc).
  - apply (reach_step (BusState usb_bus_init ∅)); [apply reach_init|].
    apply (step_alloc (BusState usb_bus_init ∅) 0%nat false 3).
    + apply lookup_empty.
    + lia.
  - apply (step_choose one_alloc 0%nat (usb_alloc_dev false 3)
             (UsbBus 2 2) (UsbDevice 1 false 3)).
    + apply lookup_insert_eq.
    + reflexivity.
Defined.

Lemma devnum_reissue_witness :
  reachable one_device /\
  exists bus' u',
    release_devnum (bus one_device) (UsbDevice 1 false 3) = Val (bus', u') /\
    Z.testbit (devicemap bus') 1 = false /\
    exists (n : nat) nums,
      connect_many (S n) bus' = Val nums /\ last nums = Some 1.
Proof.
  split; [exact one_device_reachable|].
  destruct (devnum_injective_and_reissued one_device one_device_reachable)
    as (_ & Hre).
  destruct (Hre 0%nat (UsbDevice 1 false 3)) as (b' & u' & Hr & _ & Hb & Hn).
  - apply lookup_insert_eq.
  - cbn. lia.
  - exists b', u'. split; [exact Hr|]. split; [exact Hb | exact Hn].
Defined.

End DevnumSpec.

(** ** The device tree *)

Module TopologySpec.
Import Topology.

(** Induction on the device tree: a property holds of every device when it
    holds of a device as soon as it holds of the children on its ports. *)
Lemma usb_device_tree_ind (P : usb_device -> Prop) :
  (forall udev,
     match intfdata udev with
     | Some hub => Forall (fun port => match child port with
                                       | Some c => P c
                                       | None => True
                                       end) hub
     | None => True
     end -> P udev) ->
  forall udev, P udev.
Proof.
  intros Hstep. fix IH 1. intros udev. apply Hstep.
  destruct udev as [st dn hp mc ac dur [hub|]]; cbn [intfdata]; [|exact I].
  induction hub as [|port rest IHrest]; constructor; [|exact IHrest].
  destruct port as [[c|] o]; cbn [child]; [apply IH | exact I].
Qed.

Lemma descendants_eq udev :
  descendants udev =
  match intfdata udev with Some hub => ports_devices hub | None => [] end.
Proof.
  destruct udev as [st dn hp mc ac dur [hub|]]; cbn [descendants intfdata];
    [|reflexivity].
  induction hub as [|port rest IH]; [reflexivity|].
  unfold ports_devices. cbn [flat_map]. fold (ports_devices rest).
  rewrite <- IH. destruct (child port); reflexivity.
Qed.

Lemma hub_tree_eq udev :
  hub_tree udev <->
  exists hub,
    usb_hub_to_struct_hub udev = Some hub /\
    intfdata udev = Some hub /\
    Z.of_nat (length hub) = maxchild udev /\
    Forall (fun port => match child port with
                        | Some c => hub_tree c
                        | None => True
                        end) hub.
Proof.
  destruct udev as [st dn hp mc ac dur [hub|]];
    unfold usb_hub_to_struct_hub; cbn [hub_tree intfdata actconfig maxchild].
  2: { split; [intros [] | intros (hub & _ & [=] & _)]. }
  assert (Hall : forall ports : usb_hub,
    (fix all (ports : usb_hub) : Prop :=
       match ports with
       | [] => True
       | port :: rest =>
           match child port with
           | Some c => hub_tree c
           | None => True
           end /\ all rest
       end) ports <->
    Forall (fun port => match child port with
                        | Some c => hub_tree c
                        | None => True
                        end) ports).
  { induction ports as [|port rest IH]; [split; [constructor | trivial]|].
    rewrite Forall_cons, IH. reflexivity. }
  rewrite Hall. split.
  - intros ([a ->] & Hmc & Hlen & Hf). exists hub.
    apply Z.eqb_neq in Hmc. rewrite Hmc. repeat split; assumption.
  - intros (hub' & Hh & [= <-] & Hlen & Hf).
    destruct ac as [a|]; [|discriminate].
    destruct (mc =? 0) eqn:Hmc; [discriminate|]. apply Z.eqb_neq in Hmc.
    repeat split; try assumption. now exists a.
Qed.

Section Jiffies.
Variable jiffies : Z.

Local Abbreviation marked := (Topology.marked jiffies).

(** [recursively_mark_NOTATTACHED] in the order of the source: the early
    return when [usb_hub_to_struct_hub] gives no hub, then the loop over
    the ports, then the device itself. *)
Lemma recursively_mark_NOTATTACHED_eq udev :
  recursively_mark_NOTATTACHED jiffies udev =
  match usb_hub_to_struct_hub udev with
  | None => Val udev
  | Some hub =>
      (ports <~ mark_ports jiffies (Z.to_nat (maxchild udev)) hub ;;
       let dur :=
         if bool_decide (state udev = USB_STATE_SUSPENDED)
         then ulong (active_duration udev - jiffies)
         else active_duration udev in
       Val (set_state udev USB_STATE_NOTATTACHED dur (Some ports)))%mem
  end.
Proof.
  destruct udev as [st dn hp mc ac dur [hub|]];
    unfold usb_hub_to_struct_hub;
    cbn [recursively_mark_NOTATTACHED intfdata actconfig maxchild state
         active_duration].
  2: { destruct ac; [destruct (mc =? 0)|]; reflexivity. }
  destruct ac as [a|]; [|reflexivity].
  rewrite bool_decide_eq_false_2 by discriminate. cbn [orb].
  destruct (mc =? 0); [reflexivity|].
  f_equal. generalize (Z.to_nat mc) as n.
  induction hub as [|port rest IH]; intros [|n]; try reflexivity.
  cbn [mark_ports]. rewrite <- IH. reflexivity.
Qed.

Lemma mark_ports_spec (hub : usb_hub) :
  Forall (fun port => match child port with
                      | Some c => hub_tree c -> marked c
                      | None => True
                      end) hub ->
  Forall (fun port => match child port with
                      | Some c => hub_tree c
                      | None => True
                      end) hub ->
  exists hub',
    mark_ports jiffies (length hub) hub = Val hub' /\
    Forall (fun d => state d = USB_STATE_NOTATTACHED) (ports_devices hub') /\
    devnum <$> ports_devices hub' = devnum <$> ports_devices hub.
Proof.
  induction hub as [|port rest IH]; intros HP Hwf.
  - exists []. repeat split. constructor.
  - apply Forall_cons in HP as (HPc & HPrest).
    apply Forall_cons in Hwf as (Hwfc & Hwfrest).
    destruct (IH HPrest Hwfrest) as (rest' & Hrest & Hst & Hdn).
    cbn [length mark_ports]. unfold ports_devices. cbn [flat_map].
    fold (ports_devices rest).
    destruct port as [[c|] o]; cbn [child port_owner] in *.
    + destruct (HPc Hwfc) as (c' & Hc & Hstc & Hdnc).
      rewrite Hc. cbn [mem_bind]. rewrite Hrest. cbn [mem_bind].
      eexists. split; [reflexivity|].
      cbn [flat_map child]. fold (ports_devices rest'). split.
      * apply Forall_app. split; assumption.
      * rewrite !fmap_app. now rewrite Hdnc, Hdn.
    + cbn [mem_bind]. rewrite Hrest. cbn [mem_bind].
      eexists. split; [reflexivity|].
      cbn [flat_map child]. fold (ports_devices rest'). split; assumption.
Qed.

Lemma hub_tree_marked : forall udev, hub_tree udev -> marked udev.
Proof.
  induction udev as [udev IH] using usb_device_tree_ind.
  intros Htree. apply hub_tree_eq in Htree as (hub & Hhub & Hintf & Hlen & Hwf).
  rewrite Hintf in IH.
  destruct (mark_ports_spec hub IH Hwf) as (hub' & Hmark & Hst & Hdn).
  unfold marked. rewrite recursively_mark_NOTATTACHED_eq, Hhub.
  rewrite <- Hlen, Nat2Z.id, Hmark. cbn [mem_bind].
  eexists. split; [reflexivity|].
  unfold subtree. rewrite !descendants_eq, Hintf.
  cbn [set_state intfdata]. split.
  - constructor; [reflexivity | exact Hst].
  - cbn [fmap list_fmap]. cbn [devnum]. f_equal. exact Hdn.
Qed.

Lemma count_NOTATTACHED_all l :
  Forall (fun d => state d = USB_STATE_NOTATTACHED) l ->
  count_NOTATTACHED l = length l.
Proof.
  unfold count_NOTATTACHED. induction 1 as [|d l Hd _ IH]; [reflexivity|].
  rewrite filter_cons_True by exact Hd. cbn. now rewrite IH.
Qed.

End Jiffies.

(** C2 does not hold as stated: [usb_set_device_state] does not release
    device numbers.  The hub below is NOTATTACHED after the call, one
    device in a subtree of one, and still holds number 2; the function has
    no access to the bus, whose map keeps bit 2 set. *)
Lemma set_state_NOTATTACHED_keeps_devnum :
  exists udev',
    usb_set_device_state 0 lone_hub USB_STATE_NOTATTACHED = Val (udev', -1) /\
    length (descendants lone_hub) = 0%nat /\
    count_NOTATTACHED (subtree udev') = 1%nat /\
    held_devnums udev' = [2] /\
    ~ held_devnums udev' = [].
Proof.
  eexists. split; [reflexivity|]. vm_compute. repeat split. discriminate.
Qed.

(** A device without a hub structure is left as it is by the early return
    of [recursively_mark_NOTATTACHED]. *)
Lemma set_state_NOTATTACHED_leaf_unmarked :
  usb_set_device_state 0 leaf_device USB_STATE_NOTATTACHED
  = Val (leaf_device, -1) /\
  count_NOTATTACHED (subtree leaf_device) = 0%nat.
Proof. split; reflexivity. Qed.

(** C2, amended: on a subtree of configured hubs, setting the state of a
    device that is not NOTATTACHED yet to NOTATTACHED leaves the device
    and each of its N descendants NOTATTACHED, N + 1 devices; every device
    keeps the device number it held (no number is released: the function
    has no access to the bus map).  A device that is NOTATTACHED already
    is left as it is. *)
Theorem set_state_NOTATTACHED_marks_subtree
    (jiffies : Z) (udev : usb_device) :
  hub_tree udev ->
  (state udev = USB_STATE_NOTATTACHED ->
   usb_set_device_state jiffies udev USB_STATE_NOTATTACHED = Val (udev, -1)) /\
  (state udev <> USB_STATE_NOTATTACHED ->
   exists udev',
     usb_set_device_state jiffies udev USB_STATE_NOTATTACHED = Val (udev', -1) /\
     length (subtree udev') = S (length (descendants udev)) /\
     count_NOTATTACHED (subtree udev') = S (length (descendants udev)) /\
     devnum <$> subtree udev' = devnum <$> subtree udev /\
     held_devnums udev' = held_devnums udev).
Proof.
  intros Htree. split; intros Hst; unfold usb_set_device_state.
  { now rewrite bool_decide_eq_true_2 by exact Hst. }
  destruct (hub_tree_marked jiffies udev Htree) as (udev' & Hmark & Hall & Hdn).
  rewrite bool_decide_eq_false_2 by exact Hst.
  rewrite bool_decide_eq_true_2 by reflexivity. cbn [negb].
  rewrite Hmark. cbn [mem_bind]. exists udev'. split; [reflexivity|].
  assert (Hlen : length (subtree udev') = length (subtree udev)).
  { rewrite <- (length_fmap devnum (subtree udev')), Hdn. apply length_fmap. }
  split; [exact Hlen|]. split.
  - rewrite (count_NOTATTACHED_all _ Hall). exact Hlen.
  - split; [exact Hdn|]. unfold held_devnums. now rewrite Hdn.
Qed.

Lemma set_state_NOTATTACHED_witness :
  exists udev',
    usb_set_device_state 100 small_tree USB_STATE_NOTATTACHED = Val (udev', -1) /\
    count_NOTATTACHED (subtree udev') = 3%nat /\
    held_devnums udev' = [1; 2; 3].
Proof.
  destruct (set_state_NOTATTACHED_marks_subtree 100 small_tree) as (_ & Hmarks).
  - cbn. repeat split; try (eexists; reflexivity); try discriminate.
  - destruct (Hmarks ltac:(discriminate))
      as (udev' & Heq & _ & Hcount & _ & Hheld).
    exists udev'. split; [exact Heq|]. split; [exact Hcount | exact Hheld].
Defined.

End TopologySpec.

(** *** Topology query and port ownership *)

Module PortAccessSpec.
Import Topology.

Lemma struct_hub_intfdata hdev hub :
  usb_hub_to_struct_hub hdev = Some hub -> intfdata hdev = Some hub.
Proof.
  unfold usb_hub_to_struct_hub.
  destruct (actconfig hdev); [|discriminate].
  destruct (maxchild hdev =? 0); [discriminate | trivial].
Qed.

(** Within the port count the port array has the entry. *)
Lemma port_at_in_range hdev hub port1 :
  ports_ok hdev -> usb_hub_to_struct_hub hdev = Some hub ->
  1 <= port1 <= maxchild hdev ->
  exists port,
    hub !! Z.to_nat (port1 - 1) = Some port /\
    port_at hub (port1 - 1) = Val port.
Proof.
  intros Hok Hhub Hr. unfold ports_ok in Hok.
  rewrite (struct_hub_intfdata hdev hub Hhub) in Hok.
  destruct (lookup_lt_is_Some_2 hub (Z.to_nat (port1 - 1)) ltac:(lia))
    as [port Hport].
  exists port. split; [exact Hport|].
  unfold port_at. rewrite Hport.
  assert (H : (port1 - 1 <? 0) = false) by lia. now rewrite H.
Qed.

(** C10: [usb_hub_find_child] never reads outside the port array.  It
    returns NULL when there is no hub structure and for every port number
    below 1 or above [maxchild], and the child of port [port1] for every
    port number in range. *)
Theorem usb_hub_find_child_total (hdev : usb_device) (port1 : Z) :
  ports_ok hdev ->
  usb_hub_find_child hdev port1 <> Fault /\
  (usb_hub_to_struct_hub hdev = None \/ port1 < 1 \/ maxchild hdev < port1 ->
   usb_hub_find_child hdev port1 = Val None) /\
  (forall hub,
     usb_hub_to_struct_hub hdev = Some hub -> 1 <= port1 <= maxchild hdev ->
     exists port,
       hub !! Z.to_nat (port1 - 1) = Some port /\
       usb_hub_find_child hdev port1 = Val (child port)).
Proof.
  intros Hok.
  assert (Hout : usb_hub_to_struct_hub hdev = None \/ port1 < 1 \/
                 maxchild hdev < port1 ->
                 usb_hub_find_child hdev port1 = Val None).
  { intros H. unfold usb_hub_find_child.
    destruct (usb_hub_to_struct_hub hdev) as [hub|]; [|reflexivity].
    destruct H as [H | H]; [discriminate|].
    assert (Hc : (port1 <? 1) || (port1 >? maxchild hdev) = true) by lia.
    now rewrite Hc. }
  assert (Hin : forall hub,
     usb_hub_to_struct_hub hdev = Some hub -> 1 <= port1 <= maxchild hdev ->
     exists port,
       hub !! Z.to_nat (port1 - 1) = Some port /\
       usb_hub_find_child hdev port1 = Val (child port)).
  { intros hub Hhub Hr.
    destruct (port_at_in_range hdev hub port1 Hok Hhub Hr) as (port & Hl & Hp).
    exists port. split; [exact Hl|].
    unfold usb_hub_find_child. rewrite Hhub.
    assert (Hc : (port1 <? 1) || (port1 >? maxchild hdev) = false) by lia.
    rewrite Hc, Hp. reflexivity. }
  split; [|split; assumption].
  destruct (usb_hub_to_struct_hub hdev) as [hub|] eqn:Hhub.
  - destruct (Z_le_dec 1 port1) as [H1|H1];
      [destruct (Z_le_dec port1 (maxchild hdev)) as [H2|H2]|].
    + destruct (Hin hub eq_refl ltac:(lia)) as (port & _ & ->). discriminate.
    + rewrite Hout by lia. discriminate.
    + rewrite Hout by lia. discriminate.
  - rewrite Hout by (left; reflexivity). discriminate.
Qed.

Lemma usb_hub_find_child_witness :
  ports_ok two_port_hub /\
  usb_hub_find_child two_port_hub 3 = Val None /\
  usb_hub_find_child two_port_hub 0 = Val None /\
  exists port,
    usb_hub_find_child two_port_hub 2 = Val (child port) /\
    is_Some (child port).
Proof.
  assert (Hok : ports_ok two_port_hub) by reflexivity.
  destruct (usb_hub_find_child_total two_port_hub 3 Hok) as (_ & H3 & _).
  destruct (usb_hub_find_child_total two_port_hub 0 Hok) as (_ & H0 & _).
  destruct (usb_hub_find_child_total two_port_hub 2 Hok) as (_ & _ & H2).
  split; [exact Hok|].
  split; [apply H3; right; right; cbn; lia|].
  split; [apply H0; right; left; lia|].
  destruct (H2 _ eq_refl ltac:(cbn; lia)) as (port & Hl & Heq).
  exists port. split; [exact Heq|].
  cbn in Hl. injection Hl as <-. cbn. eexists; reflexivity.
Defined.

(** [find_port_owner] on an attached hub. *)
Lemma find_port_owner_hub hdev hub port1 :
  ports_ok hdev -> maxchild hdev < 2^32 ->
  usb_hub_to_struct_hub hdev = Some hub ->
  state hdev <> USB_STATE_NOTATTACHED ->
  (port1 = 0 \/ maxchild hdev < port1 ->
   find_port_owner hdev port1 = Val (- EINVAL, None)) /\
  (1 <= port1 <= maxchild hdev ->
   exists port,
     hub !! Z.to_nat (port1 - 1) = Some port /\
     find_port_owner hdev port1 = Val (0, Some port)).
Proof.
  intros Hok Hmax Hhub Hst.
  assert (H0 : 0 <= maxchild hdev).
  { unfold ports_ok in Hok.
    rewrite (struct_hub_intfdata hdev hub Hhub) in Hok. lia. }
  unfold find_port_owner. rewrite Hhub.
  rewrite bool_decide_eq_false_2 by exact Hst.
  unfold u32. rewrite Z.mod_small by lia. split.
  - intros Hout.
    assert (Hc : (port1 =? 0) || (port1 >? maxchild hdev) = true) by lia.
    now rewrite Hc.
  - intros Hin.
    assert (Hc : (port1 =? 0) || (port1 >? maxchild hdev) = false) by lia.
    rewrite Hc.
    destruct (port_at_in_range hdev hub port1 Hok Hhub Hin) as (port & Hl & Hp).
    exists port. split; [exact Hl|]. now rewrite Hp.
Qed.

(** [find_port_owner] never reads outside the port array, and reports
    success together with a port only ([port1] is an [unsigned]). *)
Lemma find_port_owner_cases hdev port1 :
  ports_ok hdev -> maxchild hdev < 2^32 -> 0 <= port1 ->
  find_port_owner hdev port1 = Val (- ENODEV, None) \/
  find_port_owner hdev port1 = Val (- EINVAL, None) \/
  exists port, find_port_owner hdev port1 = Val (0, Some port).
Proof.
  intros Hok Hmax Hp.
  destruct (usb_hub_to_struct_hub hdev) as [hub|] eqn:Hhub.
  2: { left. unfold find_port_owner. now rewrite Hhub. }
  destruct (decide (state hdev = USB_STATE_NOTATTACHED)) as [Hst | Hst].
  { left. unfold find_port_owner. rewrite Hhub.
    now rewrite bool_decide_eq_true_2 by exact Hst. }
  destruct (find_port_owner_hub hdev hub port1 Hok Hmax Hhub Hst) as (Hout & Hin).
  destruct (Z_le_dec 1 port1) as [H1|H1];
    [destruct (Z_le_dec port1 (maxchild hdev)) as [H2|H2]|].
  - right. right. destruct (Hin ltac:(lia)) as (port & _ & Heq). now exists port.
  - right. left. apply Hout. lia.
  - right. left. apply Hout. lia.
Qed.

(** Both operations answer, and an answer other than 0 comes with the
    device as it was. *)
Lemma port_owner_failure_unchanged hdev port1 owner :
  ports_ok hdev -> maxchild hdev < 2^32 -> 0 <= port1 ->
  (exists rc hdev',
     usb_hub_claim_port hdev port1 owner = Val (rc, hdev') /\
     (rc <> 0 -> hdev' = hdev)) /\
  (exists rc hdev',
     usb_hub_release_port hdev port1 owner = Val (rc, hdev') /\
     (rc <> 0 -> hdev' = hdev)).
Proof.
  intros Hok Hmax Hp. unfold usb_hub_claim_port, usb_hub_release_port.
  destruct (find_port_owner_cases hdev port1 Hok Hmax Hp)
    as [-> | [-> | (port & ->)]]; cbn [mem_bind].
  - split; do 2 eexists; (split; [reflexivity | trivial]).
  - split; do 2 eexists; (split; [reflexivity | trivial]).
  - split.
    + destruct (port_owner port); do 2 eexists;
        (split; [reflexivity|]); [trivial | intros H; now destruct H].
    + destruct (bool_decide (port_owner port = owner)); do 2 eexists;
        (split; [reflexivity|]); [intros H; now destruct H | trivial].
Qed.

(** [find_port_owner] without a hub structure or on a NOTATTACHED hub. *)
Lemma find_port_owner_gone hdev port1 :
  usb_hub_to_struct_hub hdev = None \/ state hdev = USB_STATE_NOTATTACHED ->
  find_port_owner hdev port1 = Val (- ENODEV, None).
Proof.
  intros H. unfold find_port_owner.
  destruct (usb_hub_to_struct_hub hdev) as [hub|]; [|reflexivity].
  destruct H as [H | H]; [discriminate|].
  now rewrite bool_decide_eq_true_2 by exact H.
Qed.

(** C9 does not hold as stated on a hub that is NOTATTACHED: the owned
    port 2 of [detached_hub] is not reported busy, a release by another
    owner is not answered with -ENOENT, and port number 0 is not answered
    with -EINVAL; all three calls return -ENODEV. *)
Lemma port_owner_detached_hub_ENODEV :
  (exists hub port,
     usb_hub_to_struct_hub detached_hub = Some hub /\
     hub !! 1%nat = Some port /\ port_owner port = Some 7%nat) /\
  usb_hub_claim_port detached_hub 2 (Some 9%nat)
  = Val (- ENODEV, detached_hub) /\
  usb_hub_claim_port detached_hub 2 (Some 9%nat)
  <> Val (- EBUSY, detached_hub) /\
  usb_hub_release_port detached_hub 2 (Some 9%nat)
  = Val (- ENODEV, detached_hub) /\
  usb_hub_release_port detached_hub 2 (Some 9%nat)
  <> Val (- ENOENT, detached_hub) /\
  usb_hub_claim_port detached_hub 0 (Some 9%nat)
  = Val (- ENODEV, detached_hub) /\
  usb_hub_claim_port detached_hub 0 (Some 9%nat)
  <> Val (- EINVAL, detached_hub).
Proof.
  split; [do 2 eexists; repeat split; reflexivity|].
  repeat split; try reflexivity; vm_compute; discriminate.
Qed.

(** C9, amended: the port-ownership operations fail without changing
    anything.  Whatever they return other than 0 comes with the hub as it
    was.  On a hub that has its hub structure and is not NOTATTACHED,
    [usb_hub_claim_port] returns -EBUSY for a port that has an owner,
    [usb_hub_release_port] returns -ENOENT to a caller that is not the
    recorded owner, and both return -EINVAL for port number 0 and for
    port numbers above the hub's port count.  Without a hub structure or
    on a NOTATTACHED hub both return -ENODEV for every port number. *)
Theorem port_owner_failures_change_nothing
    (hdev : usb_device) (port1 : Z) (owner : option dev_state) :
  ports_ok hdev -> maxchild hdev < 2^31 -> 0 <= port1 < 2^32 ->
  ((exists rc hdev',
      usb_hub_claim_port hdev port1 owner = Val (rc, hdev') /\
      (rc <> 0 -> hdev' = hdev)) /\
   (exists rc hdev',
      usb_hub_release_port hdev port1 owner = Val (rc, hdev') /\
      (rc <> 0 -> hdev' = hdev))) /\
  (forall hub,
     usb_hub_to_struct_hub hdev = Some hub ->
     state hdev <> USB_STATE_NOTATTACHED ->
     (port1 = 0 \/ maxchild hdev < port1 ->
      usb_hub_claim_port hdev port1 owner = Val (- EINVAL, hdev) /\
      usb_hub_release_port hdev port1 owner = Val (- EINVAL, hdev)) /\
     (forall port,
        1 <= port1 <= maxchild hdev ->
        hub !! Z.to_nat (port1 - 1) = Some port ->
        (is_Some (port_owner port) ->
         usb_hub_claim_port hdev port1 owner = Val (- EBUSY, hdev)) /\
        (port_owner port <> owner ->
         usb_hub_release_port hdev port1 owner = Val (- ENOENT, hdev)))) /\
  (usb_hub_to_struct_hub hdev = None \/ state hdev = USB_STATE_NOTATTACHED ->
   usb_hub_claim_port hdev port1 owner = Val (- ENODEV, hdev) /\
   usb_hub_release_port hdev port1 owner = Val (- ENODEV, hdev)).
Proof.
  intros Hok Hmax Hp.
  split; [apply port_owner_failure_unchanged; [assumption | lia | lia]|].
  split.
  - intros hub Hhub Hst.
    destruct (find_port_owner_hub hdev hub port1 Hok ltac:(lia) Hhub Hst)
      as (Hout & Hin).
    unfold usb_hub_claim_port, usb_hub_release_port. split.
    + intros H. rewrite (Hout H). split; reflexivity.
    + intros port Hr Hl. destruct (Hin Hr) as (port' & Hl' & ->).
      rewrite Hl in Hl'. injection Hl' as <-. cbn [mem_bind]. split.
      * intros [o Ho]. now rewrite Ho.
      * intros Hne. now rewrite bool_decide_eq_false_2 by exact Hne.
  - intros Hgone. unfold usb_hub_claim_port, usb_hub_release_port.
    rewrite (find_port_owner_gone hdev port1 Hgone). split; reflexivity.
Qed.

Lemma port_owner_witness :
  usb_hub_claim_port two_port_hub 2 (Some 9%nat) = Val (- EBUSY, two_port_hub) /\
  usb_hub_release_port two_port_hub 2 (Some 9%nat) = Val (- ENOENT, two_port_hub) /\
  usb_hub_claim_port two_port_hub 0 (Some 9%nat) = Val (- EINVAL, two_port_hub) /\
  usb_hub_release_port two_port_hub 3 (Some 9%nat) = Val (- EINVAL, two_port_hub) /\
  usb_hub_release_port detached_hub 2 (Some 7%nat) = Val (- ENODEV, detached_hub).
Proof.
  assert (Hok : ports_ok two_port_hub) by reflexivity.
  assert (Hmax : maxchild two_port_hub < 2^31) by (cbn; lia).
  assert (Hst : state two_port_hub <> USB_STATE_NOTATTACHED) by discriminate.
  destruct (port_owner_failures_change_nothing two_port_hub 2 (Some 9%nat)
              Hok Hmax ltac:(lia)) as (_ & H2 & _).
  destruct (port_owner_failures_change_nothing two_port_hub 0 (Some 9%nat)
              Hok Hmax ltac:(lia)) as (_ & H0 & _).
  destruct (port_owner_failures_change_nothing two_port_hub 3 (Some 9%nat)
              Hok Hmax ltac:(lia)) as (_ & H3 & _).
  destruct (port_owner_failures_change_nothing detached_hub 2 (Some 7%nat)
              ltac:(reflexivity) ltac:(cbn; lia) ltac:(lia)) as (_ & _ & Hd).
  destruct (H2 _ eq_refl Hst) as (_ & Hin).
  destruct (Hin _ ltac:(cbn; lia) eq_refl) as (Hbusy & Hnoent).
  destruct (H0 _ eq_refl Hst) as (Hinv0 & _).
  destruct (H3 _ eq_refl Hst) as (Hinv3 & _).
  split; [apply Hbusy; eexists; reflexivity|].
  split; [apply Hnoent; discriminate|].
  split; [apply Hinv0; now left|].
  split; [apply Hinv3; right; cbn; lia|].
  apply Hd. now right.
Defined.

End PortAccessSpec.

(** ** The queue of hubs with pending events *)

Module EventQueueSpec.
Import EventQueue.

Lemma elem_of_unlink h x l :
  NoDup l -> x ∈ unlink h l <-> x ∈ l /\ x <> h.
Proof.
  induction l as [|y l IH]; intros Hnd; cbn [unlink].
  - split; [intros H | intros [H _]]; now apply not_elem_of_nil in H.
  - apply NoDup_cons in Hnd as (Hy & Hnd). case_bool_decide as Hyh.
    + subst y. rewrite elem_of_cons. split.
      * intros Hx. split; [now right|]. intros ->. contradiction.
      * intros ([-> | Hx] & Hne); [contradiction | exact Hx].
    + rewrite !elem_of_cons, (IH Hnd). split.
      * intros [-> | (Hx & Hne)]; [split; [now left | exact Hyh]|].
        split; [now right | exact Hne].
      * intros ([-> | Hx] & Hne); [now left | right; now split].
Qed.

Lemma NoDup_unlink h l : NoDup l -> NoDup (unlink h l).
Proof.
  induction l as [|y l IH]; intros Hnd; cbn [unlink]; [constructor|].
  apply NoDup_cons in Hnd as (Hy & Hnd). case_bool_decide; [exact Hnd|].
  apply NoDup_cons. split; [|exact (IH Hnd)].
  rewrite (elem_of_unlink h y l Hnd). tauto.
Qed.

Lemma times_queued_le_1 h st :
  NoDup (hub_event_list st) -> (times_queued h st <= 1)%nat.
Proof.
  unfold times_queued. generalize (hub_event_list st) as l.
  induction l as [|y l IH]; intros Hnd; [cbn; lia|].
  apply NoDup_cons in Hnd as (Hy & Hnd).
  destruct (decide (y = h)) as [-> | Hne].
  - rewrite filter_cons_True by reflexivity. cbn [length].
    assert (Hz : filter (fun x => x = h) l = []).
    { clear -Hy. induction l as [|z l IH]; [reflexivity|].
      apply not_elem_of_cons in Hy as (Hzh & Hy).
      rewrite filter_cons_False by congruence. exact (IH Hy). }
    rewrite Hz. cbn. lia.
  - rewrite filter_cons_False by exact Hne. exact (IH Hnd).
Qed.

Lemma times_queued_0 h st :
  h ∉ hub_event_list st <-> times_queued h st = 0%nat.
Proof.
  unfold times_queued. generalize (hub_event_list st) as l.
  induction l as [|y l IH]; [split; [reflexivity | intros _; apply not_elem_of_nil]|].
  rewrite not_elem_of_cons. destruct (decide (y = h)) as [-> | Hne].
  - rewrite filter_cons_True by reflexivity. cbn. split; [tauto | discriminate].
  - rewrite filter_cons_False by exact Hne. rewrite <- IH.
    split; [tauto | intros H; split; [congruence | exact H]].
Qed.

Lemma queue_inv_init : queue_inv khubd0.
Proof.
  split; [constructor|]. split.
  - intros h. cbn. split.
    + intros H. now apply not_elem_of_nil in H.
    + intros (hub & Hl & _). now rewrite lookup_empty in Hl.
  - intros h hub Hl. cbn in Hl. now rewrite lookup_empty in Hl.
Qed.

Lemma queue_inv_probe h st :
  hubs st !! h = None -> queue_inv st -> queue_inv (hub_probe h st).
Proof.
  intros Hfresh (Hnd & Hlink & Hdisc). unfold hub_probe, queue_inv.
  cbn [hubs hub_event_list]. split; [exact Hnd|]. split.
  - intros k. rewrite Hlink. split; intros (hub & Hl & He).
    + exists hub. rewrite lookup_insert. case_decide as Hk; [|easy].
      subst k. rewrite Hfresh in Hl. discriminate.
    + rewrite lookup_insert in Hl. case_decide as Hk.
      * injection Hl as <-. discriminate.
      * now exists hub.
  - intros k hub. rewrite lookup_insert. case_decide as Hk.
    + intros [= <-]. reflexivity.
    + apply Hdisc.
Qed.

Lemma queue_inv_kick h st : queue_inv st -> queue_inv (kick_khubd h st).
Proof.
  intros Hinv. pose proof Hinv as (Hnd & Hlink & Hdisc). unfold kick_khubd.
  destruct (hubs st !! h) as [hub|] eqn:Hh; [|exact Hinv].
  destruct (negb (disconnected hub) && negb (event_list hub)) eqn:Hc;
    [|exact Hinv].
  apply andb_true_iff in Hc as (Hd & He).
  apply negb_true_iff in Hd, He.
  assert (Hnot : h ∉ hub_event_list st).
  { rewrite Hlink. intros (hub' & Hl & He'). congruence. }
  unfold update_hub, list_add_tail, queue_inv.
  cbn [hubs hub_event_list disconnected event_list pm_usage].
  rewrite alter_insert_eq.
  cbn [hubs hub_event_list disconnected event_list pm_usage]. split; [|split].
  - apply NoDup_app. split; [exact Hnd|]. split; [|apply NoDup_singleton].
    intros x Hx Hxh. apply list_elem_of_singleton in Hxh. now subst x.
  - intros k. rewrite elem_of_app, list_elem_of_singleton, Hlink.
    split.
    + intros [(hub' & Hl & He') | ->].
      * exists hub'. rewrite lookup_insert. case_decide as Hk; [|easy].
        subst k. congruence.
      * eexists. rewrite lookup_insert_eq. split; reflexivity.
    + intros (hub' & Hl & He'). rewrite lookup_insert in Hl.
      case_decide as Hk; [now right | left; now exists hub'].
  - intros k hub'. rewrite lookup_insert. case_decide as Hk.
    + intros [= <-]. cbn. congruence.
    + apply Hdisc.
Qed.

Lemma hub_disconnect_eq h hub st :
  hubs st !! h = Some hub ->
  hub_disconnect h st =
  Khubd (<[h := UsbHub true false
                  (if event_list hub then pm_usage hub - 1 else pm_usage hub)]>
           (hubs st))
        (if event_list hub then unlink h (hub_event_list st)
         else hub_event_list st).
Proof.
  intros Hh. unfold hub_disconnect. rewrite Hh.
  destruct hub as [d [|] pm]; cbn [event_list disconnected pm_usage];
    unfold update_hub, list_del_init; cbn [hubs hub_event_list].
  - now rewrite !alter_insert_eq.
  - f_equal. apply map_eq. intros k.
    rewrite lookup_alter, lookup_insert. case_decide; [|reflexivity].
    subst k. now rewrite Hh.
Qed.

Lemma queue_inv_disconnect h st :
  queue_inv st -> queue_inv (hub_disconnect h st).
Proof.
  intros Hinv. pose proof Hinv as (Hnd & Hlink & Hdisc).
  destruct (hubs st !! h) as [hub|] eqn:Hh.
  2: { unfold hub_disconnect. rewrite Hh. exact Hinv. }
  rewrite (hub_disconnect_eq h hub st Hh). unfold queue_inv.
  cbn [hubs hub_event_list].
  assert (Hlist : forall k,
    k ∈ (if event_list hub then unlink h (hub_event_list st)
         else hub_event_list st) <-> k ∈ hub_event_list st /\ k <> h).
  { intros k. destruct (event_list hub) eqn:He.
    - apply elem_of_unlink, Hnd.
    - split; [|tauto]. intros Hk. split; [exact Hk|]. intros ->.
      apply Hlink in Hk as (hub' & Hl & He'). congruence. }
  split; [|split].
  - destruct (event_list hub); [now apply NoDup_unlink | exact Hnd].
  - intros k. rewrite Hlist, Hlink. split.
    + intros ((hub' & Hl & He') & Hne). exists hub'.
      now rewrite lookup_insert_ne by congruence.
    + intros (hub' & Hl & He'). rewrite lookup_insert in Hl.
      case_decide as Hk; [injection Hl as <-; discriminate|].
      split; [now exists hub' | congruence].
  - intros k hub'. rewrite lookup_insert. case_decide as Hk.
    + intros [= <-]. reflexivity.
    + apply Hdisc.
Qed.

Lemma queue_inv_events st :
  queue_inv st -> queue_inv (snd (hub_events_dequeue st)).
Proof.
  intros Hinv. pose proof Hinv as (Hnd & Hlink & Hdisc).
  unfold hub_events_dequeue.
  destruct (hub_event_list st) as [|h l] eqn:Hl; [exact Hinv|].
  destruct (proj1 (Hlink h) ltac:(apply list_elem_of_here))
    as (hub & Hh & He).
  rewrite Hh. unfold list_del_init, queue_inv.
  cbn [snd hubs hub_event_list].
  rewrite <- Hl in Hnd. setoid_rewrite <- Hl in Hlink. split; [|split].
  - now apply NoDup_unlink.
  - intros k. rewrite (elem_of_unlink h k _ Hnd), Hlink. split.
    + intros ((hub' & Hk & He') & Hne). exists hub'.
      now rewrite lookup_insert_ne by congruence.
    + intros (hub' & Hk & He'). rewrite lookup_insert in Hk.
      case_decide as Hkh; [injection Hk as <-; discriminate|].
      split; [now exists hub' | congruence].
  - intros k hub'. rewrite lookup_insert. case_decide as Hk.
    + intros [= <-]. reflexivity.
    + apply Hdisc.
Qed.

Lemma queue_inv_step st st' : step st st' -> queue_inv st -> queue_inv st'.
Proof.
  intros [h s Hfresh | h s _ | h s _ | s].
  - now apply queue_inv_probe.
  - apply queue_inv_kick.
  - apply queue_inv_disconnect.
  - apply queue_inv_events.
Qed.

Lemma queue_inv_steps st st' : rtc step st st' -> queue_inv st -> queue_inv st'.
Proof.
  induction 1 as [|st st1 st' Hstep _ IH]; [trivial|].
  intros Hinv. apply IH. exact (queue_inv_step st st1 Hstep Hinv).
Qed.

Lemma reachable_queue_inv st : reachable st -> queue_inv st.
Proof. intros H. exact (queue_inv_steps khubd0 st H queue_inv_init). Qed.

(** No critical section clears [disconnected]. *)
Lemma disconnected_step st st' h :
  step st st' -> is_disconnected h st -> is_disconnected h st'.
Proof.
  intros Hstep (hub & Hh & Hd).
  destruct Hstep as [k s Hfresh | k s _ | k s _ | s].
  - exists hub. unfold hub_probe. cbn [hubs].
    rewrite lookup_insert_ne by congruence. now split.
  - unfold kick_khubd. destruct (hubs s !! k) as [hubk|] eqn:Hk;
      [|now exists hub].
    destruct (negb (disconnected hubk) && negb (event_list hubk)) eqn:Hc;
      [|now exists hub].
    unfold update_hub, list_add_tail. cbn [hubs].
    rewrite alter_insert_eq. unfold is_disconnected. cbn [hubs].
    destruct (decide (k = h)) as [-> | Hne].
    + rewrite lookup_insert_eq. eexists. split; [reflexivity|]. cbn.
      congruence.
    + exists hub. now rewrite lookup_insert_ne by exact Hne.
  - destruct (hubs s !! k) as [hubk|] eqn:Hk.
    + rewrite (hub_disconnect_eq k hubk s Hk). unfold is_disconnected.
      cbn [hubs]. destruct (decide (k = h)) as [-> | Hne].
      * rewrite lookup_insert_eq. eexists. split; reflexivity.
      * exists hub. now rewrite lookup_insert_ne by exact Hne.
    + unfold hub_disconnect. rewrite Hk. now exists hub.
  - unfold hub_events_dequeue. destruct (hub_event_list s) as [|k l];
      [now exists hub|].
    destruct (hubs s !! k) as [hubk|] eqn:Hk; cbn [snd]; [|now exists hub].
    unfold list_del_init, is_disconnected. cbn [hubs].
    destruct (decide (k = h)) as [-> | Hne].
    + rewrite lookup_insert_eq. eexists. split; [reflexivity|]. cbn.
      congruence.
    + exists hub. now rewrite lookup_insert_ne by exact Hne.
Qed.

Lemma disconnected_steps st st' h :
  rtc step st st' -> is_disconnected h st -> is_disconnected h st'.
Proof.
  induction 1 as [|st st1 st' Hstep _ IH]; [trivial|].
  intros Hd. apply IH. exact (disconnected_step st st1 h Hstep Hd).
Qed.

Lemma disconnected_not_queued st h :
  queue_inv st -> is_disconnected h st -> times_queued h st = 0%nat.
Proof.
  intros (_ & Hlink & Hdisc) (hub & Hh & Hd). apply times_queued_0.
  rewrite Hlink. intros (hub' & Hh' & He).
  rewrite Hh in Hh'. injection Hh' as <-.
  rewrite (Hdisc h hub Hh Hd) in He. discriminate.
Qed.

(** C8: whatever the order in which the critical sections of [hub_probe],
    [kick_khubd], [hub_disconnect] and [hub_events] run, a hub is on the
    event list at most once; a hub whose [disconnected] flag is set is not
    on the list and is never on it again; [kick_khubd] appends the hub
    exactly when its flag is clear and its list entry is empty (it is not
    on the list); and [hub_disconnect] leaves the hub off the list with
    the flag set. *)
Theorem hub_queued_at_most_once_never_after_disconnect (st : khubd) :
  reachable st ->
  (forall h, (times_queued h st <= 1)%nat) /\
  (forall h st',
     is_disconnected h st -> rtc step st st' ->
     is_disconnected h st' /\ times_queued h st' = 0%nat) /\
  (forall h hub,
     hubs st !! h = Some hub ->
     (event_list hub = true <-> h ∈ hub_event_list st) /\
     hub_event_list (kick_khubd h st) =
       (if negb (disconnected hub) && negb (event_list hub)
        then hub_event_list st ++ [h] else hub_event_list st) /\
     is_disconnected h (hub_disconnect h st) /\
     times_queued h (hub_disconnect h st) = 0%nat).
Proof.
  intros Hreach. pose proof (reachable_queue_inv st Hreach) as Hinv.
  split; [|split].
  - intros h. apply times_queued_le_1, Hinv.
  - intros h st' Hd Hsteps.
    pose proof (disconnected_steps st st' h Hsteps Hd) as Hd'.
    split; [exact Hd'|].
    apply disconnected_not_queued; [|exact Hd'].
    exact (queue_inv_steps st st' Hsteps Hinv).
  - intros h hub Hh. split; [|split; [|split]].
    + destruct Hinv as (_ & Hlink & _). rewrite Hlink. split.
      * intros He. now exists hub.
      * intros (hub' & Hh' & He). congruence.
    + unfold kick_khubd. rewrite Hh.
      destruct (negb (disconnected hub) && negb (event_list hub)); reflexivity.
    + rewrite (hub_disconnect_eq h hub st Hh). unfold is_disconnected.
      cbn [hubs]. rewrite lookup_insert_eq. eexists. split; reflexivity.
    + apply disconnected_not_queued; [now apply queue_inv_disconnect|].
      rewrite (hub_disconnect_eq h hub st Hh). unfold is_disconnected.
      cbn [hubs]. rewrite lookup_insert_eq. eexists. split; reflexivity.
Qed.

Lemma one_hub_queued_reachable : reachable one_hub_queued.
Proof.
  unfold reachable, one_hub_queued.
  apply (rtc_l _ _ (hub_probe 0%nat khubd0)).
  - apply step_probe. apply lookup_empty.
  - apply rtc_once. apply step_kick. cbn. rewrite lookup_insert_eq.
    eexists; reflexivity.
Defined.

Lemma hub_queue_witness :
  reachable one_hub_queued /\
  (times_queued 0%nat one_hub_queued <= 1)%nat /\
  hub_event_list (kick_khubd 0%nat one_hub_queued)
  = hub_event_list one_hub_queued /\
  times_queued 0%nat (hub_disconnect 0%nat one_hub_queued) = 0%nat /\
  times_queued 0%nat
    (kick_khubd 0%nat (hub_disconnect 0%nat one_hub_queued)) = 0%nat.
Proof.
  destruct (hub_queued_at_most_once_never_after_disconnect one_hub_queued
              one_hub_queued_reachable) as (Honce & Hnever & Hops).
  destruct (Hops 0%nat (UsbHub false true 1)) as (_ & Hkick & Hdisc & Hoff).
  { reflexivity. }
  split; [exact one_hub_queued_reachable|].
  split; [apply Honce|]. split; [exact Hkick|]. split; [exact Hoff|].
  destruct (hub_queued_at_most_once_never_after_disconnect
              (hub_disconnect 0%nat one_hub_queued)) as (_ & Hnever' & _).
  { eapply rtc_r; [exact one_hub_queued_reachable|].
    apply step_disconnect. eexists; reflexivity. }
  apply (Hnever' 0%nat); [exact Hdisc|].
  apply rtc_once. apply step_kick. eexists; reflexivity.
Defined.

End EventQueueSpec.

(** ** More of the status path *)

Module HubStatusSpec.
Import StatusReader PortPolling HubStatus.

Section Wire.

Variable wire : Z -> nat -> urb_result.

(** The retry loop leaves in the buffer the words of the last transfer
    when that one delivered them. *)
Lemma sts_loop_last p n : forall status s,
  let out := sts_loop wire n p status s in
  (out = (status, s) /\ (n = 0%nat \/ retry status = false)) \/
  ((transfers s < transfers (snd out) <= transfers s + n)%nat /\
   let last := wire p (transfers (snd out) - 1)%nat in
   fst out = urb_ret last /\
   (4 <= urb_ret last ->
    buffer (snd out) = (urb_wStatus last, urb_wChange last)) /\
   slept (snd out) = slept s /\ cleared (snd out) = cleared s).
Proof.
  induction n as [|n IH]; intros status s; cbn [sts_loop].
  - left. split; [reflexivity | now left].
  - destruct (retry status) eqn:Hr; [|left; split; [reflexivity | now right]].
    right.
    unfold bind. unfold usb_control_msg. cbn beta iota zeta.
    set (s1 := HubIo _ _ _ _).
    destruct (IH (urb_ret (wire p (transfers s))) s1)
      as [[-> _] | (Ht & Hf & Hb & Hsl & Hcl)].
    + cbn [fst snd]. subst s1. cbn [transfers buffer slept cleared].
      replace (S (transfers s) - 1)%nat with (transfers s) by lia.
      split; [lia|]. split; [reflexivity|]. split; [|split; reflexivity].
      intros H4. apply Z.leb_le in H4. now rewrite H4.
    + subst s1. cbn [transfers slept cleared] in *.
      split; [lia|]. split; [exact Hf|]. split; [exact Hb|].
      split; assumption.
Qed.

(** [hub_port_status] in terms of the last transfer it issued. *)
Lemma hub_port_status_spec port1 old s :
  let out := hub_port_status wire port1 old s in
  (transfers s < transfers (snd out) <= transfers s + 5)%nat /\
  fst out = port_status_of (wire port1 (transfers (snd out) - 1)%nat) old /\
  slept (snd out) = slept s /\ cleared (snd out) = cleared s.
Proof.
  unfold hub_port_status, get_port_status, bind. cbn zeta.
  pose proof (sts_loop_last port1 (Z.to_nat USB_STS_RETRIES) (- ETIMEDOUT) s)
    as Hl. cbn zeta in Hl.
  destruct Hl as [[_ [Heq | Heq]] | (Ht & Hf & Hb & Hsl & Hcl)];
    [discriminate Heq | discriminate Heq |].
  change (Z.to_nat USB_STS_RETRIES) with 5%nat in *.
  destruct (sts_loop wire 5 port1 (- ETIMEDOUT) s) as [r s1] eqn:Hloop.
  cbn [fst snd] in *. unfold port_status_of.
  destruct (r <? 4) eqn:Hr4.
  - unfold ret. cbn [fst snd]. rewrite <- Hf.
    assert (H : (4 <=? r) = false) by lia. rewrite H.
    repeat split; try assumption; try lia. now destruct (0 <=? r).
  - unfold read_buffer, ret. cbn [fst snd]. rewrite <- Hf.
    assert (H : (4 <=? r) = true) by lia. rewrite H.
    rewrite Hb by lia. cbn [fst snd].
    repeat split; try assumption; try lia.
Qed.

(** [get_hub_status] in terms of the last transfer it issued. *)
Lemma get_hub_status_spec s :
  let out := get_hub_status wire s in
  (transfers s < transfers (snd out) <= transfers s + 5)%nat /\
  let last := wire 0 (transfers (snd out) - 1)%nat in
  fst out = urb_ret last /\
  (4 <= urb_ret last ->
   buffer (snd out) = (urb_wStatus last, urb_wChange last)) /\
  slept (snd out) = slept s /\ cleared (snd out) = cleared s.
Proof.
  unfold get_hub_status.
  pose proof (sts_loop_last 0 (Z.to_nat USB_STS_RETRIES) (- ETIMEDOUT) s)
    as Hl. cbn zeta in Hl.
  destruct Hl as [[_ [Heq | Heq]] | Hl];
    [discriminate Heq | discriminate Heq |].
  exact Hl.
Qed.

Section Port.

Variable port1 : Z.

Lemma land_connection x :
  Z.land x USB_PORT_STAT_CONNECTION = 0 \/ Z.land x USB_PORT_STAT_CONNECTION = 1.
Proof.
  unfold USB_PORT_STAT_CONNECTION.
  pose proof (Z.land_ones x 1 ltac:(lia)) as H.
  change (Z.ones 1) with 1 in H. rewrite H.
  change (2 ^ 1) with 2. pose proof (Z.mod_pos_bound x 2 ltac:(lia)). lia.
Qed.

(** One pass through the body of the debounce loop. *)
Lemma debounce_sample_cases must T stable conn old s :
  let out := debounce_sample wire port1 must T stable conn old s in
  slept (snd out) = slept s /\
  match fst out with
  | Exit (Return r) => r < 0
  | Exit (Break T' st' ps pc) =>
      T' = T /\ 100 <= st' <= stable + 25 /\ 0 <= ps < 65536 /\
      conn = Z.land ps USB_PORT_STAT_CONNECTION /\
      (stable < 100 -> must = true -> tst ps USB_PORT_STAT_CONNECTION = true)
  | Continue st' conn' ps pc =>
      st' < 100 /\
      (st' = 0 \/
       (conn = Z.land ps USB_PORT_STAT_CONNECTION /\ st' <= stable + 25))
  end.
Proof.
  unfold debounce_sample, bind. cbn zeta.
  pose proof (hub_port_status_spec port1 old s) as Hs. cbn zeta in Hs.
  destruct (hub_port_status wire port1 old s) as [[r [ps pc]] s1].
  cbn [fst snd] in Hs. destruct Hs as (_ & Hr & Hsl & _).
  unfold port_status_of in Hr.
  set (last := wire port1 (transfers s1 - 1)%nat) in Hr.
  destruct (4 <=? urb_ret last) eqn:H4.
  2:{ assert (Hneg : r < 0).
      { destruct (0 <=? urb_ret last) eqn:H0; injection Hr as -> _;
          unfold EIO; lia. }
      assert (Hlt : (r <? 0) = true) by lia. rewrite Hlt.
      unfold ret. cbn [fst snd]. split; [exact Hsl | exact Hneg]. }
  injection Hr as -> -> ->. change (0 <? 0) with false. cbn iota.
  set (ps := u16 (urb_wStatus last)). set (pc := u16 (urb_wChange last)).
  assert (Hps : 0 <= ps < 65536).
  { subst ps. unfold u16. change (2 ^ 16) with 65536.
    apply Z.mod_pos_bound. lia. }
  assert (Hclr : forall (A : Type) (a : A) s0,
    slept (snd ((if tst pc USB_PORT_STAT_C_CONNECTION
                 then usb_clear_port_feature_C_CONNECTION port1 else ret tt) s0))
    = slept s0).
  { intros A a s0. destruct (tst pc USB_PORT_STAT_C_CONNECTION); reflexivity. }
  destruct (negb (tst pc USB_PORT_STAT_C_CONNECTION) &&
            (Z.land ps USB_PORT_STAT_CONNECTION =? conn)) eqn:Hsame.
  - apply andb_true_iff in Hsame. destruct Hsame as [_ Hc].
    apply Z.eqb_eq in Hc.
    destruct (negb must || (conn =? USB_PORT_STAT_CONNECTION)) eqn:Hinc.
    + destruct (stable + HUB_DEBOUNCE_STEP >=? HUB_DEBOUNCE_STABLE) eqn:Hst;
        unfold HUB_DEBOUNCE_STEP, HUB_DEBOUNCE_STABLE in Hst.
      * unfold ret. cbn [fst snd]. split; [exact Hsl|].
        unfold HUB_DEBOUNCE_STEP.
        split; [reflexivity|]. split; [lia|]. split; [exact Hps|].
        split; [now symmetry|]. intros _ ->.
        cbn [negb orb] in Hinc. apply Z.eqb_eq in Hinc.
        unfold tst. rewrite Hc, Hinc. reflexivity.
      * match goal with
        | |- context [let (_, _) := ?m s1 in _] => destruct (m s1) as [[] s2] eqn:Hm
        end.
        pose proof (Hclr unit tt s1) as Hc2. rewrite Hm in Hc2.
        unfold ret. cbn [fst snd] in *. split; [congruence|].
        unfold HUB_DEBOUNCE_STEP. split; [lia|]. right. split; [now symmetry | lia].
    + destruct (stable >=? HUB_DEBOUNCE_STABLE) eqn:Hst;
        unfold HUB_DEBOUNCE_STABLE in Hst.
      * unfold ret. cbn [fst snd]. split; [exact Hsl|].
        split; [reflexivity|]. split; [lia|]. split; [exact Hps|].
        split; [now symmetry|]. intros Hlt. lia.
      * match goal with
        | |- context [let (_, _) := ?m s1 in _] => destruct (m s1) as [[] s2] eqn:Hm
        end.
        pose proof (Hclr unit tt s1) as Hc2. rewrite Hm in Hc2.
        unfold ret. cbn [fst snd] in *. split; [congruence|].
        split; [lia|]. right. split; [now symmetry | lia].
  - match goal with
    | |- context [let (_, _) := ?m s1 in _] => destruct (m s1) as [[] s2] eqn:Hm
    end.
    pose proof (Hclr unit tt s1) as Hc2. rewrite Hm in Hc2.
    unfold ret. cbn [fst snd] in *. split; [congruence|].
    split; [lia|]. now left.
Qed.

(** The debounce loop from any point on: it sleeps at most once per step
    left before the timeout, and leaves with a stable connection only
    after the connection was seen unchanged for the whole stable time. *)
Lemma debounce_loop_bounded must : forall (n : nat) T stable conn old s,
  0 <= T -> HUB_DEBOUNCE_TIMEOUT - T <= 25 * Z.of_nat n ->
  stable < 100 -> (stable + 25 <= T \/ conn = 0xffff) ->
  let out := debounce_loop wire port1 must T stable conn old s in
  exists k : nat,
    (k <= n)%nat /\
    slept (snd out) = replicate k HUB_DEBOUNCE_STEP ++ slept s /\
    match fst out with
    | Return r => r < 0
    | Break T' st' ps pc =>
        T' = T + 25 * Z.of_nat k /\
        (100 <= st' ->
         100 <= T' /\ 0 <= ps < 65536 /\
         (must = true -> tst ps USB_PORT_STAT_CONNECTION = true))
    end.
Proof.
  induction n as [|n IH]; intros T stable conn old s HT Hn Hst Hinv;
    cbn zeta; rewrite PortPollingSpec.debounce_loop_unfold;
    pose proof (debounce_sample_cases must T stable conn old s) as Hc;
    cbn zeta in Hc;
    destruct (debounce_sample wire port1 must T stable conn old s)
      as [[[r | T' st' ps pc] | st' conn' ps pc] s1];
    cbn [fst snd] in Hc; destruct Hc as [Hsl Hc].
  - exists 0%nat. cbn [fst snd replicate app]. auto.
  - exists 0%nat. cbn [fst snd replicate app].
    destruct Hc as (-> & Hst' & Hps & Hconn & Hmust).
    split; [lia|]. split; [exact Hsl|]. split; [lia|]. intros _.
    split; [|split; [exact Hps | now apply Hmust]].
    destruct Hinv as [Hinv | ->]; [lia|].
    destruct (land_connection ps); lia.
  - unfold HUB_DEBOUNCE_TIMEOUT in *.
    assert (Hge : (T <? 2000) = false) by lia. rewrite Hge.
    exists 0%nat. cbn [fst snd replicate app].
    split; [lia|]. split; [exact Hsl|]. split; [lia|]. lia.
  - exists 0%nat. cbn [fst snd replicate app]. split; [lia|]. auto.
  - exists 0%nat. cbn [fst snd replicate app].
    destruct Hc as (-> & Hst' & Hps & Hconn & Hmust).
    split; [lia|]. split; [exact Hsl|]. split; [lia|]. intros _.
    split; [|split; [exact Hps | now apply Hmust]].
    destruct Hinv as [Hinv | ->]; [lia|].
    destruct (land_connection ps); lia.
  - destruct Hc as [Hlt Hc].
    destruct (T <? HUB_DEBOUNCE_TIMEOUT) eqn:HT2.
    + unfold HUB_DEBOUNCE_TIMEOUT, HUB_DEBOUNCE_STEP in *.
      destruct (IH (T + 25) st' conn' (ps, pc) (snd (msleep 25 s1)))
        as (k & Hk & Hslk & Hres); try lia.
      { left. destruct Hc as [-> | [Hconn Hle]]; [lia|].
        destruct Hinv as [Hinv | ->]; [lia|].
        destruct (land_connection ps); lia. }
      exists (S k). split; [lia|]. split.
      * rewrite Hslk. cbn [msleep snd slept]. rewrite Hsl.
        change (25 :: slept s) with (replicate 1 25 ++ slept s).
        rewrite app_assoc. f_equal.
        change (S k) with (1 + k)%nat. rewrite Nat.add_comm.
        now rewrite replicate_add.
      * destruct (fst (debounce_loop wire port1 must (T + 25) st' conn'
                         (ps, pc) (snd (msleep 25 s1))))
          as [r | T' st2 ps2 pc2]; [exact Hres|].
        destruct Hres as [-> Hres]. split; [lia|].
        intros H100. destruct (Hres H100) as (H1 & H2 & H3).
        split; [lia|]. split; assumption.
    + exists 0%nat. cbn [fst snd replicate app].
      split; [lia|]. split; [exact Hsl|]. split; [lia|]. lia.
Qed.

(** *** The reset wait on any port *)

Variables hub_is_superspeed hub_is_wusb : bool.

Lemma s32_small x : - 2 ^ 31 <= x < 2 ^ 31 -> s32 x = x.
Proof.
  intros H. unfold s32.
  rewrite Z.mod_small; [lia|]. change (2 ^ 32) with (2 * 2 ^ 31). lia.
Qed.

Lemma reset_polls_left_nonneg dt : 0 <= reset_polls_left dt.
Proof.
  unfold reset_polls_left.
  destruct (800 <=? dt) eqn:H8; [lia|].
  destruct (20 <=? dt) eqn:H2; [|lia].
  apply Z.div_pos; lia.
Qed.

Lemma reset_polls_left_step dt d :
  0 <= dt < 800 -> (20 <= dt -> d = 200) -> (dt < 20 -> 1 <= d) ->
  reset_polls_left (dt + d) + 1 <= reset_polls_left dt.
Proof.
  intros Hdt H20 H1. unfold reset_polls_left.
  assert (H8 : (800 <=? dt) = false) by lia. rewrite H8.
  destruct (20 <=? dt) eqn:H2.
  - rewrite H20 by lia.
    assert (H2' : (20 <=? dt + 200) = true) by lia. rewrite H2'.
    destruct (800 <=? dt + 200); Z.div_mod_to_equations; lia.
  - destruct (800 <=? dt + d); [lia|].
    destruct (20 <=? dt + d) eqn:H2'; [|lia].
    Z.div_mod_to_equations; lia.
Qed.

(** From any point of the wait on, the loop is left after at most
    [reset_polls_left] further polls. *)
Lemma wait_reset_loop_terminates delay0 : forall (fuel : nat) dt d old s,
  0 <= dt -> reset_polls_left dt < Z.of_nat fuel ->
  (dt < 20 -> 1 <= d < 2 ^ 31 - 20) ->
  (d = delay0 \/ d = HUB_LONG_RESET_TIME) ->
  let out := wait_reset_loop wire port1 fuel dt d old s in
  exists e new,
    fst out = Some e /\
    slept (snd out) = new ++ slept s /\
    Z.of_nat (length new) <= reset_polls_left dt /\
    Forall (fun x => x = delay0 \/ x = HUB_LONG_RESET_TIME) new.
Proof.
  induction fuel as [|fuel IH]; intros dt d old s Hdt Hfuel Hd Hd0; cbn zeta.
  { pose proof (reset_polls_left_nonneg dt). lia. }
  cbn [wait_reset_loop]. unfold HUB_RESET_TIMEOUT.
  pose proof (reset_polls_left_nonneg dt) as Hnn.
  destruct (dt <? 800) eqn:Hlt.
  2:{ exists (Break dt d (fst old) (snd old)), []. unfold ret.
      cbn [fst snd app length].
      repeat split; try lia. constructor. }
  unfold bind, msleep. cbn beta iota zeta.
  set (s0 := HubIo (transfers s) (buffer s) (d :: slept s) (cleared s)).
  pose proof (hub_port_status_spec port1 old s0) as Hs. cbn zeta in Hs.
  destruct (hub_port_status wire port1 old s0) as [[r [ps pc]] s1].
  cbn [fst snd] in Hs. destruct Hs as (_ & _ & Hsl & _).
  subst s0. cbn [slept] in Hsl.
  set (d' := if dt >=? 2 * HUB_SHORT_RESET_TIME then HUB_LONG_RESET_TIME else d).
  assert (Hstep : reset_polls_left (dt + d') + 1 <= reset_polls_left dt).
  { apply reset_polls_left_step; subst d';
      unfold HUB_SHORT_RESET_TIME, HUB_LONG_RESET_TIME;
      destruct (dt >=? 2 * 10) eqn:H20; lia. }
  pose proof (reset_polls_left_nonneg (dt + d')) as Hnn'.
  destruct (r <? 0).
  { exists (Return r), [d]. unfold ret. cbn [fst snd app length].
    repeat split; try assumption; try lia. now constructor. }
  destruct (negb (tst ps USB_PORT_STAT_RESET)).
  { exists (Break dt d ps pc), [d]. unfold ret. cbn [fst snd app length].
    repeat split; try assumption; try lia. now constructor. }
  assert (Hd' : 1 <= d' < 2 ^ 31 - 20 /\ dt + d' < 2 ^ 31 /\
                (d' = delay0 \/ d' = HUB_LONG_RESET_TIME)).
  { subst d'. unfold HUB_SHORT_RESET_TIME, HUB_LONG_RESET_TIME in *.
    destruct (dt >=? 2 * 10) eqn:H20.
    - split; [lia|]. split; [lia|]. now right.
    - split; [lia|]. split; [lia | exact Hd0]. }
  destruct Hd' as (Hd1 & Hd2 & Hd3).
  rewrite s32_small by lia.
  destruct (IH (dt + d') d' (ps, pc) s1) as (e & new & He & Hnew & Hlen & Hall);
    try lia; try assumption.
  exists e, (new ++ [d]). split; [exact He|]. split.
  { rewrite Hnew, Hsl. now rewrite <- app_assoc. }
  split.
  { rewrite length_app. cbn [length]. lia. }
  apply Forall_app. split; [exact Hall|]. now constructor.
Qed.

(** A status without the reset bit that leaves the loop is the one of
    the last transfer, which delivered both words. *)
Lemma wait_reset_loop_break : forall (fuel : nat) dt d old s,
  (HUB_RESET_TIMEOUT <= dt -> tst (fst old) USB_PORT_STAT_RESET = true) ->
  let out := wait_reset_loop wire port1 fuel dt d old s in
  match fst out with
  | Some (Break _ _ ps pc) =>
      tst ps USB_PORT_STAT_RESET = false ->
      let last := wire port1 (transfers (snd out) - 1)%nat in
      4 <= urb_ret last /\
      ps = u16 (urb_wStatus last) /\ pc = u16 (urb_wChange last)
  | Some (Return r) => r < 0
  | None => True
  end.
Proof.
  induction fuel as [|fuel IH]; intros dt d old s Hold; cbn zeta.
  { exact I. }
  cbn [wait_reset_loop].
  destruct (dt <? HUB_RESET_TIMEOUT) eqn:Hlt.
  2:{ unfold ret. cbn [fst snd]. intros H.
      rewrite Hold in H by lia. discriminate H. }
  unfold bind, msleep. cbn beta iota zeta.
  set (s0 := HubIo (transfers s) (buffer s) (d :: slept s) (cleared s)).
  pose proof (hub_port_status_spec port1 old s0) as Hs. cbn zeta in Hs.
  destruct (hub_port_status wire port1 old s0) as [[r [ps pc]] s1].
  cbn [fst snd] in Hs. destruct Hs as (_ & Hr & _).
  destruct (r <? 0) eqn:Hneg.
  { unfold ret. cbn [fst snd]. lia. }
  destruct (tst ps USB_PORT_STAT_RESET) eqn:Hrst; cbn [negb].
  - apply IH. intros _. exact Hrst.
  - unfold ret. cbn [fst snd]. intros _.
    unfold port_status_of in Hr.
    destruct (4 <=? urb_ret (wire port1 (transfers s1 - 1)%nat)) eqn:H4.
    + injection Hr as _ -> ->. split; [lia|]. split; reflexivity.
    + exfalso.
      destruct (0 <=? urb_ret (wire port1 (transfers s1 - 1)%nat)) eqn:H0;
        injection Hr as -> _; unfold EIO in Hneg; lia.
Qed.

End Port.

(** [check_ports_changed] from any port on. *)
Lemma check_ports_from_spec : forall (n : nat) port1 s,
  let out := check_ports_from wire n port1 s in
  (transfers (snd out) <= transfers s + 5 * n)%nat /\
  ((fst out = 0 /\ (transfers s + n <= transfers (snd out))%nat) \/
   (fst out = 1 /\
    exists p, port1 <= p < port1 + Z.of_nat n /\
      let last := wire p (transfers (snd out) - 1)%nat in
      4 <= urb_ret last /\ u16 (urb_wChange last) <> 0)).
Proof.
  induction n as [|n IH]; intros port1 s; cbn zeta; cbn [check_ports_from].
  { unfold ret. cbn [fst snd]. split; [lia|]. left. split; [reflexivity | lia]. }
  unfold bind. cbn beta iota zeta.
  pose proof (hub_port_status_spec port1 (0, 0) s) as Hs. cbn zeta in Hs.
  destruct (hub_port_status wire port1 (0, 0) s) as [[r [ps pc]] s1].
  cbn [fst snd] in Hs. destruct Hs as (Ht & Hr & _).
  destruct ((r =? 0) && negb (pc =? 0)) eqn:Hhit.
  - unfold ret. cbn [fst snd]. split; [lia|]. right. split; [reflexivity|].
    exists port1. split; [lia|]. cbn zeta.
    apply andb_true_iff in Hhit. destruct Hhit as [H0 Hpc].
    apply Z.eqb_eq in H0. apply negb_true_iff, Z.eqb_neq in Hpc.
    unfold port_status_of in Hr.
    destruct (4 <=? urb_ret (wire port1 (transfers s1 - 1)%nat)) eqn:H4.
    + injection Hr as _ _ Hc. split; [lia|]. congruence.
    + exfalso.
      destruct (0 <=? urb_ret (wire port1 (transfers s1 - 1)%nat)) eqn:Hge;
        injection Hr as Hr _; unfold EIO in Hr; lia.
  - specialize (IH (port1 + 1) s1). cbn zeta in IH.
    destruct IH as [Hb [[Hz Hlow] | [H1 (p & Hp & Hlast)]]].
    + split; [lia|]. left. split; [exact Hz | lia].
    + split; [lia|]. right. split; [exact H1|].
      exists p. split; [lia | exact Hlast].
Qed.

Lemma read_ports_transfers : forall (n : nat) port1 s,
  (transfers s + n <= transfers (read_ports wire n port1 s))%nat.
Proof.
  induction n as [|n IH]; intros port1 s; cbn [read_ports]; [lia|].
  destruct (hub_port_status_spec port1 (0, 0) s) as (Ht & _).
  specialize (IH (port1 + 1) (snd (hub_port_status wire port1 (0, 0) s))).
  lia.
Qed.

(** The test [!status && portchange] of the loop body looks at the last
    answer of the read alone. *)
Lemma port_status_reports_change port1 s :
  let r := fst (hub_port_status wire port1 (0, 0) s) in
  (fst r =? 0) && negb (snd (snd r) =? 0)
  = reports_change (answer_at wire port1 s 0).
Proof.
  cbn zeta. unfold answer_at. cbn [read_ports]. rewrite Z.add_0_r.
  destruct (hub_port_status_spec port1 (0, 0) s) as (_ & Hr & _).
  rewrite Hr. unfold port_status_of, reports_change.
  set (last := wire port1 _).
  destruct (4 <=? urb_ret last) eqn:H4; [reflexivity|].
  destruct (0 <=? urb_ret last) eqn:H0; cbn [fst snd];
    [unfold EIO; reflexivity|].
  assert (Hne : (urb_ret last =? 0) = false) by lia. now rewrite Hne.
Qed.

Lemma answer_at_S port1 s k :
  answer_at wire port1 s (S k)
  = answer_at wire (port1 + 1)
      (snd (hub_port_status wire port1 (0, 0) s)) k.
Proof.
  unfold answer_at. cbn [read_ports].
  now replace (port1 + Z.of_nat (S k)) with (port1 + 1 + Z.of_nat k) by lia.
Qed.

(** [check_ports_changed] from any port on: it stops after the first
    port whose answer reports a change, and reads all ports when there is
    none. *)
Lemma check_ports_from_exact : forall (n : nat) port1 s,
  (exists k : nat,
     (k < n)%nat /\
     reports_change (answer_at wire port1 s k) = true /\
     (forall j : nat, (j < k)%nat ->
        reports_change (answer_at wire port1 s j) = false) /\
     check_ports_from wire n port1 s = (1, read_ports wire (S k) port1 s)) \/
  ((forall k : nat, (k < n)%nat ->
      reports_change (answer_at wire port1 s k) = false) /\
   check_ports_from wire n port1 s = (0, read_ports wire n port1 s)).
Proof.
  induction n as [|n IH]; intros port1 s.
  { right. split; [intros k Hk; lia | reflexivity]. }
  cbn [check_ports_from]. unfold bind.
  pose proof (port_status_reports_change port1 s) as Hhit. cbn zeta in Hhit.
  pose proof (answer_at_S port1 s) as HS.
  assert (Hread : forall m, read_ports wire (S m) port1 s
                  = read_ports wire m (port1 + 1)
                      (snd (hub_port_status wire port1 (0, 0) s)))
    by reflexivity.
  destruct (hub_port_status wire port1 (0, 0) s) as [[r [ps pc]] s1].
  cbn [fst snd] in Hhit, HS, Hread. rewrite Hhit.
  destruct (reports_change (answer_at wire port1 s 0)) eqn:H0.
  - left. exists 0%nat. split; [lia|]. split; [exact H0|].
    split; [intros j Hj; lia|]. unfold ret. now rewrite Hread.
  - destruct (IH (port1 + 1) s1) as [(k & Hk & Hc & Hbefore & Hout) | (Hnone & Hout)].
    + left. exists (S k). split; [lia|]. split; [now rewrite HS|].
      split.
      * intros [|j] Hj; [exact H0|]. rewrite HS. apply Hbefore. lia.
      * rewrite Hout. now rewrite (Hread (S k)).
    + right. split.
      * intros [|k] Hk; [exact H0|]. rewrite HS. apply Hnone. lia.
      * rewrite Hout. now rewrite (Hread n).
Qed.

End Wire.

(** X1: [hub_port_status] issues between one and five transfers and
    judges the last of them alone: with its four bytes delivered the call
    returns 0 and both words of that answer, a shorter answer is [-EIO],
    a failed transfer hands its error on, and in both failures the
    caller's words stay as they were.  The result is never positive. *)
Theorem hub_port_status_judges_last_transfer
    (wire : Z -> nat -> urb_result) (port1 : Z) (old : Z * Z) (s : hub_io) :
  let out := hub_port_status wire port1 old s in
  let last := wire port1 (transfers (snd out) - 1)%nat in
  (transfers s < transfers (snd out) <= transfers s + 5)%nat /\
  fst (fst out) <= 0 /\
  (fst (fst out) = 0 <-> 4 <= urb_ret last) /\
  (4 <= urb_ret last ->
   snd (fst out) = (u16 (urb_wStatus last), u16 (urb_wChange last))) /\
  (urb_ret last < 4 -> snd (fst out) = old) /\
  (0 <= urb_ret last < 4 -> fst (fst out) = - EIO) /\
  (urb_ret last < 0 -> fst (fst out) = urb_ret last).
Proof.
  cbn zeta.
  destruct (hub_port_status_spec wire port1 old s) as (Ht & Hr & _).
  split; [exact Ht|]. rewrite Hr. unfold port_status_of.
  set (last := wire port1 _).
  destruct (4 <=? urb_ret last) eqn:H4; [|destruct (0 <=? urb_ret last) eqn:H0];
    cbn [fst snd]; unfold EIO; repeat split; intros; try lia; try reflexivity.
Qed.

(** X2: whatever the port does, [hub_port_debounce] returns after at most
    80 sleeps of 25 ms, two seconds in all; it never sleeps for any other
    length of time. *)
Theorem hub_port_debounce_sleeps_at_most_2000ms
    (wire : Z -> nat -> urb_result) (port1 : Z) (must : bool) (s : hub_io) :
  let out := hub_port_debounce wire port1 must s in
  exists k : nat,
    (k <= 80)%nat /\
    slept (snd out) = replicate k HUB_DEBOUNCE_STEP ++ slept s /\
    clock (snd out) - clock s = 25 * Z.of_nat k.
Proof.
  cbn zeta. unfold hub_port_debounce.
  destruct (debounce_loop_bounded wire port1 must 80 0 0 0xffff (0, 0) s
              ltac:(lia) ltac:(unfold HUB_DEBOUNCE_TIMEOUT; lia) ltac:(lia)
              (or_intror eq_refl))
    as (k & Hk & Hsl & _).
  destruct (debounce_loop wire port1 must 0 0 65535 (0, 0) s)
    as [[r | T st ps pc] s1]; cbn [fst snd] in *;
    exists k; (split; [exact Hk|]); (split; [exact Hsl|]);
    rewrite (PortPollingSpec.clock_replicate k HUB_DEBOUNCE_STEP (slept s) s1 Hsl);
    unfold clock, HUB_DEBOUNCE_STEP; lia.
Qed.

(** X3: a result of [hub_port_debounce] that is not negative is a 16-bit
    port status, returned after at least 100 ms of sleep; when the caller
    asked for a connection, its connection bit is set. *)
Theorem hub_port_debounce_success_is_stable
    (wire : Z -> nat -> urb_result) (port1 : Z) (must : bool) (s : hub_io) :
  let out := hub_port_debounce wire port1 must s in
  0 <= fst out ->
  fst out < 65536 /\
  100 <= clock (snd out) - clock s /\
  (must = true -> tst (fst out) USB_PORT_STAT_CONNECTION = true).
Proof.
  cbn zeta. unfold hub_port_debounce.
  destruct (debounce_loop_bounded wire port1 must 80 0 0 0xffff (0, 0) s
              ltac:(lia) ltac:(unfold HUB_DEBOUNCE_TIMEOUT; lia) ltac:(lia)
              (or_intror eq_refl))
    as (k & Hk & Hsl & Hres).
  destruct (debounce_loop wire port1 must 0 0 65535 (0, 0) s)
    as [[r | T st ps pc] s1]; cbn [fst snd] in *.
  { lia. }
  destruct Hres as [-> Hres]. unfold HUB_DEBOUNCE_STABLE.
  destruct (st <? 100) eqn:Hst; [unfold ETIMEDOUT; lia|].
  intros _. destruct Hres as (HT & Hps & Hmust); [lia|].
  split; [lia|]. split; [|exact Hmust].
  rewrite (PortPollingSpec.clock_replicate k HUB_DEBOUNCE_STEP (slept s) s1 Hsl).
  unfold clock, HUB_DEBOUNCE_STEP. lia.
Qed.

Lemma hub_port_debounce_success_witness :
  0 <= fst (hub_port_debounce steady_port 1 true io0) /\
  tst (fst (hub_port_debounce steady_port 1 true io0))
    USB_PORT_STAT_CONNECTION = true.
Proof.
  assert (H : 0 <= fst (hub_port_debounce steady_port 1 true io0))
    by (vm_compute; discriminate).
  split; [exact H|].
  exact (proj2 (proj2
    (hub_port_debounce_success_is_stable steady_port 1 true io0 H)) eq_refl).
Defined.

(** X4: with a delay of at least 1 ms and below 2^31 - 20 ms, so that
    the [int] counter [delay_time] does not wrap, [hub_port_wait_reset]
    is over after at most 24 polls whatever the port answers: 25 units
    of fuel always give a result, and every sleep is the caller's delay
    or the long reset time. *)
Theorem hub_port_wait_reset_terminates
    (wire : Z -> nat -> urb_result) (port1 : Z)
    (hub_is_superspeed hub_is_wusb : bool)
    (fuel : nat) (udev : option usb_device_speed) (delay : Z) (s : hub_io) :
  1 <= delay < 2 ^ 31 - 20 -> (25 <= fuel)%nat ->
  let out :=
    hub_port_wait_reset wire port1 hub_is_superspeed hub_is_wusb
      fuel udev delay s in
  exists r new,
    fst out = Some r /\
    slept (snd out) = new ++ slept s /\
    (length new <= 24)%nat /\
    Forall (fun x => x = delay \/ x = HUB_LONG_RESET_TIME) new.
Proof.
  intros Hd Hfuel. cbn zeta. unfold hub_port_wait_reset, bind.
  assert (H24 : reset_polls_left 0 < Z.of_nat fuel)
    by (change (reset_polls_left 0) with 24; lia).
  destruct (wait_reset_loop_terminates wire port1 delay fuel 0 delay (0, 0) s
              ltac:(lia) H24 (fun _ => Hd) (or_introl eq_refl))
    as (e & new & He & Hnew & Hlen & Hall).
  change (reset_polls_left 0) with 24 in Hlen.
  destruct (wait_reset_loop wire port1 fuel 0 delay (0, 0) s) as [o s1].
  cbn [fst snd] in *. subst o. unfold ret.
  destruct e as [r | T d ps pc]; cbn [fst snd]; eexists; exists new;
    (split; [reflexivity|]); (split; [exact Hnew|]); (split; [lia | exact Hall]).
Qed.

Lemma hub_port_wait_reset_terminates_witness :
  exists r,
    fst (hub_port_wait_reset stuck_port 1 false false 25 None 10 io0) = Some r.
Proof.
  destruct (hub_port_wait_reset_terminates stuck_port 1 false false 25 None 10
              io0 ltac:(lia) ltac:(lia)) as (r & _ & Hr & _).
  exists r. exact Hr.
Defined.

(** X5: when [hub_port_wait_reset] returns 0, the last answer of the port
    delivered both words and reports the port out of reset, connected and
    enabled, with no warm reset required and, below SuperSpeed, no
    connect change; a device that was passed has its speed set. *)
Theorem hub_port_wait_reset_success
    (wire : Z -> nat -> urb_result) (port1 : Z)
    (hub_is_superspeed hub_is_wusb : bool)
    (fuel : nat) (udev : option usb_device_speed) (delay : Z) (s : hub_io)
    (sp : option usb_device_speed) (s' : hub_io) :
  hub_port_wait_reset wire port1 hub_is_superspeed hub_is_wusb
    fuel udev delay s = (Some (0, sp), s') ->
  let last := wire port1 (transfers s' - 1)%nat in
  let portstatus := u16 (urb_wStatus last) in
  let portchange := u16 (urb_wChange last) in
  4 <= urb_ret last /\
  tst portstatus USB_PORT_STAT_RESET = false /\
  tst portstatus USB_PORT_STAT_CONNECTION = true /\
  tst portstatus USB_PORT_STAT_ENABLE = true /\
  hub_port_warm_reset_required hub_is_superspeed portstatus = false /\
  (hub_is_superspeed = false ->
   tst portchange USB_PORT_STAT_C_CONNECTION = false) /\
  (udev = None <-> sp = None) /\
  sp <> Some USB_SPEED_UNKNOWN.
Proof.
  unfold hub_port_wait_reset, bind.
  pose proof (wait_reset_loop_break wire port1 fuel 0 delay (0, 0) s) as Hb.
  cbn zeta in Hb.
  destruct (wait_reset_loop wire port1 fuel 0 delay (0, 0) s) as [o s1].
  cbn [fst snd] in Hb. unfold ret. intros H. injection H as H ->.
  destruct o as [[r | T d ps pc]|]; [| |discriminate H].
  { injection H as -> _. specialize (Hb ltac:(unfold HUB_RESET_TIMEOUT; lia)). lia. }
  specialize (Hb ltac:(unfold HUB_RESET_TIMEOUT; lia)).
  injection H as H. unfold wait_reset_finish in H.
  destruct (tst ps USB_PORT_STAT_RESET) eqn:Hrst;
    [injection H as H _; unfold EBUSY in H; lia|].
  destruct (hub_port_warm_reset_required hub_is_superspeed ps) eqn:Hwarm;
    [injection H as H _; unfold ENOTCONN in H; lia|].
  destruct (tst ps USB_PORT_STAT_CONNECTION) eqn:Hconn; cbn [negb] in H;
    [|injection H as H _; unfold ENOTCONN in H; lia].
  destruct (negb hub_is_superspeed && tst pc USB_PORT_STAT_C_CONNECTION) eqn:Hcc;
    [injection H as H _; unfold ENOTCONN in H; lia|].
  destruct (tst ps USB_PORT_STAT_ENABLE) eqn:Hen; cbn [negb] in H;
    [|injection H as H _; unfold EBUSY in H; lia].
  destruct (Hb eq_refl) as (H4 & -> & ->). cbn zeta.
  split; [exact H4|]. split; [exact Hrst|]. split; [exact Hconn|].
  split; [exact Hen|]. split; [exact Hwarm|]. split.
  { intros ->. exact Hcc. }
  destruct udev as [u|]; injection H as <-.
  - split; [split; discriminate|].
    destruct hub_is_wusb; [discriminate|].
    destruct hub_is_superspeed; [discriminate|].
    destruct (tst _ USB_PORT_STAT_HIGH_SPEED); [discriminate|].
    destruct (tst _ USB_PORT_STAT_LOW_SPEED); discriminate.
  - split; [split; reflexivity | discriminate].
Qed.

Lemma hub_port_wait_reset_success_witness :
  hub_port_wait_reset reset_done_port 1 false false 25
    (Some USB_SPEED_UNKNOWN) 10 io0
  = (Some (0, Some USB_SPEED_HIGH), HubIo 3 (0x0503, 0) [10; 10; 10] []) /\
  tst (u16 (urb_wStatus (reset_done_port 1 2))) USB_PORT_STAT_ENABLE = true.
Proof.
  assert (H : hub_port_wait_reset reset_done_port 1 false false 25
                (Some USB_SPEED_UNKNOWN) 10 io0
              = (Some (0, Some USB_SPEED_HIGH),
                 HubIo 3 (0x0503, 0) [10; 10; 10] []))
    by (vm_compute; reflexivity).
  split; [exact H|].
  exact (proj1 (proj2 (proj2 (proj2
    (hub_port_wait_reset_success reset_done_port 1 false false 25
       (Some USB_SPEED_UNKNOWN) 10 io0 _ _ H))))).
Defined.

(** X6: [check_ports_changed] returns 1 exactly when one of the ports
    answers its status read with both words and a change word other than
    0, and 0 exactly when none does; it stops reading at the first such
    port and reads every port otherwise.  It never makes more than five
    transfers for a port. *)
Theorem check_ports_changed_finds_first_change
    (wire : Z -> nat -> urb_result) (maxchild : Z) (s : hub_io) :
  let out := check_ports_changed wire maxchild s in
  let n := Z.to_nat maxchild in
  let answer := answer_at wire 1 s in
  (transfers (snd out) <= transfers s + 5 * n)%nat /\
  (fst out = 1 <->
   exists k : nat, (k < n)%nat /\ reports_change (answer k) = true) /\
  (fst out = 0 <->
   forall k : nat, (k < n)%nat -> reports_change (answer k) = false) /\
  (forall k : nat,
     (k < n)%nat -> reports_change (answer k) = true ->
     (forall j : nat, (j < k)%nat -> reports_change (answer j) = false) ->
     snd out = read_ports wire (S k) 1 s) /\
  (fst out = 0 ->
   snd out = read_ports wire n 1 s /\
   (transfers s + n <= transfers (snd out))%nat) /\
  (fst out = 1 ->
   exists port1, 1 <= port1 <= maxchild /\
     let last := wire port1 (transfers (snd out) - 1)%nat in
     4 <= urb_ret last /\ u16 (urb_wChange last) <> 0).
Proof.
  cbn zeta. unfold check_ports_changed.
  destruct (check_ports_from_spec wire (Z.to_nat maxchild) 1 s)
    as [Hb Hold].
  split; [exact Hb|].
  assert (Hlast : fst (check_ports_from wire (Z.to_nat maxchild) 1 s) = 1 ->
     exists port1, 1 <= port1 <= maxchild /\
       let last := wire port1
         (transfers (snd (check_ports_from wire (Z.to_nat maxchild) 1 s)) - 1)%nat in
       4 <= urb_ret last /\ u16 (urb_wChange last) <> 0).
  { intros H1. destruct Hold as [[Hz _] | [_ (p & Hp & Hl)]]; [congruence|].
    exists p. split; [lia | exact Hl]. }
  destruct (check_ports_from_exact wire (Z.to_nat maxchild) 1 s)
    as [(k & Hk & Hc & Hbefore & Hout) | (Hnone & Hout)].
  - rewrite Hout in *. cbn [fst snd] in *.
    split; [split; [intros _; now exists k | reflexivity]|].
    split; [split; [discriminate | intros Hall; rewrite (Hall k Hk) in Hc; discriminate]|].
    split.
    + intros k' Hk' Hc' Hbefore'.
      destruct (Nat.lt_trichotomy k k') as [Hlt | [-> | Hgt]]; [| reflexivity |].
      * rewrite (Hbefore' k Hlt) in Hc. discriminate.
      * rewrite (Hbefore k' Hgt) in Hc'. discriminate.
    + split; [discriminate | exact Hlast].
  - rewrite Hout in *. cbn [fst snd] in *.
    split; [split; [discriminate | intros (k & Hk & Hc); rewrite (Hnone k Hk) in Hc; discriminate]|].
    split; [split; [intros _; exact Hnone | reflexivity]|].
    split; [intros k Hk Hc; rewrite (Hnone k Hk) in Hc; discriminate|].
    split; [|exact Hlast].
    intros _. split; [reflexivity | apply read_ports_transfers].
Qed.

(** X7: [hub_hub_status] hands on a negative result of the last transfer
    and returns 0 for every other one, also for an answer shorter than
    the two words; after a full answer the words are those of that
    answer.  The caller's words are kept on failure. *)
Theorem hub_hub_status_accepts_short_answers
    (wire : Z -> nat -> urb_result) (old : Z * Z) (s : hub_io) :
  let out := hub_hub_status wire old s in
  let last := wire 0 (transfers (snd out) - 1)%nat in
  (transfers s < transfers (snd out) <= transfers s + 5)%nat /\
  (urb_ret last < 0 -> fst out = (urb_ret last, old)) /\
  (0 <= urb_ret last -> fst (fst out) = 0) /\
  (4 <= urb_ret last ->
   snd (fst out) = (u16 (urb_wStatus last), u16 (urb_wChange last))).
Proof.
  cbn zeta. unfold hub_hub_status, bind.
  pose proof (get_hub_status_spec wire s) as Hs. cbn zeta in Hs.
  destruct (get_hub_status wire s) as [r s1]. cbn [fst snd] in Hs.
  destruct Hs as (Ht & Hr & Hb & _).
  destruct (r <? 0) eqn:Hneg; unfold ret, read_buffer; cbn [fst snd].
  - split; [exact Ht|]. split; [intros _; now rewrite Hr|]. split; intros; lia.
  - split; [exact Ht|]. split; [intros; lia|]. split; [reflexivity|].
    intros H4. now rewrite (Hb H4).
Qed.

End HubStatusSpec.

(** ** Port owners *)

Module OwnershipSpec.
Import Topology Ownership.

Lemma release_all_loop_spec owner : forall (k : nat) (n : nat) (hub : usb_hub),
  (n + k <= length hub)%nat ->
  exists hub',
    release_all_loop k (Z.of_nat n) owner hub = Val hub' /\
    length hub' = length hub /\
    forall i : nat,
      hub' !! i =
      if bool_decide (n <= i < n + k)%nat then disown owner <$> hub !! i
      else hub !! i.
Proof.
  induction k as [|k IH]; intros n hub Hlen; cbn [release_all_loop].
  { exists hub. split; [reflexivity|]. split; [reflexivity|].
    intros i. rewrite bool_decide_eq_false_2 by lia. reflexivity. }
  destruct (lookup_lt_is_Some_2 hub n ltac:(lia)) as [port Hport].
  unfold port_at. assert (H0 : (Z.of_nat n <? 0) = false) by lia.
  rewrite H0, Nat2Z.id, Hport. cbn [deref mem_bind].
  set (hub1 := if bool_decide (port_owner port = owner)
               then <[n := UsbPort (child port) None]> hub else hub).
  assert (Hlen1 : length hub1 = length hub).
  { subst hub1. destruct (bool_decide _); [apply length_insert | reflexivity]. }
  assert (Hhub1 : forall i : nat,
            hub1 !! i = if bool_decide (i = n) then Some (disown owner port)
                        else hub !! i).
  { intros i. subst hub1. unfold disown.
    destruct (bool_decide (port_owner port = owner)).
    - destruct (decide (i = n)) as [-> | Hne].
      + rewrite bool_decide_eq_true_2 by reflexivity.
        apply list_lookup_insert_eq. lia.
      + rewrite bool_decide_eq_false_2 by exact Hne.
        apply list_lookup_insert_ne. congruence.
    - destruct (decide (i = n)) as [-> | Hne].
      + rewrite bool_decide_eq_true_2 by reflexivity. exact Hport.
      + rewrite bool_decide_eq_false_2 by exact Hne. reflexivity. }
  replace (Z.of_nat n + 1) with (Z.of_nat (S n)) by lia.
  destruct (IH (S n) hub1 ltac:(lia)) as (hub' & Hrun & Hlen' & Hlook).
  exists hub'. split; [exact Hrun|]. split; [lia|].
  intros i. rewrite Hlook, Hhub1.
  destruct (decide (i = n)) as [-> | Hne].
  - rewrite bool_decide_eq_false_2 by lia.
    rewrite bool_decide_eq_true_2 by reflexivity.
    rewrite bool_decide_eq_true_2 by lia. now rewrite Hport.
  - rewrite (bool_decide_eq_false_2 (i = n)) by exact Hne.
    destruct (decide (S n <= i < S n + k)%nat) as [Hin | Hout].
    + rewrite !bool_decide_eq_true_2 by lia. reflexivity.
    + rewrite !bool_decide_eq_false_2 by lia. reflexivity.
Qed.

(** The loop over all ports is [disown] on every port. *)
Lemma usb_hub_release_all_ports_spec hdev hub owner :
  ports_ok hdev -> usb_hub_to_struct_hub hdev = Some hub ->
  usb_hub_release_all_ports hdev owner =
  Val (set_state hdev (state hdev) (active_duration hdev)
         (Some (disown owner <$> hub))).
Proof.
  intros Hok Hhub. unfold usb_hub_release_all_ports. rewrite Hhub.
  unfold ports_ok in Hok.
  rewrite (PortAccessSpec.struct_hub_intfdata hdev hub Hhub) in Hok.
  destruct (release_all_loop_spec owner (Z.to_nat (maxchild hdev)) 0 hub
              ltac:(lia)) as (hub' & Hrun & Hlen & Hlook).
  change (Z.of_nat 0) with 0 in Hrun. rewrite Hrun. cbn [mem_bind].
  do 3 f_equal. apply list_eq. intros i. rewrite Hlook, list_lookup_fmap.
  destruct (decide (i < length hub)%nat) as [Hin | Hout].
  - rewrite bool_decide_eq_true_2 by lia. reflexivity.
  - rewrite bool_decide_eq_false_2 by lia.
    rewrite (lookup_ge_None_2 hub i) by lia. reflexivity.
Qed.

(** The hub after a store through [find_port_owner]'s pointer. *)
Lemma store_owner_hub hdev hub port1 owner :
  ports_ok hdev -> usb_hub_to_struct_hub hdev = Some hub ->
  let hdev1 := store_owner hdev port1 owner in
  ports_ok hdev1 /\ maxchild hdev1 = maxchild hdev /\
  state hdev1 = state hdev /\
  usb_hub_to_struct_hub hdev1 =
  Some (alter (fun port => UsbPort (child port) owner)
          (Z.to_nat (port1 - 1)) hub).
Proof.
  intros Hok Hhub. cbn zeta.
  pose proof (PortAccessSpec.struct_hub_intfdata hdev hub Hhub) as Hi.
  unfold ports_ok in *. unfold usb_hub_to_struct_hub in *.
  unfold store_owner, set_state.
  cbn [intfdata maxchild state actconfig]. rewrite Hi in *. cbn [fmap option_fmap option_map].
  split; [now rewrite length_alter|]. split; [reflexivity|].
  split; [reflexivity|].
  destruct (actconfig hdev); [|discriminate].
  destruct (maxchild hdev =? 0); [discriminate | reflexivity].
Qed.

(** X8: on a device that has its hub structure, NOTATTACHED or not,
    [usb_hub_release_all_ports] clears the owner of every port that
    [owner] holds and of no other port, and the children stay on their
    ports.  Afterwards a release by that owner releases nothing: on a hub
    that is not NOTATTACHED it returns -ENOENT for every port from 1 to
    [maxchild], on a NOTATTACHED hub -ENODEV for every port number. *)
Theorem usb_hub_release_all_ports_clears_owner
    (hdev : usb_device) (hub : usb_hub) (o : dev_state) :
  ports_ok hdev -> maxchild hdev < 2 ^ 32 ->
  usb_hub_to_struct_hub hdev = Some hub ->
  exists hub' hdev',
    usb_hub_release_all_ports hdev (Some o) = Val hdev' /\
    hdev' = set_state hdev (state hdev) (active_duration hdev) (Some hub') /\
    child <$> hub' = child <$> hub /\
    (forall i port, hub !! i = Some port ->
       port_owner <$> hub' !! i =
       Some (if bool_decide (port_owner port = Some o) then None
             else port_owner port)) /\
    (state hdev <> USB_STATE_NOTATTACHED ->
     forall port1, 1 <= port1 <= maxchild hdev ->
       usb_hub_release_port hdev' port1 (Some o) = Val (- ENOENT, hdev')) /\
    (state hdev = USB_STATE_NOTATTACHED ->
     forall port1,
       usb_hub_release_port hdev' port1 (Some o) = Val (- ENODEV, hdev')).
Proof.
  intros Hok Hmax Hhub.
  exists (disown (Some o) <$> hub). eexists.
  split; [exact (usb_hub_release_all_ports_spec hdev hub (Some o) Hok Hhub)|].
  split; [reflexivity|].
  assert (Hown : forall i port, hub !! i = Some port ->
            port_owner <$> (disown (Some o) <$> hub) !! i =
            Some (if bool_decide (port_owner port = Some o) then None
                  else port_owner port)).
  { intros i port Hl. rewrite list_lookup_fmap, Hl. cbn. unfold disown.
    now destruct (bool_decide (port_owner port = Some o)). }
  split.
  { rewrite <- list_fmap_compose. apply list_fmap_ext. intros i port _.
    cbn. unfold disown. now destruct (bool_decide _). }
  split; [exact Hown|].
  split.
  2: { intros Hst port1. unfold usb_hub_release_port.
       rewrite (PortAccessSpec.find_port_owner_gone _ port1
                  (or_intror Hst : _ \/ state (set_state hdev (state hdev)
                     (active_duration hdev)
                     (Some (disown (Some o) <$> hub))) = USB_STATE_NOTATTACHED)).
       reflexivity. }
  intros Hst port1 Hp.
  set (hdev' := set_state hdev (state hdev) (active_duration hdev)
                  (Some (disown (Some o) <$> hub))).
  pose proof (PortAccessSpec.struct_hub_intfdata hdev hub Hhub) as Hi.
  assert (Hok' : ports_ok hdev').
  { unfold ports_ok in *. subst hdev'. cbn. rewrite Hi in Hok.
    now rewrite length_fmap. }
  assert (Hhub' : usb_hub_to_struct_hub hdev' = Some (disown (Some o) <$> hub)).
  { unfold usb_hub_to_struct_hub in *. subst hdev'. cbn.
    destruct (actconfig hdev); [|discriminate].
    destruct (maxchild hdev =? 0); [discriminate | reflexivity]. }
  destruct (PortAccessSpec.find_port_owner_hub hdev' _ port1 Hok' Hmax Hhub' Hst)
    as (_ & Hin).
  destruct (Hin Hp) as (port' & Hl' & Hfind).
  unfold usb_hub_release_port. rewrite Hfind. cbn [mem_bind].
  rewrite list_lookup_fmap in Hl'.
  destruct (hub !! Z.to_nat (port1 - 1)) as [port|]; [|discriminate].
  injection Hl' as <-. unfold disown.
  destruct (bool_decide (port_owner port = Some o)) eqn:Hb.
  - cbn [port_owner]. now rewrite bool_decide_eq_false_2 by discriminate.
  - now rewrite Hb.
Qed.

Lemma usb_hub_release_all_ports_witness :
  exists hdev',
    usb_hub_release_all_ports claimed_hub (Some 7%nat) = Val hdev' /\
    usb_hub_release_port hdev' 3 (Some 7%nat) = Val (- ENOENT, hdev').
Proof.
  destruct (usb_hub_release_all_ports_clears_owner claimed_hub
              [UsbPort None (Some 7%nat);
               UsbPort (Some leaf_device) (Some 4%nat);
               UsbPort None (Some 7%nat)] 7%nat
              eq_refl ltac:(cbn; lia) eq_refl)
    as (hub' & hdev' & Hrun & _ & _ & _ & Hrel & _).
  exists hdev'. split; [exact Hrun|].
  apply Hrel; [discriminate | cbn; lia].
Defined.

(** X9: a claim of a free port followed by the owner's release gives the
    hub back exactly as it was.  In between every further claim of the
    port is refused with -EBUSY, a release by anyone else with -ENOENT,
    and the child on the port is the one that was there. *)
Theorem claim_then_release_restores_hub
    (hdev : usb_device) (hub : usb_hub) (port1 : Z)
    (port : usb_port usb_device) (o : dev_state) :
  ports_ok hdev -> maxchild hdev < 2 ^ 32 ->
  usb_hub_to_struct_hub hdev = Some hub ->
  state hdev <> USB_STATE_NOTATTACHED ->
  1 <= port1 <= maxchild hdev ->
  hub !! Z.to_nat (port1 - 1) = Some port -> port_owner port = None ->
  exists hdev1,
    usb_hub_claim_port hdev port1 (Some o) = Val (0, hdev1) /\
    (forall o', usb_hub_claim_port hdev1 port1 o' = Val (- EBUSY, hdev1)) /\
    (forall o', o' <> Some o ->
       usb_hub_release_port hdev1 port1 o' = Val (- ENOENT, hdev1)) /\
    usb_hub_release_port hdev1 port1 (Some o) = Val (0, hdev) /\
    usb_hub_find_child hdev1 port1 = usb_hub_find_child hdev port1.
Proof.
  intros Hok Hmax Hhub Hst Hp Hl Hfree.
  destruct (PortAccessSpec.find_port_owner_hub hdev hub port1 Hok Hmax Hhub Hst)
    as (_ & Hin).
  destruct (Hin Hp) as (port0 & Hl0 & Hfind).
  rewrite Hl in Hl0. injection Hl0 as <-.
  exists (store_owner hdev port1 (Some o)).
  split.
  { unfold usb_hub_claim_port. rewrite Hfind. cbn [mem_bind]. now rewrite Hfree. }
  destruct (store_owner_hub hdev hub port1 (Some o) Hok Hhub)
    as (Hok1 & Hmax1 & Hst1 & Hhub1).
  set (hdev1 := store_owner hdev port1 (Some o)) in *.
  destruct (PortAccessSpec.find_port_owner_hub hdev1 _ port1 Hok1
              ltac:(lia) Hhub1 ltac:(congruence)) as (_ & Hin1).
  destruct (Hin1 ltac:(lia)) as (port1' & Hl1 & Hfind1).
  rewrite list_lookup_alter_eq, Hl in Hl1. cbn in Hl1. injection Hl1 as <-.
  split.
  { intros o'. unfold usb_hub_claim_port. rewrite Hfind1. reflexivity. }
  split.
  { intros o' Hne. unfold usb_hub_release_port. rewrite Hfind1. cbn [mem_bind port_owner].
    rewrite bool_decide_eq_false_2 by congruence. reflexivity. }
  split.
  { unfold usb_hub_release_port. rewrite Hfind1. cbn [mem_bind port_owner].
    rewrite bool_decide_eq_true_2 by reflexivity. do 2 f_equal.
    pose proof (PortAccessSpec.struct_hub_intfdata hdev hub Hhub) as Hi.
    subst hdev1. unfold store_owner, set_state. cbn.
    rewrite Hi. cbn.
    destruct hdev as [st dn hp mc ac ad idata]. cbn in *. subst idata.
    do 2 f_equal. apply list_eq. intros i.
    destruct (decide (i = Z.to_nat (port1 - 1))) as [-> | Hne].
    - rewrite !list_lookup_alter_eq, Hl. cbn. f_equal.
      destruct port as [c ow]. cbn in *. now subst ow.
    - rewrite !list_lookup_alter_ne by congruence. reflexivity. }
  unfold usb_hub_find_child. rewrite Hhub1, Hhub. subst hdev1.
  rewrite Hmax1.
  destruct ((port1 <? 1) || (port1 >? maxchild hdev)); [reflexivity|].
  unfold port_at. destruct (port1 - 1 <? 0); [reflexivity|].
  rewrite list_lookup_alter_eq, Hl. reflexivity.
Qed.

Lemma claim_then_release_witness :
  exists hdev1,
    usb_hub_claim_port two_port_hub 1 (Some 9%nat) = Val (0, hdev1) /\
    usb_hub_release_port hdev1 1 (Some 9%nat) = Val (0, two_port_hub).
Proof.
  destruct (claim_then_release_restores_hub two_port_hub
              [UsbPort None None;
               UsbPort (Some (UsbDevice USB_STATE_CONFIGURED 2 true 0
                                (Some 0x80) 0 None)) (Some 7%nat)]
              1 (UsbPort None None) 9%nat
              eq_refl ltac:(cbn; lia) eq_refl ltac:(discriminate)
              ltac:(cbn; lia) eq_refl eq_refl)
    as (hdev1 & Hclaim & _ & _ & Hrel & _).
  exists hdev1. split; [exact Hclaim | exact Hrel].
Defined.

(** X10: [usb_device_is_owned] follows the owner of the parent's port: a
    device on a free port is not owned, it is owned once the port is
    claimed, and a device that is NOTATTACHED is never owned. *)
Theorem usb_device_is_owned_follows_claim
    (udev hdev : usb_device) (hub : usb_hub) (port1 : Z)
    (port : usb_port usb_device) (o : dev_state) :
  ports_ok hdev -> maxchild hdev < 2 ^ 32 ->
  usb_hub_to_struct_hub hdev = Some hub ->
  state hdev <> USB_STATE_NOTATTACHED ->
  1 <= port1 <= maxchild hdev ->
  hub !! Z.to_nat (port1 - 1) = Some port -> port_owner port = None ->
  exists hdev1,
    usb_hub_claim_port hdev port1 (Some o) = Val (0, hdev1) /\
    (state udev <> USB_STATE_NOTATTACHED ->
     usb_device_is_owned udev (Some hdev) port1 = Val false /\
     usb_device_is_owned udev (Some hdev1) port1 = Val true) /\
    (state udev = USB_STATE_NOTATTACHED ->
     usb_device_is_owned udev (Some hdev1) port1 = Val false).
Proof.
  intros Hok Hmax Hhub Hst Hp Hl Hfree.
  destruct (PortAccessSpec.find_port_owner_hub hdev hub port1 Hok Hmax Hhub Hst)
    as (_ & Hin).
  destruct (Hin Hp) as (port0 & Hl0 & Hfind).
  rewrite Hl in Hl0. injection Hl0 as <-.
  exists (store_owner hdev port1 (Some o)).
  split.
  { unfold usb_hub_claim_port. rewrite Hfind. cbn [mem_bind]. now rewrite Hfree. }
  destruct (store_owner_hub hdev hub port1 (Some o) Hok Hhub)
    as (_ & _ & _ & Hhub1).
  assert (H0 : (port1 - 1 <? 0) = false) by lia.
  split.
  - intros Hu. unfold usb_device_is_owned.
    rewrite bool_decide_eq_false_2 by exact Hu.
    rewrite Hhub, Hhub1. unfold port_at. rewrite H0.
    rewrite list_lookup_alter_eq, Hl. cbn [deref mem_bind fmap option_fmap option_map port_owner].
    rewrite Hfree. split; reflexivity.
  - intros Hu. unfold usb_device_is_owned.
    now rewrite bool_decide_eq_true_2 by exact Hu.
Qed.

Lemma usb_device_is_owned_witness :
  exists hdev1,
    usb_hub_claim_port two_port_hub 1 (Some 9%nat) = Val (0, hdev1) /\
    usb_device_is_owned leaf_device (Some hdev1) 1 = Val true.
Proof.
  destruct (usb_device_is_owned_follows_claim leaf_device two_port_hub
              [UsbPort None None;
               UsbPort (Some (UsbDevice USB_STATE_CONFIGURED 2 true 0
                                (Some 0x80) 0 None)) (Some 7%nat)]
              1 (UsbPort None None) 9%nat
              eq_refl ltac:(cbn; lia) eq_refl ltac:(discriminate)
              ltac:(cbn; lia) eq_refl eq_refl)
    as (hdev1 & Hclaim & Hown & _).
  exists hdev1. split; [exact Hclaim|].
  exact (proj2 (Hown ltac:(discriminate))).
Defined.

(** X11: a suspend followed by a change to any state other than
    SUSPENDED and NOTATTACHED touches the state and the active duration
    only: the duration moves back by the time spent suspended (modulo the
    word size), and neither call reports a wakeup capability. *)
Theorem suspend_resume_moves_active_duration
    (j1 j2 : Z) (udev : usb_device) (st2 : usb_device_state) :
  state udev <> USB_STATE_NOTATTACHED -> state udev <> USB_STATE_SUSPENDED ->
  st2 <> USB_STATE_NOTATTACHED -> st2 <> USB_STATE_SUSPENDED ->
  exists udev1,
    usb_set_device_state j1 udev USB_STATE_SUSPENDED = Val (udev1, -1) /\
    usb_set_device_state j2 udev1 st2 =
    Val (set_state udev st2 (ulong (active_duration udev + j1 - j2))
           (intfdata udev), -1).
Proof.
  intros Hn Hs Hn2 Hs2.
  exists (set_state udev USB_STATE_SUSPENDED
            (ulong (active_duration udev + j1)) (intfdata udev)).
  split.
  - unfold usb_set_device_state.
    rewrite (bool_decide_eq_false_2 (state udev = USB_STATE_NOTATTACHED)) by exact Hn.
    rewrite (bool_decide_eq_false_2 (state udev = USB_STATE_SUSPENDED)) by exact Hs.
    cbn. destruct (has_parent udev); reflexivity.
  - unfold usb_set_device_state, set_state.
    cbn [state has_parent active_duration intfdata devnum maxchild actconfig].
    rewrite (bool_decide_eq_false_2 (USB_STATE_SUSPENDED = USB_STATE_NOTATTACHED))
      by discriminate.
    rewrite (bool_decide_eq_false_2 (st2 = USB_STATE_NOTATTACHED)) by exact Hn2.
    rewrite (bool_decide_eq_false_2 (st2 = USB_STATE_SUSPENDED)) by exact Hs2.
    rewrite (bool_decide_eq_true_2 (USB_STATE_SUSPENDED = USB_STATE_SUSPENDED))
      by reflexivity.
    cbn [negb orb andb].
    assert (Hd : ulong (ulong (active_duration udev + j1) - j2)
                 = ulong (active_duration udev + j1 - j2)).
    { unfold ulong. now rewrite Zminus_mod_idemp_l. }
    destruct (has_parent udev); cbn [mem_bind]; now rewrite Hd.
Qed.

Lemma suspend_resume_witness :
  exists udev1,
    usb_set_device_state 40 leaf_device USB_STATE_SUSPENDED = Val (udev1, -1) /\
    usb_set_device_state 40 udev1 USB_STATE_CONFIGURED = Val (leaf_device, -1).
Proof.
  destruct (suspend_resume_moves_active_duration 40 40 leaf_device
              USB_STATE_CONFIGURED ltac:(discriminate) ltac:(discriminate)
              ltac:(discriminate) ltac:(discriminate))
    as (udev1 & H1 & H2).
  exists udev1. split; [exact H1 | exact H2].
Defined.

End OwnershipSpec.

(** ** Device numbers: handing out and taking back *)

Module DevnumRoundTrip.
Import Devnum.

Lemma clearbit_setbit map d :
  0 <= d -> Z.testbit map d = false -> Z.clearbit (Z.setbit map d) d = map.
Proof.
  intros Hd Hfree. apply Z.bits_inj'. intros n Hn.
  rewrite Z.clearbit_eqb by lia.
  destruct (Z.eqb_spec d n) as [<- | Hne]; cbn [negb andb].
  - rewrite andb_false_r. now symmetry.
  - rewrite andb_true_r. rewrite Z.setbit_neq by lia. reflexivity.
Qed.

(** X12: while a number is free, [choose_devnum] followed by
    [release_devnum] leaves the map of used numbers as it was; only the
    round-robin position has moved on.  The device ends with number -1,
    and releasing it once more changes nothing. *)
Theorem choose_then_release_restores_map (b : usb_bus) (udev : usb_device) :
  wusb udev = false ->
  1 <= devnum_next b <= 127 ->
  (exists j, 1 <= j <= 127 /\ Z.testbit (devicemap b) j = false) ->
  exists b1 udev1 b2 udev2,
    choose_devnum b udev = Val (b1, udev1) /\
    1 <= devnum udev1 <= 127 /\
    release_devnum b1 udev1 = Val (b2, udev2) /\
    devicemap b2 = devicemap b /\
    devnum_next b2 = devnum_next b1 /\
    devnum udev2 = -1 /\
    release_devnum b2 udev2 = Val (b2, udev2).
Proof.
  intros Hw Hnext (j & Hj & Hfree).
  destruct (DevnumSpec.choose_devnum_scan b udev Hw ltac:(lia))
    as [(d & Hrr & Hd & Hrun) | (Hfull & _)].
  2:{ rewrite Hfull in Hfree by lia. discriminate Hfree. }
  assert (Hdfree : Z.testbit (devicemap b) d = false).
  { destruct Hrr as [(_ & H & _) | (_ & _ & H & _)]; exact H. }
  do 4 eexists. split; [exact Hrun|]. cbn [devnum].
  split; [exact Hd|].
  unfold release_devnum. cbn [devnum devicemap devnum_next wusb portnum].
  assert (Hpos : (d >? 0) = true) by lia. rewrite Hpos.
  unfold clear_bit, in_map, MAP_BITS.
  assert (Hin : (0 <=? d) && (d <? 128) = true) by lia. rewrite Hin.
  cbn [mem_bind]. split; [reflexivity|]. cbn [devicemap devnum_next devnum].
  split; [apply clearbit_setbit; [lia | exact Hdfree]|].
  split; [reflexivity|]. split; reflexivity.
Qed.

Lemma choose_then_release_witness :
  exists b1 udev1 b2 udev2,
    choose_devnum (UsbBus 0x5e 5) (usb_alloc_dev false 2) = Val (b1, udev1) /\
    release_devnum b1 udev1 = Val (b2, udev2) /\
    devicemap b2 = 0x5e.
Proof.
  assert (Hfree : exists j, 1 <= j <= 127 /\
                    Z.testbit (devicemap (UsbBus 0x5e 5)) j = false)
    by (exists 5; split; [lia | reflexivity]).
  destruct (choose_then_release_restores_map (UsbBus 0x5e 5)
              (usb_alloc_dev false 2) eq_refl ltac:(cbn; lia) Hfree)
    as (b1 & udev1 & b2 & udev2 & H1 & _ & H2 & H3 & _).
  exists b1, udev1, b2, udev2. split; [exact H1|]. split; [exact H2 | exact H3].
Defined.

End DevnumRoundTrip.

(** ** Exit latencies along the path to the root *)

Module LpmPathSpec.
Import Lpm.

Lemma usb_set_lpm_mel_exact up udel declat hp hdel :
  0 <= udel < 65536 -> 0 <= hdel < 65536 -> 0 <= declat < 256 ->
  0 <= mel hp < 2 ^ 31 ->
  usb_set_lpm_mel up udel declat hp hdel =
  LpmParams (mel hp + declat * 100 + Z.max udel hdel * 1000) (pel up) (sel up).
Proof.
  intros Hu Hh Hd Hm. unfold usb_set_lpm_mel.
  rewrite (LpmSpec.u32_small (declat * 100)) by lia.
  rewrite (LpmSpec.u32_small (mel hp + declat * 100)) by lia.
  rewrite (LpmSpec.u32_small (udel * 1000)) by lia.
  rewrite (LpmSpec.u32_small (hdel * 1000)) by lia.
  destruct (udel * 1000 >? hdel * 1000) eqn:Hc;
    rewrite LpmSpec.u32_small by lia; f_equal; lia.
Qed.

Lemma usb_set_lpm_pel_exact up udel hp hdel p2p :
  0 <= udel < 65536 -> 0 <= hdel < 65536 -> 0 <= p2p <= 65536 ->
  0 <= pel hp < 2 ^ 31 ->
  usb_set_lpm_pel up udel hp hdel p2p =
  LpmParams (mel up)
    (Z.max (Z.max udel hdel * 1000) (p2p * 1000 + pel hp)) (sel up).
Proof.
  intros Hu Hh Hp Hm. unfold usb_set_lpm_pel.
  rewrite (LpmSpec.u32_small (udel * 1000)) by lia.
  rewrite (LpmSpec.u32_small (hdel * 1000)) by lia.
  rewrite (LpmSpec.u32_small (p2p * 1000)) by lia.
  rewrite (LpmSpec.u32_small (p2p * 1000 + pel hp)) by lia.
  destruct (udel >? hdel) eqn:Hc;
    match goal with |- context [?a >? ?b] => destruct (a >? b) eqn:Hc2 end;
    f_equal; lia.
Qed.

(** X13: where no 32-bit sum overflows, [usb_set_lpm_parameters] gives a
    device latencies that are never below those of its parent hub: the
    MEL is the hub's plus the header decode latency plus the larger of
    the two exit latencies, the PEL is at least the hub's plus one
    microsecond of port-to-port delay, and the SEL is at least the PEL. *)
Theorem lpm_latencies_grow_away_from_root
    (udev hdev : usb_device) (declat : Z) (ucap hcap : usb_ss_cap_descriptor) :
  lpm_capable udev = true -> speed udev = USB_SPEED_SUPER ->
  parent udev = Some hdev -> bHubHdrDecLat hdev = Some declat ->
  ss_cap udev = Some ucap -> ss_cap hdev = Some hcap ->
  0 <= declat < 256 ->
  0 <= bU1devExitLat ucap < 256 -> 0 <= bU2DevExitLat ucap < 65536 ->
  0 <= bU1devExitLat hcap < 256 -> 0 <= bU2DevExitLat hcap < 65536 ->
  0 <= mel (u1_params hdev) < 2 ^ 31 -> 0 <= pel (u1_params hdev) < 2 ^ 31 ->
  0 <= mel (u2_params hdev) < 2 ^ 31 -> 0 <= pel (u2_params hdev) < 2 ^ 31 ->
  external_hubs udev <= 1000 ->
  exists udev',
    usb_set_lpm_parameters udev = Val udev' /\
    mel (u1_params udev') =
      mel (u1_params hdev) + declat * 100
      + Z.max (bU1devExitLat ucap) (bU1devExitLat hcap) * 1000 /\
    mel (u2_params udev') =
      mel (u2_params hdev) + declat * 100
      + Z.max (bU2DevExitLat ucap) (bU2DevExitLat hcap) * 1000 /\
    pel (u1_params hdev) + 1000 <= pel (u1_params udev') /\
    pel (u2_params hdev) + 1000 <= pel (u2_params udev') /\
    pel (u1_params udev') <= sel (u1_params udev') /\
    pel (u2_params udev') <= sel (u2_params udev').
Proof.
  intros Hcap Hsp Hpar Hdec Hucap Hhcap Hd Hu1 Hu2 Hh1 Hh2 Hm1 Hp1 Hm2 Hp2 Hn.
  assert (Hn0 : 0 <= external_hubs udev).
  { unfold external_hubs. rewrite Hpar. lia. }
  unfold usb_set_lpm_parameters.
  rewrite Hcap, Hsp, Hpar, Hdec, Hucap, Hhcap.
  rewrite bool_decide_eq_true_2 by reflexivity.
  cbn [negb orb deref mem_bind].
  rewrite !usb_set_lpm_mel_exact by lia.
  set (p2p := if bU2DevExitLat hcap >? bU1devExitLat hcap
              then u32 (1 + bU2DevExitLat hcap - bU1devExitLat hcap)
              else u32 (1 + bU1devExitLat hcap)).
  assert (Hp2p : 1 <= p2p <= 65536).
  { subst p2p. destruct (bU2DevExitLat hcap >? bU1devExitLat hcap) eqn:Hc;
      rewrite LpmSpec.u32_small by lia; lia. }
  rewrite !usb_set_lpm_pel_exact by (cbn [mel pel sel]; lia).
  cbn [mel pel sel].
  rewrite !(LpmSpec.usb_set_lpm_sel_spec udev _ hdev Hpar) by lia.
  cbn [mem_bind mel pel sel]. eexists. split; [reflexivity|].
  unfold with_params. cbn [u1_params u2_params mel pel sel].
  split; [reflexivity|]. split; [reflexivity|].
  split; [lia|]. split; [lia|].
  destruct (external_hubs udev >? 0) eqn:Hc;
    rewrite !LpmSpec.u32_small by lia; lia.
Qed.

Lemma lpm_latencies_witness :
  exists udev',
    usb_set_lpm_parameters disk = Val udev' /\
    pel (u1_params hub2) + 1000 <= pel (u1_params udev') /\
    pel (u1_params udev') <= sel (u1_params udev').
Proof.
  destruct (lpm_latencies_grow_away_from_root disk hub2 4 (SsCap 10 50)
              (SsCap 10 50) eq_refl eq_refl eq_refl eq_refl eq_refl eq_refl
              ltac:(lia) ltac:(cbn; lia) ltac:(cbn; lia) ltac:(cbn; lia)
              ltac:(cbn; lia) ltac:(cbn; lia) ltac:(cbn; lia) ltac:(cbn; lia)
              ltac:(cbn; lia) ltac:(cbn; lia))
    as (udev' & Hrun & _ & _ & H1 & _ & H2 & _).
  exists udev'. split; [exact Hrun|]. split; [exact H1 | exact H2].
Defined.

End LpmPathSpec.

(** ** Interrupt completion *)

Module HubIrqSpec.
Import EventQueue HubIrq.

Lemma is_error_tests u :
  is_error u ->
  (urb_status u =? - ENOENT) || (urb_status u =? - ECONNRESET)
  || (urb_status u =? - ESHUTDOWN) = false /\
  (urb_status u =? 0) = false.
Proof. intros (H0 & H1 & H2 & H3). split; lia. Qed.

(** An error short of the tenth is counted and nothing else. *)
Lemma hub_irq_error_counted h u hub st :
  is_error u -> error hub = 0 -> 0 <= nerrors hub < 9 ->
  hub_irq h u hub st =
  Val (IrqHub (nerrors hub + 1) 0 (event_bits hub) (quiescing hub), st,
       negb (quiescing hub)).
Proof.
  intros He Herr Hn. destruct (is_error_tests u He) as [Hu H0].
  unfold hub_irq. cbn zeta. rewrite Hu, H0.
  cbn [nerrors error event_bits quiescing].
  rewrite HubStatusSpec.s32_small by lia.
  assert (Hlt : (nerrors hub + 1 <? 10) = true) by lia. rewrite Hlt.
  cbn [orb mem_bind quiescing]. now rewrite Herr.
Qed.

Lemma hub_irq_all_errors_counted h st : forall urbs hub,
  Forall is_error urbs -> error hub = 0 -> 0 <= nerrors hub ->
  nerrors hub + Z.of_nat (length urbs) < 10 ->
  hub_irq_all h urbs hub st =
  Val (IrqHub (nerrors hub + Z.of_nat (length urbs)) 0 (event_bits hub)
         (quiescing hub), st).
Proof.
  induction urbs as [|u urbs IH]; intros hub Hall Herr Hn Hlen.
  - cbn. rewrite Z.add_0_r. destruct hub. cbn in *. now subst.
  - apply Forall_cons in Hall. destruct Hall as [Hu Hall].
    cbn [length] in Hlen. cbn [hub_irq_all].
    rewrite hub_irq_error_counted by (try assumption; lia).
    cbn [mem_bind fst snd]. rewrite IH by (cbn; try assumption; lia).
    cbn [nerrors event_bits quiescing length]. do 3 f_equal. lia.
Qed.

Lemma hub_irq_all_app h : forall l1 l2 hub st,
  hub_irq_all h (l1 ++ l2) hub st =
  (r <~ hub_irq_all h l1 hub st ;; hub_irq_all h l2 (fst r) (snd r))%mem.
Proof.
  induction l1 as [|u l1 IH]; intros l2 hub st; cbn [app hub_irq_all].
  - reflexivity.
  - destruct (hub_irq h u hub st) as [[[hub1 st1] sub]|]; cbn [mem_bind fst snd];
      [apply IH | reflexivity].
Qed.

(** The loop reads the bytes that arrived when the buffer holds them. *)
Lemma collect_bits_total buf : forall (n i : nat) bits,
  (i + n <= length buf)%nat ->
  exists bits', collect_bits n (Z.of_nat i) buf bits = Val bits'.
Proof.
  induction n as [|n IH]; intros i bits Hlen; cbn [collect_bits].
  - now exists bits.
  - rewrite Nat2Z.id.
    destruct (lookup_lt_is_Some_2 buf i ltac:(lia)) as [b Hb].
    rewrite Hb. cbn [deref mem_bind].
    replace (Z.of_nat i + 1) with (Z.of_nat (S i)) by lia.
    apply IH. lia.
Qed.

(** Byte [i] of the buffer lands on bits [8 i] to [8 i + 7]. *)
Lemma byte_bits b i m :
  0 <= b < 256 -> 0 <= i <= 7 -> 0 <= m ->
  Z.testbit (Topology.ulong (Z.shiftl b (i * 8))) m =
  (8 * i <=? m) && (m <? 8 * i + 8) && Z.testbit b (m - 8 * i).
Proof.
  intros Hb Hi Hm. unfold Topology.ulong.
  destruct (Z.ltb_spec m (8 * i + 8)) as [Hlt | Hge].
  - rewrite Z.mod_pow2_bits_low by lia.
    rewrite Z.shiftl_spec by lia.
    destruct (Z.leb_spec (8 * i) m) as [Hle | Hgt]; cbn [andb].
    + f_equal. lia.
    + apply Z.testbit_neg_r. lia.
  - rewrite andb_false_r. cbn [andb].
    destruct (Z.ltb_spec m 64) as [H64 | H64].
    + rewrite Z.mod_pow2_bits_low by lia.
      rewrite Z.shiftl_spec by lia.
      destruct (Z.eq_dec b 0) as [-> | Hnz]; [apply Z.testbit_0_l|].
      apply Z.bits_above_log2; [lia|].
      assert (Z.log2 b < 8); [|lia].
      apply Z.log2_lt_pow2; [lia|]. change (2 ^ 8) with 256. lia.
    + apply Z.mod_pow2_bits_high. lia.
Qed.

Lemma collect_bits_spec buf :
  Forall (fun b => 0 <= b < 256) buf ->
  forall (n i : nat) bits,
  (i + n <= length buf)%nat -> (i + n <= 8)%nat ->
  exists bits',
    collect_bits n (Z.of_nat i) buf bits = Val bits' /\
    forall m, 0 <= m ->
      Z.testbit bits' m =
      Z.testbit bits m ||
      ((8 * Z.of_nat i <=? m) && (m <? 8 * Z.of_nat (i + n)) &&
       Z.testbit (nth (Z.to_nat (m / 8)) buf 0) (m mod 8)).
Proof.
  intros Hbytes. induction n as [|n IH]; intros i bits Hlen H8;
    cbn [collect_bits].
  - exists bits. split; [reflexivity|]. intros m Hm.
    rewrite Nat.add_0_r.
    assert (Hc : (8 * Z.of_nat i <=? m) && (m <? 8 * Z.of_nat i) = false) by lia.
    rewrite Hc. cbn [andb]. now rewrite orb_false_r.
  - rewrite Nat2Z.id.
    destruct (lookup_lt_is_Some_2 buf i ltac:(lia)) as [b Hb].
    rewrite Hb. cbn [deref mem_bind].
    assert (Hbr : 0 <= b < 256).
    { rewrite Forall_lookup in Hbytes. exact (Hbytes i b Hb). }
    replace (Z.of_nat i + 1) with (Z.of_nat (S i)) by lia.
    destruct (IH (S i) (Z.lor bits (Topology.ulong (Z.shiftl b (Z.of_nat i * 8))))
                ltac:(lia) ltac:(lia)) as (bits' & Hrun & Hbits).
    exists bits'. split; [exact Hrun|]. intros m Hm.
    rewrite (Hbits m Hm), Z.lor_spec, byte_bits by lia.
    replace (Z.of_nat (S i + n)) with (Z.of_nat i + 1 + Z.of_nat n) by lia.
    replace (Z.of_nat (i + S n)) with (Z.of_nat i + 1 + Z.of_nat n) by lia.
    replace (Z.of_nat (S i)) with (Z.of_nat i + 1) by lia.
    destruct (Z.leb_spec (8 * Z.of_nat i) m) as [Hle | Hgt].
    2:{ assert (Hc : (8 * (Z.of_nat i + 1) <=? m) = false) by lia.
        rewrite Hc. cbn [andb]. now rewrite !orb_false_r. }
    destruct (Z.ltb_spec m (8 * Z.of_nat i + 8)) as [Hlt | Hge]; cbn [andb].
    + assert (Hc : (8 * (Z.of_nat i + 1) <=? m) = false) by lia.
      rewrite Hc. cbn [andb]. rewrite orb_false_r.
      assert (Hc2 : (m <? 8 * (Z.of_nat i + 1 + Z.of_nat n)) = true) by lia.
      rewrite Hc2. cbn [andb].
      assert (Hdiv : m / 8 = Z.of_nat i) by (Z.div_mod_to_equations; lia).
      assert (Hmod : m mod 8 = m - 8 * Z.of_nat i)
        by (Z.div_mod_to_equations; lia).
      rewrite Hdiv, Hmod, Nat2Z.id.
      rewrite (nth_lookup_Some buf i 0 b Hb). reflexivity.
    + rewrite orb_false_r.
      assert (Hc : (8 * (Z.of_nat i + 1) <=? m) = true) by lia.
      rewrite Hc. reflexivity.
Qed.

(** X14: the ten-error rule.  Up to nine transfer errors in a row are
    only counted: the hub is not queued and no error is recorded.  The
    tenth records its status as the hub's error, clears the count and
    queues the hub; from then on errors are counted again without
    queueing. *)
Theorem hub_irq_latches_tenth_error
    (h : nat) (st : khubd) (urbs : list urb) (u : urb) (hub : irq_hub) :
  Forall is_error urbs -> length urbs = 9%nat -> is_error u ->
  0 <= actual_length u <= Z.of_nat (length (urb_buffer u)) ->
  nerrors hub = 0 -> error hub = 0 ->
  (forall k : nat, (k <= 9)%nat ->
     hub_irq_all h (take k urbs) hub st =
     Val (IrqHub (Z.of_nat k) 0 (event_bits hub) (quiescing hub), st)) /\
  exists bits,
    hub_irq_all h (urbs ++ [u]) hub st =
    Val (IrqHub 0 (urb_status u) bits (quiescing hub), kick_khubd h st) /\
    forall u', is_error u' ->
      hub_irq h u' (IrqHub 0 (urb_status u) bits (quiescing hub))
        (kick_khubd h st) =
      Val (IrqHub 1 (urb_status u) bits (quiescing hub), kick_khubd h st,
           negb (quiescing hub)).
Proof.
  intros Hall Hlen Hu Hbuf Hn Herr.
  assert (Hcount : forall k : nat, (k <= 9)%nat ->
     hub_irq_all h (take k urbs) hub st =
     Val (IrqHub (Z.of_nat k) 0 (event_bits hub) (quiescing hub), st)).
  { intros k Hk.
    rewrite hub_irq_all_errors_counted;
      try assumption; rewrite ?length_take; try lia.
    - do 3 f_equal. lia.
    - now apply Forall_take. }
  split; [exact Hcount|].
  destruct (collect_bits_total (urb_buffer u) (Z.to_nat (actual_length u)) 0 0
              ltac:(lia)) as (bits & Hbits).
  exists bits. split.
  - rewrite hub_irq_all_app.
    specialize (Hcount 9%nat ltac:(lia)).
    rewrite firstn_all2 in Hcount by lia. rewrite Hcount.
    cbn [mem_bind fst snd hub_irq_all].
    destruct (is_error_tests u Hu) as [Hunl H0].
    unfold hub_irq. cbn zeta. rewrite Hunl, H0.
    cbn [nerrors error event_bits quiescing].
    change (s32 (Z.of_nat 9 + 1)) with 10.
    change (10 <? 10) with false. change (0 =? 0) with true.
    cbn [negb orb]. change (Z.of_nat 0) with 0 in Hbits. rewrite Hbits.
    reflexivity.
  - intros u' Hu'. destruct (is_error_tests u' Hu') as [Hunl H0].
    unfold hub_irq. cbn zeta. rewrite Hunl, H0.
    cbn [nerrors error event_bits quiescing].
    change (s32 (0 + 1)) with 1. change (1 <? 10) with true.
    reflexivity.
Qed.

Lemma hub_irq_tenth_error_witness :
  exists bits,
    hub_irq_all 0%nat (nine_errors ++ [tenth_error]) fresh_hub
      (hub_probe 0%nat khubd0) =
    Val (IrqHub 0 (- ETIMEDOUT) bits false,
         kick_khubd 0%nat (hub_probe 0%nat khubd0)).
Proof.
  assert (He : forall s, s = - EPIPE \/ s = - ETIMEDOUT ->
                 is_error (MkUrb s 0 [])).
  { intros s [-> | ->]; repeat split; cbn; discriminate. }
  destruct (hub_irq_latches_tenth_error 0%nat (hub_probe 0%nat khubd0)
              nine_errors tenth_error fresh_hub
              ltac:(repeat constructor; apply He; now left) eq_refl
              (He _ (or_intror eq_refl)) ltac:(cbn; lia) eq_refl eq_refl)
    as (_ & bits & Hrun & _).
  exists bits. exact Hrun.
Defined.

(** X15: a completed transfer puts the bytes that arrived into the event
    bits in little-endian order: bit [p] of the event bits is bit
    [p mod 8] of byte [p / 8], and 0 beyond the bytes that arrived.  The
    error count is cleared, the recorded error is kept, and the hub is
    queued. *)
Theorem hub_irq_event_bits_little_endian
    (h : nat) (u : urb) (hub : irq_hub) (st : khubd) :
  urb_status u = 0 ->
  0 <= actual_length u <= 8 ->
  actual_length u <= Z.of_nat (length (urb_buffer u)) ->
  Forall (fun b => 0 <= b < 256) (urb_buffer u) ->
  exists bits,
    hub_irq h u hub st =
    Val (IrqHub 0 (error hub) bits (quiescing hub), kick_khubd h st,
         negb (quiescing hub)) /\
    forall p, 0 <= p ->
      Z.testbit bits p =
      (p <? 8 * actual_length u) &&
      Z.testbit (nth (Z.to_nat (p / 8)) (urb_buffer u) 0) (p mod 8).
Proof.
  intros H0 Hlen Hbuf Hbytes.
  destruct (collect_bits_spec (urb_buffer u) Hbytes
              (Z.to_nat (actual_length u)) 0 0 ltac:(lia) ltac:(lia))
    as (bits & Hrun & Hbits).
  exists bits. split.
  - unfold hub_irq. cbn zeta. rewrite H0.
    change (0 =? - ENOENT) with false. change (0 =? - ECONNRESET) with false.
    change (0 =? - ESHUTDOWN) with false. change (0 =? 0) with true.
    cbn [orb]. change (Z.of_nat 0) with 0 in Hrun. rewrite Hrun. reflexivity.
  - intros p Hp. rewrite (Hbits p Hp), Z.testbit_0_l. cbn [orb].
    change (Z.of_nat 0) with 0. change (8 * 0) with 0.
    assert (Hc : (0 <=? p) = true) by lia. rewrite Hc.
    cbn [andb]. do 2 f_equal. rewrite Nat.add_0_l, Z2Nat.id by lia. reflexivity.
Qed.

Lemma hub_irq_event_bits_witness :
  exists bits,
    hub_irq 0%nat two_bytes fresh_hub (hub_probe 0%nat khubd0) =
    Val (IrqHub 0 0 bits false, kick_khubd 0%nat (hub_probe 0%nat khubd0),
         true) /\
    Z.testbit bits 9 = true.
Proof.
  destruct (hub_irq_event_bits_little_endian 0%nat two_bytes fresh_hub
              (hub_probe 0%nat khubd0) eq_refl ltac:(cbn; lia)
              ltac:(cbn; lia)
              ltac:(repeat constructor; cbn; lia))
    as (bits & Hrun & Hbits).
  exists bits. split; [exact Hrun|].
  rewrite (Hbits 9 ltac:(lia)). reflexivity.
Defined.

(** X16: [hub_irq] leaves the queue alone or kicks the hub, never
    anything else, and never touches the quiescing flag.  For the status
    of an unlinked URB it changes nothing and does not submit the URB
    again; for every other status it submits the URB again unless the
    hub is quiescing. *)
Theorem hub_irq_resubmits_unless_unlinked
    (h : nat) (u : urb) (hub hub' : irq_hub) (st st' : khubd) (sub : bool) :
  hub_irq h u hub st = Val (hub', st', sub) ->
  quiescing hub' = quiescing hub /\
  (st' = st \/ st' = kick_khubd h st) /\
  (urb_status u = - ENOENT \/ urb_status u = - ECONNRESET \/
   urb_status u = - ESHUTDOWN ->
   hub' = hub /\ st' = st /\ sub = false) /\
  (urb_status u <> - ENOENT -> urb_status u <> - ECONNRESET ->
   urb_status u <> - ESHUTDOWN -> sub = negb (quiescing hub)).
Proof.
  unfold hub_irq. cbn zeta.
  destruct ((urb_status u =? - ENOENT) || (urb_status u =? - ECONNRESET)
            || (urb_status u =? - ESHUTDOWN)) eqn:Hunl.
  { intros H. injection H as <- <- <-.
    split; [reflexivity|]. split; [now left|]. split; [auto|].
    intros. lia. }
  assert (Hnot : ~ (urb_status u = - ENOENT \/ urb_status u = - ECONNRESET \/
                    urb_status u = - ESHUTDOWN)) by lia.
  assert (Hdata : forall e q r,
    ((bits <~ collect_bits (Z.to_nat (actual_length u)) 0 (urb_buffer u) 0 ;;
      Val (IrqHub 0 e bits q, kick_khubd h st))%mem = Val r) ->
    quiescing (fst r) = q /\ snd r = kick_khubd h st).
  { intros e q r.
    destruct (collect_bits _ _ _ _) as [bits|]; cbn [mem_bind]; [|discriminate].
    intros H. injection H as <-. split; reflexivity. }
  destruct (urb_status u =? 0).
  - match goal with
      | |- mem_bind ?m _ = _ -> _ => destruct m as [[hub1 st1]|] eqn:Hr
      end; cbn [mem_bind]; [|discriminate].
    intros H. injection H as <- <- <-.
    destruct (Hdata _ _ (hub1, st1) Hr) as [Hq Hst]. cbn [fst snd] in *.
    split; [exact Hq|]. split; [now right|]. split; [tauto|].
    intros. now rewrite Hq.
  - cbn [nerrors error event_bits quiescing].
    destruct ((s32 (nerrors hub + 1) <? 10) || negb (error hub =? 0)).
    + cbn [mem_bind]. intros H. injection H as <- <- <-.
      cbn [quiescing]. split; [reflexivity|]. split; [now left|].
      split; [tauto | reflexivity].
    + match goal with
      | |- mem_bind ?m _ = _ -> _ => destruct m as [[hub1 st1]|] eqn:Hr
      end; cbn [mem_bind]; [|discriminate].
      intros H. injection H as <- <- <-.
      destruct (Hdata _ _ (hub1, st1) Hr) as [Hq Hst]. cbn [fst snd quiescing] in *.
      split; [exact Hq|]. split; [now right|]. split; [tauto|].
      intros. now rewrite Hq.
Qed.

Lemma hub_irq_resubmits_witness :
  hub_irq 0%nat (MkUrb (- ENOENT) 0 []) fresh_hub khubd0 =
  Val (fresh_hub, khubd0, false) /\
  quiescing fresh_hub = quiescing fresh_hub.
Proof.
  assert (H : hub_irq 0%nat (MkUrb (- ENOENT) 0 []) fresh_hub khubd0 =
              Val (fresh_hub, khubd0, false)) by reflexivity.
  split; [exact H|].
  exact (proj1 (hub_irq_resubmits_unless_unlinked 0%nat _ _ _ _ _ _ H)).
Defined.

End HubIrqSpec.

(** ** The worker's side of the event queue *)

Module WorkerSpec.
Import EventQueue Worker.

Lemma dequeue_head h l st :
  hub_event_list st = h :: l ->
  fst (hub_events_dequeue st) = Some h /\
  hub_event_list (snd (hub_events_dequeue st)) = l.
Proof.
  intros Hl. unfold hub_events_dequeue. rewrite Hl.
  destruct (hubs st !! h) as [hub|]; cbn [fst snd list_del_init hub_event_list];
    rewrite ?Hl; cbn [unlink]; rewrite bool_decide_eq_true_2 by reflexivity;
    split; reflexivity.
Qed.

Lemma drain_order : forall (n : nat) st,
  length (hub_event_list st) = n ->
  fst (drain n st) = hub_event_list st /\
  hub_event_list (snd (drain n st)) = [].
Proof.
  induction n as [|n IH]; intros st Hlen; cbn [drain].
  - cbn [fst snd]. destruct (hub_event_list st); [split; reflexivity | discriminate].
  - destruct (hub_event_list st) as [|h l] eqn:Hl; [discriminate|].
    destruct (dequeue_head h l st Hl) as [Hh Hrest].
    destruct (hub_events_dequeue st) as [o st1]. cbn [fst snd] in *. subst o.
    destruct (IH st1 ltac:(rewrite Hrest; cbn in Hlen; lia)) as [Hf Hs].
    destruct (drain n st1) as [l' st2]. cbn [fst snd] in *.
    split; [now rewrite Hf, Hrest | exact Hs].
Qed.

Lemma drain_steps : forall (n : nat) st, rtc step st (snd (drain n st)).
Proof.
  induction n as [|n IH]; intros st; cbn [drain].
  - apply rtc_refl.
  - pose proof (step_events st) as Hstep.
    destruct (hub_events_dequeue st) as [[h|] st1]; cbn [snd] in *.
    + specialize (IH st1). destruct (drain n st1) as [l st2]. cbn [snd] in *.
      exact (rtc_l _ _ _ _ Hstep IH).
    + now apply rtc_once.
Qed.

(** X17: the worker takes the hubs off the list in the order in which
    they were put on it.  When it has taken as many as were queued, the
    list is empty, no hub's node is linked, and a kick of any hub that is
    not disconnected queues that hub alone. *)
Theorem worker_takes_hubs_in_order (st : khubd) :
  reachable st ->
  let out := drain (length (hub_event_list st)) st in
  fst out = hub_event_list st /\
  hub_event_list (snd out) = [] /\
  reachable (snd out) /\
  forall h hub,
    hubs (snd out) !! h = Some hub ->
    event_list hub = false /\
    (disconnected hub = false ->
     hub_event_list (kick_khubd h (snd out)) = [h]).
Proof.
  intros Hreach. cbn zeta.
  destruct (drain_order (length (hub_event_list st)) st eq_refl) as [Hf He].
  assert (Hreach' : reachable (snd (drain (length (hub_event_list st)) st))).
  { unfold reachable in *. etrans; [exact Hreach | apply drain_steps]. }
  split; [exact Hf|]. split; [exact He|]. split; [exact Hreach'|].
  intros h hub Hl.
  destruct (EventQueueSpec.reachable_queue_inv _ Hreach') as (_ & Hlink & _).
  assert (Hoff : event_list hub = false).
  { destruct (event_list hub) eqn:Hev; [|reflexivity].
    assert (Hin : h ∈ hub_event_list (snd (drain (length (hub_event_list st)) st))).
    { apply Hlink. now exists hub. }
    rewrite He in Hin. now apply elem_of_nil in Hin. }
  split; [exact Hoff|]. intros Hdis.
  unfold kick_khubd. rewrite Hl, Hdis, Hoff. cbn [negb andb].
  unfold update_hub, list_add_tail. cbn [hub_event_list]. now rewrite He.
Qed.

Lemma two_hubs_queued_reachable : reachable two_hubs_queued.
Proof.
  unfold reachable, two_hubs_queued.
  change (kick_khubd 0%nat (hub_probe 0%nat khubd0)) with one_hub_queued.
  eapply rtc_r; [eapply rtc_r; [exact EventQueueSpec.one_hub_queued_reachable|]|].
  - apply (step_probe 1%nat one_hub_queued). vm_compute. reflexivity.
  - apply (step_kick 1%nat). unfold hub_probe. cbn [hubs]. rewrite lookup_insert_eq.
    eexists; reflexivity.
Qed.

Lemma worker_order_witness :
  reachable two_hubs_queued /\
  fst (drain (length (hub_event_list two_hubs_queued)) two_hubs_queued)
  = hub_event_list two_hubs_queued.
Proof.
  split; [exact two_hubs_queued_reachable|].
  exact (proj1 (worker_takes_hubs_in_order two_hubs_queued
                  two_hubs_queued_reachable)).
Defined.

(** X18: the hub that [hub_events] takes off the list is never a
    disconnected one, so the early exit for a disconnected hub inside the
    locked section is not taken: the hub is a probed one whose node was
    linked, and afterwards its node is unlinked, it is no longer on the
    list and its other fields are as before. *)
Theorem hub_events_takes_live_hub (st : khubd) :
  reachable st ->
  forall h st', hub_events_dequeue st = (Some h, st') ->
  exists hub,
    hubs st !! h = Some hub /\
    disconnected hub = false /\ event_list hub = true /\
    hubs st' !! h = Some (UsbHub false false (pm_usage hub)) /\
    h ∉ hub_event_list st'.
Proof.
  intros Hreach h st' Hdq.
  destruct (EventQueueSpec.reachable_queue_inv _ Hreach) as (Hnd & Hlink & Hdis).
  unfold hub_events_dequeue in Hdq.
  destruct (hub_event_list st) as [|h0 l] eqn:Hl; [discriminate|].
  assert (Hin : h0 ∈ h0 :: l) by (apply elem_of_cons; now left).
  apply Hlink in Hin. destruct Hin as (hub & Hhub & Hev).
  rewrite Hhub in Hdq. injection Hdq as <- <-.
  assert (Hlive : disconnected hub = false).
  { destruct (disconnected hub) eqn:Hd; [|reflexivity].
    rewrite (Hdis h0 hub Hhub Hd) in Hev. discriminate. }
  exists hub. split; [exact Hhub|]. split; [exact Hlive|]. split; [exact Hev|].
  unfold list_del_init. cbn [hubs hub_event_list].
  rewrite lookup_insert_eq, Hlive, Hl. cbn [unlink].
  rewrite bool_decide_eq_true_2 by reflexivity.
  split; [reflexivity|].
  now apply NoDup_cons in Hnd as [Hni _].
Qed.

Lemma hub_events_live_hub_witness :
  reachable two_hubs_queued /\
  exists hub, hubs two_hubs_queued !! 0%nat = Some hub /\ disconnected hub = false.
Proof.
  split; [exact two_hubs_queued_reachable|].
  destruct (hub_events_takes_live_hub two_hubs_queued two_hubs_queued_reachable
              0%nat (snd (hub_events_dequeue two_hubs_queued)))
    as (hub & Hhub & Hlive & _).
  - vm_compute. reflexivity.
  - exists hub. split; assumption.
Defined.

End WorkerSpec.

(** ** The port after a resume *)

Module PortResumeSpec.
Import PortResume.

(** X19: [check_port_resume_type] returns 0 exactly when the status it
    was given is 0 and the port is not suspended, powered and connected,
    and either enabled or the device is, or may be, marked for a
    reset-resume.  Every other result is negative, an error passed in is
    passed on, and nothing is cleared then.  With result 0 and a port
    that is not enabled the device ends up marked for a reset-resume. *)
Theorem check_port_resume_type_decides
    (ss : bool) (udev : usb_device) (status portchange portstatus : Z) :
  let '(r, udev', clears) :=
    check_port_resume_type ss udev status portchange portstatus in
  (r = 0 <->
   status = 0 /\ port_is_suspended ss portstatus = 0 /\
   port_is_power_on ss portstatus = 1 /\
   tst portstatus USB_PORT_STAT_CONNECTION = true /\
   (tst portstatus USB_PORT_STAT_ENABLE = true \/
    reset_resume udev = true \/ persist_enabled udev = true)) /\
  (r <> 0 -> r < 0 /\ clears = [] /\ udev' = udev) /\
  (status < 0 -> r = status) /\
  (r = 0 -> tst portstatus USB_PORT_STAT_ENABLE = false ->
   reset_resume udev' = true) /\
  (r = 0 -> reset_resume udev' = false -> clears = []) /\
  persist_enabled udev' = persist_enabled udev.
Proof.
  unfold check_port_resume_type.
  assert (Hpow : port_is_power_on ss portstatus = 0 \/
                 port_is_power_on ss portstatus = 1).
  { unfold port_is_power_on. destruct ss, (tst _ _); auto. }
  assert (Hsus : port_is_suspended ss portstatus = 0 \/
                 port_is_suspended ss portstatus = 1).
  { unfold port_is_suspended. destruct ss; [destruct (_ =? _) | destruct (tst _ _)]; auto. }
  destruct (negb (status =? 0) || negb (port_is_suspended ss portstatus =? 0)
            || (port_is_power_on ss portstatus =? 0)
            || negb (tst portstatus USB_PORT_STAT_CONNECTION)) eqn:Hbad.
  - assert (Hr : (if status >=? 0 then - ENODEV else status) < 0)
      by (destruct (status >=? 0) eqn:H; unfold ENODEV; lia).
    assert (Hne : negb ((if status >=? 0 then - ENODEV else status) =? 0) = true)
      by lia.
    rewrite Hne.
    split.
    { split; [lia|]. intros (H0 & H1 & H2 & H3 & _). exfalso.
      rewrite H0, H1, H2, H3 in Hbad. discriminate Hbad. }
    split; [auto|]. split.
    { intros Hneg. assert (H : (status >=? 0) = false) by lia. now rewrite H. }
    split; [lia|]. split; [lia | reflexivity].
  - apply orb_false_iff in Hbad. destruct Hbad as [Hbad Hconn].
    apply orb_false_iff in Hbad. destruct Hbad as [Hbad Hp].
    apply orb_false_iff in Hbad. destruct Hbad as [H0 Hs].
    apply negb_false_iff in H0, Hs, Hconn.
    apply Z.eqb_eq in H0, Hs. apply Z.eqb_neq in Hp. subst status.
    assert (Hp1 : port_is_power_on ss portstatus = 1) by lia.
    destruct (tst portstatus USB_PORT_STAT_ENABLE) eqn:Hen;
      destruct udev as [[|] [|]]; cbn [negb andb reset_resume persist_enabled];
      unfold ENODEV; cbn [Z.eqb negb Z.opp];
      repeat split; intros; try lia; try tauto; try congruence; try discriminate;
      auto.
    all: try (destruct H as (_ & _ & _ & _ & [H | [H | H]]); discriminate H).
Qed.

End PortResumeSpec.

(** ** Reading the hub descriptor *)

Module HubDescriptorSpec.
Import HubDescriptor.

Lemma get_descriptor_loop_spec wire : forall (n : nat) s,
  let out := get_descriptor_loop wire n s in
  (transfers (snd out) <= transfers s + n)%nat /\
  slept (snd out) = slept s /\ buffer (snd out) = buffer s /\
  ((fst out = - EINVAL /\ transfers (snd out) = (transfers s + n)%nat /\
    forall k, (k < n)%nat -> urb_ret (wire 0 (transfers s + k)%nat) < 9) \/
   (9 <= fst out /\ (transfers s < transfers (snd out))%nat /\
    fst out = urb_ret (wire 0 (transfers (snd out) - 1)%nat) /\
    forall k, (transfers s + k < transfers (snd out) - 1)%nat ->
              urb_ret (wire 0 (transfers s + k)%nat) < 9)).
Proof.
  induction n as [|n IH]; intros s; cbn zeta; cbn [get_descriptor_loop].
  { unfold ret. cbn [fst snd]. split; [lia|]. split; [reflexivity|].
    split; [reflexivity|]. left. split; [reflexivity|]. split; [lia|].
    intros k Hk. lia. }
  unfold bind, usb_control_msg. cbn beta iota zeta.
  unfold USB_DT_HUB_NONVAR_SIZE. change (7 + 2) with 9.
  destruct (urb_ret (wire 0 (transfers s)) >=? 9) eqn:Hge.
  - unfold ret. cbn [fst snd transfers slept buffer].
    split; [lia|]. split; [reflexivity|]. split; [reflexivity|].
    right. split; [lia|]. split; [lia|].
    replace (S (transfers s) - 1)%nat with (transfers s) by lia.
    split; [reflexivity|]. intros k Hk. lia.
  - set (s1 := HubIo (S (transfers s)) (buffer s) (slept s) (cleared s)).
    specialize (IH s1). cbn zeta in IH.
    destruct IH as (Ht & Hsl & Hbuf & Hres). subst s1.
    cbn [transfers slept buffer] in *.
    split; [lia|]. split; [exact Hsl|]. split; [exact Hbuf|].
    destruct Hres as [(Hr & Htr & Hall) | (Hr & Htr & Hlast & Hall)].
    + left. split; [exact Hr|]. split; [lia|].
      intros k Hk. destruct k as [|k].
      * rewrite Nat.add_0_r. lia.
      * replace (transfers s + S k)%nat with (S (transfers s) + k)%nat by lia.
        apply Hall. lia.
    + right. split; [exact Hr|]. split; [lia|]. split; [exact Hlast|].
      intros k Hk. destruct k as [|k].
      * rewrite Nat.add_0_r. lia.
      * replace (transfers s + S k)%nat with (S (transfers s) + k)%nat by lia.
        apply Hall. lia.
Qed.

(** X20: [get_hub_descriptor] makes at most three transfers and returns
    the first result of at least 9 bytes, without trying again after it.
    When all three results are below 9 it returns -EINVAL: the error code
    of a failed transfer is never handed on. *)
Theorem get_hub_descriptor_three_tries
    (wire : Z -> nat -> urb_result) (s : hub_io) :
  let out := get_hub_descriptor wire s in
  (transfers (snd out) <= transfers s + 3)%nat /\
  ((fst out = - EINVAL /\ transfers (snd out) = (transfers s + 3)%nat /\
    forall k, (k < 3)%nat -> urb_ret (wire 0 (transfers s + k)%nat) < 9) \/
   (9 <= fst out /\ (transfers s < transfers (snd out))%nat /\
    fst out = urb_ret (wire 0 (transfers (snd out) - 1)%nat) /\
    forall k, (transfers s + k < transfers (snd out) - 1)%nat ->
              urb_ret (wire 0 (transfers s + k)%nat) < 9)).
Proof.
  cbn zeta. unfold get_hub_descriptor.
  destruct (get_descriptor_loop_spec wire 3 s) as (Ht & _ & _ & Hres).
  split; [exact Ht | exact Hres].
Qed.

End HubDescriptorSpec.

(** ** Which devices take part in link power management *)

Module LpmSupportSpec.
Import Lpm LpmSupport.



End LpmSupportSpec.

(** ** Connect types and the removable bits *)

Module RemovableSpec.
Import Removable.

Lemma land_pow2 x j :
  0 <= j -> Z.land x (2 ^ j) = if Z.testbit x j then 2 ^ j else 0.
Proof.
  intros Hj. apply Z.bits_inj'. intros m Hm.
  rewrite Z.land_spec, Z.pow2_bits_eqb by lia.
  destruct (Z.eqb_spec j m) as [<- | Hne].
  - rewrite andb_true_r. destruct (Z.testbit x j) eqn:Hb.
    + rewrite Z.pow2_bits_true by lia. reflexivity.
    + now rewrite Z.testbit_0_l.
  - rewrite andb_false_r. destruct (Z.testbit x j).
    + rewrite Z.pow2_bits_false by lia. reflexivity.
    + now rewrite Z.testbit_0_l.
Qed.

Lemma pow2_nonzero j : 0 <= j -> 2 ^ j <> 0.
Proof. intros Hj. pose proof (Z.pow_pos_nonneg 2 j ltac:(lia) Hj). lia. Qed.


(** Setting a bit that may be set already. *)
Lemma set_bit_once x j m :
  0 <= j -> 0 <= m ->
  Z.testbit (if Z.land x (2 ^ j) =? 0 then Z.lor x (2 ^ j) else x) m =
  Z.testbit x m || (m =? j).
Proof.
  intros Hj Hm. rewrite land_pow2 by lia.
  destruct (Z.testbit x j) eqn:Hb.
  - pose proof (pow2_nonzero j Hj).
    destruct (Z.eqb_spec (2 ^ j) 0); [contradiction|].
    destruct (Z.eqb_spec m j) as [-> | Hne];
      [now rewrite Hb | now rewrite orb_false_r].
  - change (0 =? 0) with true. cbn iota.
    rewrite Z.lor_spec, Z.pow2_bits_eqb by lia.
    now rewrite (Z.eqb_sym j m).
Qed.

Lemma hs_bit_insert dr q v k :
  (q < length dr)%nat -> 0 <= k ->
  hs_bit (<[q := v]> dr) k =
  if bool_decide (Z.to_nat (k / 8) = q) then Z.testbit v (k mod 8)
  else hs_bit dr k.
Proof.
  intros Hq Hk. unfold hs_bit.
  destruct (decide (Z.to_nat (k / 8) = q)) as [<- | Hne].
  - rewrite bool_decide_eq_true_2 by reflexivity.
    rewrite (nth_lookup_Some _ _ 0 v); [reflexivity|].
    apply list_lookup_insert_eq. exact Hq.
  - rewrite bool_decide_eq_false_2 by exact Hne.
    rewrite !nth_lookup. rewrite list_lookup_insert_ne by congruence.
    reflexivity.
Qed.

Lemma hard_wired_lookup ports i :
  1 <= i ->
  forall ct, ports !! Z.to_nat (i - 1) = Some ct ->
  hard_wired (Some ports) i
  = bool_decide (ct = USB_PORT_CONNECT_TYPE_HARD_WIRED).
Proof.
  intros Hi ct Hl. unfold hard_wired. rewrite Hl.
  destruct (decide (ct = USB_PORT_CONNECT_TYPE_HARD_WIRED)) as [-> | Hne].
  - now rewrite !bool_decide_eq_true_2.
  - rewrite !bool_decide_eq_false_2; [reflexivity | exact Hne | congruence].
Qed.

Lemma adjust_hs_spec ports : forall (n : nat) i dr,
  1 <= i -> i - 1 + Z.of_nat n <= Z.of_nat (length ports) ->
  i + Z.of_nat n <= 8 * Z.of_nat (length dr) ->
  exists dr',
    adjust_hs n i (Some ports) dr = Val dr' /\
    length dr' = length dr /\
    forall k, 0 <= k ->
      hs_bit dr' k =
      hs_bit dr k ||
      ((i <=? k) && (k <? i + Z.of_nat n) && hard_wired (Some ports) k).
Proof.
  induction n as [|n IH]; intros i dr Hi Hports Hdr; cbn [adjust_hs].
  { exists dr. split; [reflexivity|]. split; [reflexivity|].
    intros k Hk. change (Z.of_nat 0) with 0. rewrite Z.add_0_r.
    assert (Hc : (i <=? k) && (k <? i) = false) by lia.
    rewrite Hc. cbn [andb]. now rewrite orb_false_r. }
  rewrite Nat2Z.inj_succ in *. unfold Z.succ in *.
  unfold usb_get_hub_port_connect_type, port_at.
  assert (H0 : (i - 1 <? 0) = false) by lia. rewrite H0.
  destruct (lookup_lt_is_Some_2 ports (Z.to_nat (i - 1)) ltac:(lia))
    as [ct Hct].
  rewrite Hct. cbn [deref mem_bind].
  pose proof (hard_wired_lookup ports i Hi ct Hct) as Hhw.
  rewrite Z.quot_div_nonneg, Z.rem_mod_nonneg by lia.
  assert (Hq : (Z.to_nat (i / 8) < length dr)%nat).
  { assert (i / 8 < Z.of_nat (length dr)); [|lia].
    apply Z.div_lt_upper_bound; lia. }
  destruct (lookup_lt_is_Some_2 dr (Z.to_nat (i / 8)) Hq) as [byte Hbyte].
  assert (Hmod : 0 <= i mod 8 < 8) by (apply Z.mod_pos_bound; lia).
  assert (Hmask : u8 (Z.shiftl 1 (i mod 8)) = 2 ^ (i mod 8)).
  { unfold u8. rewrite Z.shiftl_1_l. apply Z.mod_small.
    split; [apply Z.pow_nonneg; lia|].
    apply Z.pow_lt_mono_r; lia. }
  assert (Hstep : exists dr1,
    (if bool_decide (ct = USB_PORT_CONNECT_TYPE_HARD_WIRED)
     then
       (byte <~ deref (dr !! Z.to_nat (i / 8)) ;;
        if Z.land byte (u8 (Z.shiftl 1 (i mod 8))) =? 0
        then Val (<[Z.to_nat (i / 8) := Z.lor byte (u8 (Z.shiftl 1 (i mod 8)))]> dr)
        else Val dr)%mem
     else Val dr) = Val dr1 /\
    length dr1 = length dr /\
    forall k, 0 <= k ->
      hs_bit dr1 k = hs_bit dr k || ((k =? i) && hard_wired (Some ports) i)).
  { rewrite Hhw. destruct (bool_decide (ct = USB_PORT_CONNECT_TYPE_HARD_WIRED)).
    2:{ exists dr. split; [reflexivity|]. split; [reflexivity|].
        intros k Hk. now rewrite andb_false_r, orb_false_r. }
    rewrite Hbyte, Hmask. cbn [deref mem_bind].
    exists (<[Z.to_nat (i / 8) :=
               if Z.land byte (2 ^ (i mod 8)) =? 0
               then Z.lor byte (2 ^ (i mod 8)) else byte]> dr).
    split.
    { destruct (Z.land byte (2 ^ (i mod 8)) =? 0); [reflexivity|].
      now rewrite list_insert_id. }
    split; [apply length_insert|].
    intros k Hk. rewrite hs_bit_insert by assumption.
    rewrite andb_true_r.
    destruct (decide (Z.to_nat (k / 8) = Z.to_nat (i / 8))) as [Heq | Hne].
    - rewrite bool_decide_eq_true_2 by exact Heq.
      rewrite set_bit_once by (try lia; apply Z.mod_pos_bound; lia).
      unfold hs_bit. rewrite Heq, (nth_lookup_Some _ _ 0 byte Hbyte).
      f_equal.
      assert (Hdiv : k / 8 = i / 8).
      { assert (0 <= k / 8) by (apply Z.div_pos; lia).
        assert (0 <= i / 8) by (apply Z.div_pos; lia). lia. }
      destruct (Z.eqb_spec k i) as [-> | Hki]; [apply Z.eqb_refl|].
      apply Z.eqb_neq. intros Hm. apply Hki.
      rewrite (Z.div_mod k 8), (Z.div_mod i 8) by lia. lia.
    - rewrite bool_decide_eq_false_2 by exact Hne.
      destruct (Z.eqb_spec k i) as [-> | Hki]; [contradiction|].
      now rewrite orb_false_r. }
  destruct Hstep as (dr1 & Hrun1 & Hlen1 & Hbits1).
  rewrite Hrun1. cbn [mem_bind].
  destruct (IH (i + 1) dr1 ltac:(lia) ltac:(lia) ltac:(lia))
    as (dr' & Hrun & Hlen & Hbits).
  exists dr'. split; [exact Hrun|]. split; [congruence|].
  intros k Hk. rewrite (Hbits k Hk), (Hbits1 k Hk).
  destruct (Z.eqb_spec k i) as [-> | Hki].
  - assert (Hc1 : (i + 1 <=? i) = false) by lia.
    assert (Hc2 : (i <=? i) && (i <? i + (Z.of_nat n + 1)) = true) by lia.
    rewrite Hc1, Hc2. cbn [andb]. now rewrite orb_false_r.
  - cbn [andb]. rewrite orb_false_r. f_equal. f_equal. lia.
Qed.

Lemma adjust_ss_spec ports : forall (n : nat) i pr,
  1 <= i -> i - 1 + Z.of_nat n <= Z.of_nat (length ports) ->
  0 <= pr < 2 ^ 16 ->
  exists pr',
    adjust_ss n i (Some ports) pr = Val pr' /\
    0 <= pr' < 2 ^ 16 /\
    forall k, 0 <= k ->
      Z.testbit pr' k =
      Z.testbit pr k ||
      ((i <=? k) && (k <? i + Z.of_nat n) && (k <? 16)
       && hard_wired (Some ports) k).
Proof.
  induction n as [|n IH]; intros i pr Hi Hports Hpr; cbn [adjust_ss].
  { exists pr. split; [reflexivity|]. split; [exact Hpr|].
    intros k Hk. change (Z.of_nat 0) with 0. rewrite Z.add_0_r.
    assert (Hc : (i <=? k) && (k <? i) = false) by lia.
    rewrite Hc. cbn [andb]. now rewrite orb_false_r. }
  rewrite Nat2Z.inj_succ in *. unfold Z.succ in *.
  unfold usb_get_hub_port_connect_type, port_at.
  assert (H0 : (i - 1 <? 0) = false) by lia. rewrite H0.
  destruct (lookup_lt_is_Some_2 ports (Z.to_nat (i - 1)) ltac:(lia))
    as [ct Hct].
  rewrite Hct. cbn [deref mem_bind].
  pose proof (hard_wired_lookup ports i Hi ct Hct) as Hhw.
  set (pr1 := if bool_decide (ct = USB_PORT_CONNECT_TYPE_HARD_WIRED)
              then if Z.land pr (u16 (Z.shiftl 1 i)) =? 0
                   then u16 (Z.lor pr (u16 (Z.shiftl 1 i))) else pr
              else pr).
  assert (Hpr1 : 0 <= pr1 < 2 ^ 16 /\
            forall k, 0 <= k ->
              Z.testbit pr1 k =
              Z.testbit pr k || ((k =? i) && (k <? 16)
                                 && hard_wired (Some ports) i)).
  { subst pr1. rewrite Hhw.
    destruct (bool_decide (ct = USB_PORT_CONNECT_TYPE_HARD_WIRED)).
    2:{ split; [exact Hpr|]. intros k Hk.
        now rewrite andb_false_r, orb_false_r. }
    destruct (Z.ltb_spec i 16) as [H16 | H16].
    - assert (Hmask : u16 (Z.shiftl 1 i) = 2 ^ i).
      { unfold u16. rewrite Z.shiftl_1_l. apply Z.mod_small.
        split; [apply Z.pow_nonneg; lia|]. apply Z.pow_lt_mono_r; lia. }
      rewrite Hmask.
      assert (Hlor : u16 (Z.lor pr (2 ^ i)) = Z.lor pr (2 ^ i)).
      { unfold u16. apply Z.bits_inj'. intros m Hm.
        destruct (Z.ltb_spec m 16) as [Hlt | Hge].
        - now rewrite Z.mod_pow2_bits_low by lia.
        - rewrite Z.mod_pow2_bits_high by lia.
          rewrite Z.lor_spec, Z.pow2_bits_false by lia.
          rewrite orb_false_r. symmetry.
          destruct (Z.eq_dec pr 0) as [-> | Hnz]; [apply Z.testbit_0_l|].
          apply Z.bits_above_log2; [lia|].
          assert (Z.log2 pr < 16); [|lia].
          apply Z.log2_lt_pow2; lia. }
      rewrite Hlor. split.
      + destruct (Z.land pr (2 ^ i) =? 0); [|exact Hpr].
        rewrite <- Hlor. unfold u16. apply Z.mod_pos_bound. lia.
      + intros k Hk. rewrite set_bit_once by lia. rewrite andb_true_r.
        destruct (Z.eqb_spec k i) as [-> | Hki]; cbn [andb]; [|reflexivity].
        assert (Hc : (i <? 16) = true) by lia. now rewrite Hc.
    - assert (Hmask : u16 (Z.shiftl 1 i) = 0).
      { unfold u16. rewrite Z.shiftl_1_l.
        replace i with (16 + (i - 16)) by lia.
        rewrite Z.pow_add_r by lia. rewrite Z.mul_comm. apply Z.mod_mul. lia. }
      rewrite Hmask, Z.land_0_r, Z.lor_0_r. change (0 =? 0) with true.
      cbn iota. unfold u16. rewrite Z.mod_small by exact Hpr.
      split; [exact Hpr|]. intros k Hk.
      destruct (Z.eqb_spec k i) as [-> | Hki]; cbn [andb];
        [|now rewrite orb_false_r].
      assert (Hc : (i <? 16) = false) by lia. rewrite Hc. cbn [andb].
      now rewrite orb_false_r. }
  destruct Hpr1 as [Hr1 Hbits1].
  destruct (IH (i + 1) pr1 ltac:(lia) ltac:(lia) Hr1)
    as (pr' & Hrun & Hr & Hbits).
  exists pr'. split; [exact Hrun|]. split; [exact Hr|].
  intros k Hk. rewrite (Hbits k Hk), (Hbits1 k Hk).
  destruct (Z.eqb_spec k i) as [-> | Hki].
  - assert (Hc1 : (i + 1 <=? i) = false) by lia.
    assert (Hc2 : (i <=? i) && (i <? i + (Z.of_nat n + 1)) = true) by lia.
    rewrite Hc1, Hc2. cbn [andb]. now rewrite orb_false_r.
  - cbn [andb]. rewrite orb_false_r. f_equal. f_equal. f_equal. lia.
Qed.

(** What [usb_hub_adjust_deviceremovable] does to every removable bit. *)
Lemma usb_hub_adjust_deviceremovable_spec ss maxchild ports desc :
  Z.of_nat (length ports) = maxchild ->
  (ss = false -> maxchild < 8 * Z.of_nat (length (hs_DeviceRemovable desc))) ->
  exists desc',
    usb_hub_adjust_deviceremovable ss maxchild (Some ports) desc = Val desc' /\
    wHubCharacteristics desc' = wHubCharacteristics desc /\
    forall k, 0 <= k ->
      removable_bit ss desc' k =
      removable_bit ss desc k ||
      ((1 <=? k) && (k <=? maxchild) && (negb ss || (k <? 16))
       && hard_wired (Some ports) k).
Proof.
  intros Hlen Hdr. unfold usb_hub_adjust_deviceremovable, removable_bit.
  assert (Hm : Z.of_nat (Z.to_nat maxchild) = maxchild) by lia.
  destruct ss; cbn [negb orb].
  - destruct (adjust_ss_spec ports (Z.to_nat maxchild) 1
                (u16 (ss_DeviceRemovable desc)) ltac:(lia) ltac:(lia)
                ltac:(unfold u16; apply Z.mod_pos_bound; lia))
      as (pr' & Hrun & Hr & Hbits).
    rewrite Hrun. cbn [mem_bind]. eexists. split; [reflexivity|].
    cbn [wHubCharacteristics ss_DeviceRemovable]. split; [reflexivity|].
    intros k Hk. unfold u16 at 1. rewrite Z.mod_small by exact Hr.
    rewrite (Hbits k Hk), Hm.
    replace (k <? 1 + maxchild) with (k <=? maxchild); [reflexivity|].
    destruct (Z.leb_spec k maxchild), (Z.ltb_spec k (1 + maxchild));
      try reflexivity; lia.
  - destruct (adjust_hs_spec ports (Z.to_nat maxchild) 1
                (hs_DeviceRemovable desc) ltac:(lia) ltac:(lia)
                ltac:(specialize (Hdr eq_refl); lia))
      as (dr' & Hrun & _ & Hbits).
    rewrite Hrun. cbn [mem_bind]. eexists. split; [reflexivity|].
    cbn [wHubCharacteristics hs_DeviceRemovable]. split; [reflexivity|].
    intros k Hk. rewrite (Hbits k Hk), Hm. rewrite andb_true_r.
    replace (k <? 1 + maxchild) with (k <=? maxchild); [reflexivity|].
    destruct (Z.leb_spec k maxchild), (Z.ltb_spec k (1 + maxchild));
      try reflexivity; lia.
Qed.

(** X22: [usb_hub_adjust_deviceremovable] sets the removable bit of
    every hard-wired port and changes no other bit of the descriptor: on
    a hub below SuperSpeed the bit of port [k] is bit [k mod 8] of byte
    [k / 8], on a SuperSpeed hub bit [k] of the 16-bit field, where ports
    from 16 on have no bit. *)
Theorem adjust_deviceremovable_marks_hard_wired
    (ss : bool) (maxchild : Z) (ports : list usb_port_connect_type)
    (desc : usb_hub_descriptor) :
  Z.of_nat (length ports) = maxchild ->
  (ss = false -> maxchild < 8 * Z.of_nat (length (hs_DeviceRemovable desc))) ->
  exists desc',
    usb_hub_adjust_deviceremovable ss maxchild (Some ports) desc = Val desc' /\
    wHubCharacteristics desc' = wHubCharacteristics desc /\
    forall k, 0 <= k ->
      removable_bit ss desc' k =
      removable_bit ss desc k ||
      ((1 <=? k) && (k <=? maxchild) && (negb ss || (k <? 16))
       && hard_wired (Some ports) k).
Proof. apply usb_hub_adjust_deviceremovable_spec. Qed.

Lemma adjust_deviceremovable_witness :
  exists desc',
    usb_hub_adjust_deviceremovable false 4 compound_ports compound_desc
    = Val desc' /\
    removable_bit false desc' 3 = true /\ removable_bit false desc' 2 = false.
Proof.
  destruct (adjust_deviceremovable_marks_hard_wired false 4
              [USB_PORT_CONNECT_TYPE_UNKNOWN; USB_PORT_CONNECT_TYPE_HOT_PLUG;
               USB_PORT_CONNECT_TYPE_HARD_WIRED; USB_PORT_CONNECT_TYPE_UNKNOWN]
              compound_desc eq_refl ltac:(intros _; cbn; lia))
    as (desc' & Hrun & _ & Hbits).
  exists desc'. split; [exact Hrun|].
  split; [rewrite (Hbits 3 ltac:(lia)) | rewrite (Hbits 2 ltac:(lia))];
    reflexivity.
Defined.



End RemovableSpec.

(** ** Link power management: enabling and disabling U1 and U2 *)

Module LpmControlSpec.
Import LpmControl.

Section World.

Variable answer : nat -> Z.

(** On a device whose latencies fit, [DIV_ROUND_UP] rounds up. *)
Lemma DIV_ROUND_UP_ceil x :
  0 <= x < 2 ^ 32 - 1000 ->
  let q := DIV_ROUND_UP x 1000 in
  0 <= q /\ x <= 1000 * q < x + 1000.
Proof.
  intros Hx. cbn zeta. unfold DIV_ROUND_UP, u32.
  rewrite (Z.mod_small (x + 1000)) by lia.
  rewrite (Z.mod_small (x + 1000 - 1)) by lia.
  Z.div_mod_to_equations. lia.
Qed.

Lemma usb_set_lpm_timeout_spec udev st timeout w :
  st = USB3_LPM_U1 \/ st = USB3_LPM_U2 ->
  0 <= timeout <= USB3_LPM_U1_MAX_TIMEOUT \/
  timeout = USB3_LPM_DEVICE_INITIATED \/ st = USB3_LPM_U2 ->
  usb_set_lpm_timeout answer udev st timeout w =
  ((if answer (calls w) <? 0 then (- EBUSY, udev)
    else (0, set_timeout udev st timeout)),
   World (S (calls w)) (PortTimeout st timeout :: log w)).
Proof.
  intros Hst Ht. unfold usb_set_lpm_timeout.
  assert (Hres : bool_decide (st = USB3_LPM_U1)
                 && (timeout >? USB3_LPM_U1_MAX_TIMEOUT)
                 && negb (timeout =? USB3_LPM_DEVICE_INITIATED) = false).
  { destruct Ht as [Ht | [Ht | Ht]].
    - assert (H : (timeout >? USB3_LPM_U1_MAX_TIMEOUT) = false) by lia.
      rewrite H. now rewrite andb_false_r.
    - subst timeout. rewrite Z.eqb_refl. now rewrite andb_false_r.
    - subst st. reflexivity. }
  destruct Hst as [-> | ->]; rewrite Hres; unfold lbind, call, lret; reflexivity.
Qed.

Lemma same_device_refl udev : same_device udev udev.
Proof. repeat split. Qed.

Lemma same_device_set_timeout udev st t :
  same_device udev (set_timeout udev st t).
Proof. repeat split. Qed.

Lemma same_device_trans u1 u2 u3 :
  same_device u1 u2 -> same_device u2 u3 -> same_device u1 u3.
Proof.
  intros (A1 & A2 & A3 & A4) (B1 & B2 & B3 & B4).
  repeat split; congruence.
Qed.

Lemma usb_set_lpm_timeout_cases udev st timeout w :
  let out := usb_set_lpm_timeout answer udev st timeout w in
  (fst (fst out) <> 0 /\ snd (fst out) = udev) \/
  (fst (fst out) = 0 /\ snd (fst out) = set_timeout udev st timeout).
Proof.
  cbn zeta. unfold usb_set_lpm_timeout.
  destruct st; try (left; split; [discriminate | reflexivity]);
    destruct (_ && _ && _);
    try (left; split; [discriminate | reflexivity]);
    unfold lbind, call, lret; cbn beta iota;
    destruct (answer (calls w) <? 0); cbn [fst snd];
    [left; split; [discriminate | reflexivity] | right; split; reflexivity
    |left; split; [discriminate | reflexivity] | right; split; reflexivity].
Qed.

(** [usb_disable_link_state] sets the timeout to 0 or fails with the
    device as it was. *)
Lemma usb_disable_link_state_spec udev st w :
  st = USB3_LPM_U1 \/ st = USB3_LPM_U2 ->
  let out := usb_disable_link_state answer udev st w in
  (fst (fst out) = 0 /\ snd (fst out) = set_timeout udev st 0) \/
  (fst (fst out) = - EBUSY /\ snd (fst out) = udev).
Proof.
  intros Hst. cbn zeta.
  assert (Hrun : usb_disable_link_state answer udev st w =
    (r <- usb_set_lpm_timeout answer udev st 0 ;;
     let '(rc, udev) := r in
     if negb (rc =? 0) then lret (- EBUSY, udev)
     else
       _ <- usb_set_device_initiated_lpm answer udev st false ;;
       _ <- call answer (HcdDisable st) ;;
       lret (0, udev))%lpm w).
  { destruct Hst as [-> | ->]; reflexivity. }
  rewrite Hrun. unfold lbind.
  rewrite usb_set_lpm_timeout_spec
    by (try exact Hst; left; unfold USB3_LPM_U1_MAX_TIMEOUT; lia).
  destruct (answer (calls w) <? 0).
  - right. split; reflexivity.
  - left. cbn beta iota zeta. change (negb (0 =? 0)) with false.
    cbn beta iota zeta.
    match goal with
    | |- context [usb_set_device_initiated_lpm answer ?u st false ?wx] =>
        destruct (usb_set_device_initiated_lpm answer u st false wx) as [r1 w1]
    end.
    unfold call, lret. cbn [fst snd]. split; reflexivity.
Qed.

(** [usb_enable_link_state] touches nothing but the timeout. *)
Lemma usb_enable_link_state_same udev st w :
  same_device udev (fst (usb_enable_link_state answer udev st w)).
Proof.
  unfold usb_enable_link_state. cbn zeta.
  destruct (_ || _); [apply same_device_refl|].
  unfold lbind at 1.
  destruct (usb_req_set_sel answer udev st w) as [r w1].
  destruct (r <? 0); [apply same_device_refl|].
  unfold lbind at 1, call at 1.
  destruct (answer (calls w1) =? 0); [apply same_device_refl|].
  destruct (answer (calls w1) <? 0); [apply same_device_refl|].
  unfold lbind at 1.
  pose proof (usb_set_lpm_timeout_cases udev st (answer (calls w1))
                (World (S (calls w1)) (HcdEnable st :: log w1))) as Hc.
  cbn zeta in Hc.
  destruct (usb_set_lpm_timeout answer udev st (answer (calls w1)) _)
    as [[rc udev1] w2].
  cbn [fst snd] in Hc.
  assert (Hsame : same_device udev udev1).
  { destruct Hc as [[_ ->] | [_ ->]];
      [apply same_device_refl | apply same_device_set_timeout]. }
  destruct (negb (rc =? 0)).
  - unfold lbind, call, lret. cbn [fst]. exact Hsame.
  - destruct (actconfig udev1); [|exact Hsame].
    unfold lbind.
    destruct (usb_set_device_initiated_lpm answer udev1 st true w2).
    exact Hsame.
Qed.

(** [usb_enable_lpm] on a device that takes part in LPM takes one off
    the counter, whatever else it does. *)
Lemma usb_enable_lpm_count hcd udev w :
  has_parent udev = true -> speed udev = USB_SPEED_SUPER ->
  lpm_capable udev = true ->
  let udev' := fst (usb_enable_lpm answer hcd udev w) in
  lpm_disable_count udev' = u32 (lpm_disable_count udev - 1) /\
  has_parent udev' = true /\ speed udev' = USB_SPEED_SUPER /\
  lpm_capable udev' = true.
Proof.
  intros Hp Hs Hc. cbn zeta. unfold usb_enable_lpm.
  rewrite Hp, Hs, Hc. rewrite bool_decide_eq_true_2 by reflexivity.
  cbn [negb orb].
  set (udev1 := set_count udev (u32 (lpm_disable_count udev - 1))).
  assert (H1 : lpm_disable_count udev1 = u32 (lpm_disable_count udev - 1) /\
               has_parent udev1 = true /\ speed udev1 = USB_SPEED_SUPER /\
               lpm_capable udev1 = true).
  { subst udev1. cbn. auto. }
  destruct hcd as [driver|]; [|exact H1].
  destruct (_ || _); [exact H1|].
  destruct (lpm_disable_count udev1 >? 0); [exact H1|].
  unfold lbind.
  pose proof (usb_enable_link_state_same udev1 USB3_LPM_U1 w) as Ha.
  destruct (usb_enable_link_state answer udev1 USB3_LPM_U1 w) as [udev2 w2].
  pose proof (usb_enable_link_state_same udev2 USB3_LPM_U2 w2) as Hb.
  destruct (usb_enable_link_state answer udev2 USB3_LPM_U2 w2) as [udev3 w3].
  cbn [fst] in *.
  destruct (same_device_trans _ _ _ Ha Hb) as (E1 & E2 & E3 & E4).
  destruct H1 as (F1 & F2 & F3 & F4).
  repeat split; congruence.
Qed.

End World.

(** X24: [usb_req_set_sel] refuses with -EINVAL, before any call, exactly
    when a latency of the requested link state, rounded up to whole
    microseconds, is above the limit of the request.  Otherwise, once
    the allocation succeeds, it sends one SET_SEL request and returns its
    result; the four values sent are within the limits, and those of the
    requested state are the device's latencies rounded up. *)
Theorem usb_req_set_sel_sends_rounded_latencies
    (answer : nat -> Z) (udev : usb_device) (st : usb3_link_state) (w : world) :
  st = USB3_LPM_U1 \/ st = USB3_LPM_U2 ->
  0 <= u1_sel udev < 2 ^ 32 - 1000 -> 0 <= u1_pel udev < 2 ^ 32 - 1000 ->
  0 <= u2_sel udev < 2 ^ 32 - 1000 -> 0 <= u2_pel udev < 2 ^ 32 - 1000 ->
  let up x := DIV_ROUND_UP x 1000 in
  let sel := if bool_decide (st = USB3_LPM_U1) then u1_sel udev else u2_sel udev in
  let pel := if bool_decide (st = USB3_LPM_U1) then u1_pel udev else u2_pel udev in
  let limit := if bool_decide (st = USB3_LPM_U1)
               then USB3_LPM_MAX_U1_SEL_PEL else USB3_LPM_MAX_U2_SEL_PEL in
  let out := usb_req_set_sel answer udev st w in
  (sel <= 1000 * up sel < sel + 1000) /\
  (limit < up sel \/ limit < up pel -> out = (- EINVAL, w)) /\
  (up sel <= limit -> up pel <= limit ->
   (answer (calls w) = 0 ->
    out = (- ENOMEM, World (S (calls w)) (Kmalloc :: log w))) /\
   (answer (calls w) <> 0 ->
    exists a b c d,
      out = (answer (S (calls w)),
             World (S (S (calls w))) (SetSel a b c d :: Kmalloc :: log w)) /\
      0 <= a <= USB3_LPM_MAX_U1_SEL_PEL /\ 0 <= b <= USB3_LPM_MAX_U1_SEL_PEL /\
      0 <= c <= USB3_LPM_MAX_U2_SEL_PEL /\ 0 <= d <= USB3_LPM_MAX_U2_SEL_PEL /\
      (st = USB3_LPM_U1 -> a = up sel /\ b = up pel) /\
      (st = USB3_LPM_U2 -> c = up sel /\ d = up pel))).
Proof.
  intros Hst H1s H1p H2s H2p. cbn zeta.
  destruct (DIV_ROUND_UP_ceil _ H1s) as [A1 B1].
  destruct (DIV_ROUND_UP_ceil _ H1p) as [A2 B2].
  destruct (DIV_ROUND_UP_ceil _ H2s) as [A3 B3].
  destruct (DIV_ROUND_UP_ceil _ H2p) as [A4 B4].
  unfold usb_req_set_sel. cbn zeta.
  set (a := DIV_ROUND_UP (u1_sel udev) 1000) in *.
  set (b := DIV_ROUND_UP (u1_pel udev) 1000) in *.
  set (c := DIV_ROUND_UP (u2_sel udev) 1000) in *.
  set (d := DIV_ROUND_UP (u2_pel udev) 1000) in *.
  unfold USB3_LPM_MAX_U1_SEL_PEL, USB3_LPM_MAX_U2_SEL_PEL.
  destruct Hst as [-> | ->];
    try rewrite (bool_decide_eq_true_2 (USB3_LPM_U1 = USB3_LPM_U1)) by reflexivity;
    try rewrite (bool_decide_eq_true_2 (USB3_LPM_U2 = USB3_LPM_U2)) by reflexivity;
    try rewrite (bool_decide_eq_false_2 (USB3_LPM_U2 = USB3_LPM_U1)) by discriminate;
    try rewrite (bool_decide_eq_false_2 (USB3_LPM_U1 = USB3_LPM_U2)) by discriminate;
    cbn [andb orb].
  - split; [exact B1|]. split.
    + intros Hover.
      assert (Hc : (a >? 255) || (b >? 255) = true) by lia.
      now rewrite Hc.
    + intros Ha Hb.
      assert (Hc : (a >? 255) || (b >? 255) = false) by lia.
      rewrite Hc. cbn [orb].
      assert (Ha' : (a >? 255) = false) by lia.
      assert (Hb' : (b >? 255) = false) by lia.
      rewrite Ha', Hb'. unfold lbind, call, lret. split.
      * intros H0. now rewrite H0.
      * intros Hn. assert (H0 : (answer (calls w) =? 0) = false) by lia.
        rewrite H0. cbn [calls log].
        do 4 eexists. split; [reflexivity|].
        repeat split; try lia;
          try (destruct (c >? 65535) eqn:?; lia);
          try (destruct (d >? 65535) eqn:?; lia); discriminate.
  - split; [exact B3|]. split.
    + intros Hover.
      assert (Hc : (c >? 65535) || (d >? 65535) = true) by lia.
      now rewrite Hc.
    + intros Ha Hb.
      assert (Hc : (c >? 65535) || (d >? 65535) = false) by lia.
      rewrite Hc. cbn [orb].
      assert (Ha' : (c >? 65535) = false) by lia.
      assert (Hb' : (d >? 65535) = false) by lia.
      rewrite Ha', Hb'. unfold lbind, call, lret. split.
      * intros H0. now rewrite H0.
      * intros Hn. assert (H0 : (answer (calls w) =? 0) = false) by lia.
        rewrite H0. cbn [calls log].
        do 4 eexists. split; [reflexivity|].
        repeat split; try lia;
          try (destruct (a >? 255) eqn:?; lia);
          try (destruct (b >? 255) eqn:?; lia); discriminate.
Qed.

Lemma usb_req_set_sel_witness :
  fst (usb_req_set_sel memory_then_zero lpm_disk USB3_LPM_U1 (World 0 [])) = 0 /\
  12000 <= 1000 * DIV_ROUND_UP 12000 1000.
Proof.
  destruct (usb_req_set_sel_sends_rounded_latencies memory_then_zero lpm_disk
              USB3_LPM_U1 (World 0 []) (or_introl eq_refl)
              ltac:(cbn; lia) ltac:(cbn; lia) ltac:(cbn; lia) ltac:(cbn; lia))
    as (Hceil & _ & Hsend).
  destruct (Hsend ltac:(vm_compute; discriminate) ltac:(vm_compute; discriminate))
    as (_ & Hok).
  destruct (Hok ltac:(discriminate)) as (a & b & c & d & Hrun & _).
  split; [now rewrite Hrun | exact (proj1 Hceil)].
Defined.

(** [usb_disable_lpm] on a device that takes part in LPM. *)
Lemma usb_disable_lpm_spec
    (answer : nat -> Z) (hcd : option hc_driver) (udev : usb_device) (w : world) :
  lpm_managed hcd udev ->
  0 <= lpm_disable_count udev < 2 ^ 32 - 1 ->
  let '(rc, udev') := fst (usb_disable_lpm answer hcd udev w) in
  (has_parent udev' = true /\ speed udev' = USB_SPEED_SUPER /\
   lpm_capable udev' = true) /\
  ((rc = 0 /\ lpm_disable_count udev' = lpm_disable_count udev + 1 /\
    u1_timeout udev' = 0 /\ u2_timeout udev' = 0) \/
   (rc = - EBUSY /\ lpm_disable_count udev' = lpm_disable_count udev)).
Proof.
  intros (Hp & Hs & Hc & driver & -> & Hd) Hcount.
  unfold usb_disable_lpm. rewrite Hp, Hs, Hc, Hd.
  rewrite bool_decide_eq_true_2 by reflexivity. cbn [negb orb].
  rewrite LpmSpec.u32_small by lia.
  set (udev1 := set_count udev (lpm_disable_count udev + 1)).
  assert (Hg1 : has_parent udev1 = true /\ speed udev1 = USB_SPEED_SUPER /\
                lpm_capable udev1 = true /\
                lpm_disable_count udev1 = lpm_disable_count udev + 1)
    by (subst udev1; cbn; auto).
  destruct Hg1 as (G1 & G2 & G3 & G4).
  destruct ((u1_timeout udev1 =? 0) && (u2_timeout udev1 =? 0)) eqn:Hboth.
  { unfold lret. cbn [fst]. split; [auto|].
    left. split; [reflexivity|]. split; [exact G4|].
    apply andb_true_iff in Hboth. destruct Hboth. lia. }
  assert (Hback : forall u wx,
    same_device udev1 u ->
    let u' := fst (usb_enable_lpm answer (Some driver) u wx) in
    (has_parent u' = true /\ speed u' = USB_SPEED_SUPER /\
     lpm_capable u' = true) /\
    lpm_disable_count u' = lpm_disable_count udev).
  { intros u wx (E1 & E2 & E3 & E4). cbn zeta.
    destruct (usb_enable_lpm_count answer (Some driver) u wx
                ltac:(congruence) ltac:(congruence) ltac:(congruence))
      as (Hcnt & F1 & F2 & F3).
    split; [auto|].
    rewrite Hcnt, E4, G4. rewrite LpmSpec.u32_small by lia. lia. }
  unfold lbind at 1.
  pose proof (usb_disable_link_state_spec answer udev1 USB3_LPM_U1 w
                (or_introl eq_refl)) as H1. cbn zeta in H1.
  destruct (usb_disable_link_state answer udev1 USB3_LPM_U1 w)
    as [[rc1 udev2] w2].
  cbn [fst snd] in H1. destruct H1 as [[-> ->] | [-> ->]].
  2:{ change (negb (- EBUSY =? 0)) with true. cbn iota. unfold lbind, lret.
      pose proof (Hback udev1 w2 (same_device_refl udev1)) as Hb.
      cbn zeta in Hb.
      destruct (usb_enable_lpm answer (Some driver) udev1 w2) as [u3 w3].
      cbn [fst] in *. destruct Hb as [Hg Hb]. split; [exact Hg|].
      right. split; [reflexivity | exact Hb]. }
  change (negb (0 =? 0)) with false. cbn iota. unfold lbind at 1.
  set (udev2 := set_timeout udev1 USB3_LPM_U1 0).
  pose proof (usb_disable_link_state_spec answer udev2 USB3_LPM_U2 w2
                (or_intror eq_refl)) as H2. cbn zeta in H2.
  destruct (usb_disable_link_state answer udev2 USB3_LPM_U2 w2)
    as [[rc2 udev3] w3].
  cbn [fst snd] in H2. destruct H2 as [[-> ->] | [-> ->]].
  - change (negb (0 =? 0)) with false. cbn iota. unfold lret. cbn [fst].
    split; [subst udev2; cbn; auto|].
    left. split; [reflexivity|]. subst udev2. cbn. auto.
  - change (negb (- EBUSY =? 0)) with true. cbn iota. unfold lbind, lret.
    pose proof (Hback udev2 w3 (same_device_set_timeout udev1 USB3_LPM_U1 0))
      as Hb. cbn zeta in Hb.
    destruct (usb_enable_lpm answer (Some driver) udev2 w3) as [u4 w4].
    cbn [fst] in *. destruct Hb as [Hg Hb]. split; [exact Hg|].
    right. split; [reflexivity | exact Hb].
Qed.

(** X25: on a device that takes part in LPM, [usb_disable_lpm] returns 0
    or -EBUSY.  With 0 it has added one to the counter and both timeouts
    are 0; with -EBUSY the counter is what it was. *)
Theorem usb_disable_lpm_counts_or_fails
    (answer : nat -> Z) (hcd : option hc_driver) (udev : usb_device) (w : world) :
  lpm_managed hcd udev ->
  0 <= lpm_disable_count udev < 2 ^ 32 - 1 ->
  let '(rc, udev') := fst (usb_disable_lpm answer hcd udev w) in
  (rc = 0 /\ lpm_disable_count udev' = lpm_disable_count udev + 1 /\
   u1_timeout udev' = 0 /\ u2_timeout udev' = 0) \/
  (rc = - EBUSY /\ lpm_disable_count udev' = lpm_disable_count udev).
Proof.
  intros Hm Hcount.
  pose proof (usb_disable_lpm_spec answer hcd udev w Hm Hcount) as H.
  destruct (fst (usb_disable_lpm answer hcd udev w)) as [rc udev'].
  exact (proj2 H).
Qed.

Lemma usb_disable_lpm_witness :
  lpm_managed xhci lpm_disk /\
  let '(rc, udev') :=
    fst (usb_disable_lpm all_fine xhci lpm_disk (World 0 [])) in
  (rc = 0 /\ lpm_disable_count udev' = lpm_disable_count lpm_disk + 1 /\
   u1_timeout udev' = 0 /\ u2_timeout udev' = 0) \/
  (rc = - EBUSY /\ lpm_disable_count udev' = lpm_disable_count lpm_disk).
Proof.
  assert (Hm : lpm_managed xhci lpm_disk).
  { repeat split. now exists (HcDriver true true). }
  split; [exact Hm|].
  exact (usb_disable_lpm_counts_or_fails all_fine xhci lpm_disk (World 0 [])
           Hm ltac:(cbn; lia)).
Defined.

(** X26: while another caller still holds LPM off, [usb_enable_lpm] only
    takes one off the counter: it makes no request and leaves the
    timeouts alone.  And a [usb_disable_lpm] that returned 0, followed by
    [usb_enable_lpm], leaves the counter where it was. *)
Theorem usb_enable_lpm_waits_for_last_holder
    (answer : nat -> Z) (driver : hc_driver) (udev : usb_device) (w : world) :
  has_parent udev = true -> speed udev = USB_SPEED_SUPER ->
  lpm_capable udev = true ->
  enable_usb3_lpm_timeout driver = true ->
  disable_usb3_lpm_timeout driver = true ->
  0 <= lpm_disable_count udev < 2 ^ 32 - 1 ->
  (2 <= lpm_disable_count udev ->
   usb_enable_lpm answer (Some driver) udev w =
   (set_count udev (lpm_disable_count udev - 1), w)) /\
  (forall udev1 w1,
     usb_disable_lpm answer (Some driver) udev w = ((0, udev1), w1) ->
     lpm_disable_count (fst (usb_enable_lpm answer (Some driver) udev1 w1))
     = lpm_disable_count udev).
Proof.
  intros Hp Hs Hc He Hd Hcount. split.
  - intros H2. unfold usb_enable_lpm. rewrite Hp, Hs, Hc, He, Hd.
    rewrite bool_decide_eq_true_2 by reflexivity. cbn [negb orb].
    rewrite LpmSpec.u32_small by lia. cbn [lpm_disable_count set_count].
    assert (Hgt : (lpm_disable_count udev - 1 >? 0) = true) by lia.
    now rewrite Hgt.
  - intros udev1 w1 Hrun.
    assert (Hm : lpm_managed (Some driver) udev).
    { repeat split; try assumption. now exists driver. }
    pose proof (usb_disable_lpm_spec answer (Some driver) udev w
                  Hm Hcount) as H.
    rewrite Hrun in H. cbn [fst] in H.
    destruct H as [(G1 & G2 & G3) [(_ & Hcnt & _ & _) | (Hrc & _)]];
      [|unfold EBUSY in Hrc; lia].
    destruct (usb_enable_lpm_count answer (Some driver) udev1 w1 G1 G2 G3)
      as (Hcnt' & _).
    rewrite Hcnt', Hcnt. rewrite LpmSpec.u32_small by lia. lia.
Qed.

Lemma usb_enable_lpm_witness :
  usb_enable_lpm all_fine xhci lpm_disk_held (World 0 []) =
  (set_count lpm_disk_held 1, World 0 []).
Proof.
  exact (proj1 (usb_enable_lpm_waits_for_last_holder all_fine
                  (HcDriver true true) lpm_disk_held (World 0 [])
                  eq_refl eq_refl eq_refl eq_refl eq_refl ltac:(cbn; lia))
           ltac:(cbn; lia)).
Defined.

End LpmControlSpec.

(** ** Disabling a SuperSpeed port *)

Module PortDisableSpec.
Import StatusReader PortPolling PortDisable.

Section Port.

Variable wire : Z -> nat -> urb_result.
Variable port1 : Z.
Variable link : Z -> Z.

Lemma disable_loop_unfold total_time old s :
  disable_loop wire port1 total_time old s =
  match disable_sample wire port1 total_time old s with
  | (Done e, s1) => (e, s1)
  | (Again portstatus portchange, s1) =>
      if total_time <? HUB_DEBOUNCE_TIMEOUT then
        disable_loop wire port1 (total_time + HUB_DEBOUNCE_STEP)
          (portstatus, portchange) (snd (msleep HUB_DEBOUNCE_STEP s1))
      else (Break total_time 0 portstatus portchange, s1)
  end.
Proof.
  rewrite disable_loop_equation_1.
  destruct (disable_sample _ _ _ _ _) as [[e | ps pc] s1].
  - reflexivity.
  - cbn. destruct (Z_lt_dec total_time HUB_DEBOUNCE_TIMEOUT) as [Hlt | Hge]; cbn.
    + apply Z.ltb_lt in Hlt. rewrite Hlt. reflexivity.
    + apply Z.ltb_nlt in Hge. rewrite Hge. reflexivity.
Qed.

(** One pass: a failed status read leaves with its error; no pass
    sleeps. *)
Lemma disable_sample_cases T old s :
  let out := disable_sample wire port1 T old s in
  slept (snd out) = slept s /\
  (transfers s < transfers (snd out))%nat /\
  match fst out with
  | Done (Return r) =>
      r < 0 /\ urb_ret (wire port1 (transfers (snd out) - 1)%nat) < 4
  | Done (Break T' _ ps _) =>
      T' = T /\
      Z.land ps USB_PORT_STAT_LINK_STATE = USB_SS_PORT_LS_SS_DISABLED
  | Again ps _ =>
      Z.land ps USB_PORT_STAT_LINK_STATE <> USB_SS_PORT_LS_SS_DISABLED
  end.
Proof.
  unfold disable_sample, bind. cbn zeta.
  pose proof (HubStatusSpec.hub_port_status_spec wire port1 old s) as Hs.
  cbn zeta in Hs.
  destruct (hub_port_status wire port1 old s) as [[r [ps pc]] s1].
  cbn [fst snd] in Hs. destruct Hs as (Ht & Hr & Hsl & _).
  unfold HubStatus.port_status_of in Hr.
  destruct (r <? 0) eqn:Hneg.
  - unfold ret. cbn [fst snd]. split; [exact Hsl|]. split; [lia|].
    split; [lia|].
    destruct (4 <=? urb_ret (wire port1 (transfers s1 - 1)%nat)) eqn:H4; [|lia].
    injection Hr as -> _ _. discriminate Hneg.
  - destruct (Z.land ps USB_PORT_STAT_LINK_STATE =? USB_SS_PORT_LS_SS_DISABLED)
      eqn:Hdis; unfold ret; cbn [fst snd];
      (split; [exact Hsl|]); (split; [lia|]); [split; [reflexivity|]|]; lia.
Qed.

Lemma disable_loop_bounded : forall (n : nat) T old s,
  0 <= T -> HUB_DEBOUNCE_TIMEOUT - T <= 25 * Z.of_nat n ->
  let out := disable_loop wire port1 T old s in
  exists k : nat,
    (k <= n)%nat /\
    slept (snd out) = replicate k HUB_DEBOUNCE_STEP ++ slept s /\
    (transfers s < transfers (snd out))%nat /\
    match fst out with
    | Return r =>
        r < 0 /\ urb_ret (wire port1 (transfers (snd out) - 1)%nat) < 4
    | Break T' _ ps _ =>
        T' = T + 25 * Z.of_nat k /\
        (Z.land ps USB_PORT_STAT_LINK_STATE = USB_SS_PORT_LS_SS_DISABLED \/
         HUB_DEBOUNCE_TIMEOUT <= T')
    end.
Proof.
  induction n as [|n IH]; intros T old s HT Hn; cbn zeta;
    rewrite disable_loop_unfold;
    pose proof (disable_sample_cases T old s) as Hc; cbn zeta in Hc;
    destruct (disable_sample wire port1 T old s)
      as [[[r | T' z ps pc] | ps pc] s1];
    cbn [fst snd] in Hc; destruct Hc as (Hsl & Ht & Hc).
  - exists 0%nat. cbn [fst snd replicate app]. auto.
  - exists 0%nat. cbn [fst snd replicate app]. destruct Hc as [-> Hd].
    split; [lia|]. split; [exact Hsl|]. split; [exact Ht|]. split; [lia | now left].
  - unfold HUB_DEBOUNCE_TIMEOUT in *.
    assert (Hge : (T <? 2000) = false) by lia. rewrite Hge.
    exists 0%nat. cbn [fst snd replicate app].
    split; [lia|]. split; [exact Hsl|]. split; [exact Ht|]. split; [lia | right; lia].
  - exists 0%nat. cbn [fst snd replicate app]. split; [lia|]. auto.
  - exists 0%nat. cbn [fst snd replicate app]. destruct Hc as [-> Hd].
    split; [lia|]. split; [exact Hsl|]. split; [exact Ht|]. split; [lia | now left].
  - destruct (T <? HUB_DEBOUNCE_TIMEOUT) eqn:HT2.
    + unfold HUB_DEBOUNCE_TIMEOUT, HUB_DEBOUNCE_STEP in *.
      destruct (IH (T + 25) (ps, pc) (snd (msleep 25 s1)) ltac:(lia) ltac:(lia))
        as (k & Hk & Hslk & Htk & Hres).
      exists (S k). split; [lia|]. split.
      * rewrite Hslk. cbn [msleep snd slept]. rewrite Hsl.
        change (25 :: slept s) with (replicate 1 25 ++ slept s).
        rewrite app_assoc. f_equal.
        change (S k) with (1 + k)%nat. rewrite Nat.add_comm.
        now rewrite replicate_add.
      * change (transfers (snd (msleep 25 s1))) with (transfers s1) in Htk.
        split; [lia|].
        destruct (fst (disable_loop wire port1 (T + 25) (ps, pc)
                         (snd (msleep 25 s1))))
          as [r | T' z ps2 pc2]; [exact Hres|].
        destruct Hres as [-> Hres]. split; [lia | exact Hres].
    + unfold HUB_DEBOUNCE_TIMEOUT in *.
      exists 0%nat. cbn [fst snd replicate app].
      split; [lia|]. split; [exact Hsl|]. split; [exact Ht|].
      split; [lia | right; lia].
Qed.

End Port.

(** X27: [hub_usb3_port_disable] refuses a hub below SuperSpeed with
    -EINVAL and hands on a failed request for the disabled link state,
    both without reading the port.  Otherwise it sleeps at most 80 times
    25 ms, and it returns either the result of its request to put the
    link back into Rx.Detect, also when the port never reported the
    disabled state, or the error of a status read that failed. *)
Theorem hub_usb3_port_disable_rearms_or_reports
    (wire : Z -> nat -> urb_result) (port1 : Z) (link : Z -> Z) (s : hub_io) :
  hub_usb3_port_disable wire port1 link false s = (- EINVAL, s) /\
  (link USB_SS_PORT_LS_SS_DISABLED <> 0 ->
   hub_usb3_port_disable wire port1 link true s =
   (link USB_SS_PORT_LS_SS_DISABLED, s)) /\
  (link USB_SS_PORT_LS_SS_DISABLED = 0 ->
   let out := hub_usb3_port_disable wire port1 link true s in
   exists k : nat,
     (k <= 80)%nat /\
     slept (snd out) = replicate k HUB_DEBOUNCE_STEP ++ slept s /\
     (transfers s < transfers (snd out))%nat /\
     (fst out = link USB_SS_PORT_LS_RX_DETECT \/
      (fst out < 0 /\
       urb_ret (wire port1 (transfers (snd out) - 1)%nat) < 4))).
Proof.
  split; [reflexivity|]. split.
  - intros Hne. unfold hub_usb3_port_disable. cbn [negb].
    assert (H : negb (link USB_SS_PORT_LS_SS_DISABLED =? 0) = true) by lia.
    now rewrite H.
  - intros H0. cbn zeta. unfold hub_usb3_port_disable. cbn [negb].
    rewrite H0. change (negb (0 =? 0)) with false. cbn iota.
    destruct (disable_loop_bounded wire port1 80 0 (0, 0) s ltac:(lia)
                ltac:(unfold HUB_DEBOUNCE_TIMEOUT; lia))
      as (k & Hk & Hsl & Ht & Hres).
    destruct (disable_loop wire port1 0 (0, 0) s) as [[r | T z ps pc] s1];
      cbn [fst snd] in *; exists k;
      (split; [exact Hk|]); (split; [exact Hsl|]); (split; [exact Ht|]);
      [right; exact Hres | now left].
Qed.

Lemma hub_usb3_port_disable_witness :
  exists k : nat,
    (k <= 80)%nat /\
    slept (snd (hub_usb3_port_disable disabling_port 1 link_state_accepted
                  true io0))
    = replicate k HUB_DEBOUNCE_STEP ++ [].
Proof.
  destruct (proj2 (proj2 (hub_usb3_port_disable_rearms_or_reports
                            disabling_port 1 link_state_accepted io0))
              eq_refl) as (k & Hk & Hsl & _).
  exists k. split; [exact Hk | exact Hsl].
Defined.

End PortDisableSpec.

(** ** Resetting a port *)

Module PortResetSpec.
Import StatusReader PortPolling PortReset.

Section Port.

Variable wire : Z -> nat -> urb_result.
Variable port1 : Z.
Variables hub_is_superspeed hub_is_wusb : bool.
Variable set_answer : nat -> Z.
Variable has_reset_device : bool.

(** With a delay of at least 1 ms and below 2^31 - 20 ms, and 25 units
    of fuel, the wait gives a result; it hands back a device exactly when
    it was given one. *)
Lemma hub_port_wait_reset_some fuel udev delay s :
  1 <= delay < 2 ^ 31 - 20 -> (25 <= fuel)%nat ->
  exists rc sp s',
    hub_port_wait_reset wire port1 hub_is_superspeed hub_is_wusb
      fuel udev delay s = (Some (rc, sp), s') /\
    (is_Some sp <-> is_Some udev).
Proof.
  intros Hd Hfuel. unfold hub_port_wait_reset, bind.
  assert (H24 : HubStatus.reset_polls_left 0 < Z.of_nat fuel)
    by (change (HubStatus.reset_polls_left 0) with 24; lia).
  destruct (HubStatusSpec.wait_reset_loop_terminates wire port1 delay fuel 0
              delay (0, 0) s ltac:(lia) H24 (fun _ => Hd) (or_introl eq_refl))
    as (e & new & He & _).
  destruct (wait_reset_loop wire port1 fuel 0 delay (0, 0) s) as [o s1].
  cbn [fst] in He. subst o. unfold ret.
  destruct e as [r | T d ps pc].
  - exists r, udev, s1. split; [reflexivity | tauto].
  - destruct (wait_reset_finish hub_is_superspeed hub_is_wusb udev ps pc)
      as [rc sp] eqn:Hfin.
    exists rc, sp, s1. split; [reflexivity|].
    unfold wait_reset_finish in Hfin.
    repeat match type of Hfin with
           | (if ?c then _ else _) = _ =>
               destruct c; [injection Hfin as <- <-; tauto|]
           end.
    destruct udev; injection Hfin as <- <-; split; intros [x Hx];
      try discriminate Hx; now eexists.
Qed.

(** One try of the loop up to the test of its status. *)
Lemma reset_try fuel udev delay (warm : bool) r :
  1 <= delay < 2 ^ 31 - 20 -> (25 <= fuel)%nat ->
  let feature := if warm then USB_PORT_FEAT_BH_PORT_RESET
                 else USB_PORT_FEAT_RESET in
  exists st sp s',
    (status <- set_port_feature set_answer feature ;;
     (if status =? - ENODEV then rret (Some (status, udev))
      else if negb (status =? 0) then rret (Some (status, udev))
      else lift (hub_port_wait_reset wire port1 hub_is_superspeed
                   hub_is_wusb fuel udev delay)))%reset r
    = (Some (st, sp),
       ResetIo s' (SetFeature feature :: requests r) (S (sets r))) /\
    (is_Some sp <-> is_Some udev).
Proof.
  intros Hd Hfuel. cbn zeta. unfold rbind, set_port_feature.
  destruct (set_answer (sets r) =? - ENODEV).
  { unfold rret. do 3 eexists. split; [reflexivity | tauto]. }
  destruct (negb (set_answer (sets r) =? 0)).
  { unfold rret. do 3 eexists. split; [reflexivity | tauto]. }
  unfold lift. cbn [hubio requests sets].
  destruct (hub_port_wait_reset_some fuel udev delay (hubio r) Hd Hfuel)
    as (rc & sp & s' & Hrun & Hsp).
  rewrite Hrun. exists rc, sp, s'. split; [reflexivity | exact Hsp].
Qed.

Ltac log_prefix l reqs :=
  match l with
  | reqs => constr:(@nil request)
  | ?q :: ?l' => let p := log_prefix l' reqs in constr:(q :: p)
  end.

(** [hub_port_finish_reset] only adds to the log, never a reset
    request, and at most one change of the device's state, as the last
    thing it does. *)
Lemma hub_port_finish_reset_spec (udev : bool) status r :
  exists s' reqs',
    hub_port_finish_reset hub_is_superspeed has_reset_device udev status r
    = (tt, ResetIo s' reqs' (sets r)) /\
    exists added,
    reqs' = added ++ requests r /\
    Forall (fun q => is_hot_reset q = false /\ is_warm_reset q = false) added /\
    (settled status = true ->
     filter (fun q => is_state_change q = true) added
     = (if udev then [SetDeviceState (if status =? 0 then USB_STATE_DEFAULT
                                      else USB_STATE_NOTATTACHED)]
        else []) /\
     (udev = true ->
      head added = Some (SetDeviceState (if status =? 0 then USB_STATE_DEFAULT
                                         else USB_STATE_NOTATTACHED))) /\
     (status = 0 -> head (slept s') = Some 50)) /\
    (settled status = false -> added = [] /\ s' = hubio r).
Proof.
  unfold settled. destruct r as [s reqs n]. cbn [hubio requests sets].
  unfold hub_port_finish_reset, rbind, when, note, usb_clear_port_feature,
    lift, rret, msleep.
  destruct (status =? 0) eqn:H0; cbn [negb orb];
    [|destruct ((status =? - ENOTCONN) || (status =? - ENODEV)) eqn:Hs].
  - destruct udev, hub_is_superspeed, has_reset_device; cbn;
      do 2 eexists; (split; [reflexivity|]);
      match goal with
      | |- exists added, ?l = added ++ ?rq /\ _ =>
          let p := log_prefix l rq in exists p
      end;
      (split; [reflexivity|]);
      (split; [repeat constructor|]);
      (split; [intros _; repeat split; try reflexivity; intros; discriminate
              | intros H; discriminate H]).
  - destruct udev, hub_is_superspeed; cbn;
      do 2 eexists; (split; [reflexivity|]);
      match goal with
      | |- exists added, ?l = added ++ ?rq /\ _ =>
          let p := log_prefix l rq in exists p
      end;
      (split; [reflexivity|]);
      (split; [repeat constructor|]);
      (split; [intros _; repeat split; try reflexivity; intros;
               try discriminate; lia
              | intros H; discriminate H]).
  - exists s, reqs. split; [reflexivity|]. exists [].
    split; [reflexivity|]. split; [constructor|].
    split; [intros H; discriminate H|]. intros _. split; reflexivity.
Qed.

Lemma reset_tries_S n fuel udev delay (warm : bool) st0 r :
  reset_tries wire port1 hub_is_superspeed hub_is_wusb set_answer
    has_reset_device (S n) fuel udev delay warm st0 r =
  let (w, r2) :=
    (status <- set_port_feature set_answer
                 (if warm then USB_PORT_FEAT_BH_PORT_RESET
                  else USB_PORT_FEAT_RESET) ;;
     (if status =? - ENODEV then rret (Some (status, udev))
      else if negb (status =? 0) then rret (Some (status, udev))
      else lift (hub_port_wait_reset wire port1 hub_is_superspeed
                   hub_is_wusb fuel udev delay)))%reset r in
  match w with
  | None => (None, r2)
  | Some (status, udev) =>
      if settled status then
        (hub_port_finish_reset hub_is_superspeed has_reset_device
           (bool_decide (is_Some udev)) status ;;;
         if negb hub_is_superspeed then rret (Some (status, udev))
         else
           st <- lift (hub_port_status wire port1 (0, 0)) ;;
           let '(rc, (portstatus, _)) := st in
           if rc <? 0 then rret (Some (status, udev))
           else if negb (hub_port_warm_reset_required hub_is_superspeed
                           portstatus)
           then rret (Some (status, udev))
           else reset_tries wire port1 hub_is_superspeed hub_is_wusb
                  set_answer has_reset_device n fuel udev
                  HUB_LONG_RESET_TIME true status)%reset r2
      else reset_tries wire port1 hub_is_superspeed hub_is_wusb set_answer
             has_reset_device n fuel udev HUB_LONG_RESET_TIME warm status r2
  end.
Proof.
  cbn [reset_tries]. unfold rbind at 1 2 5. unfold set_port_feature at 1 2.
  cbn beta iota.
  match goal with
  | |- (let (w, r2) := ?m in _) = _ => destruct m as [[[st sp]|] r2]
  end; [|reflexivity].
  unfold settled. destruct ((st =? 0) || (st =? - ENOTCONN) || (st =? - ENODEV));
    reflexivity.
Qed.

(** One try: the reset is finished off and the loop left, or the loop
    goes on with the long delay. *)
Lemma reset_tries_step n fuel udev delay (warm : bool) st0 r :
  1 <= delay < 2 ^ 31 - 20 -> (25 <= fuel)%nat ->
  let feature := if warm then USB_PORT_FEAT_BH_PORT_RESET
                 else USB_PORT_FEAT_RESET in
  exists st sp s2 added,
    (is_Some sp <-> is_Some udev) /\
    Forall (fun q => is_hot_reset q = false /\ is_warm_reset q = false) added /\
    let r2 := ResetIo s2 (added ++ SetFeature feature :: requests r)
                (S (sets r)) in
    (reset_tries wire port1 hub_is_superspeed hub_is_wusb set_answer
       has_reset_device (S n) fuel udev delay warm st0 r
     = (Some (st, sp), r2) /\
     settled st = true /\
     filter (fun q => is_state_change q = true) added
     = (if bool_decide (is_Some udev)
        then [SetDeviceState (if st =? 0 then USB_STATE_DEFAULT
                              else USB_STATE_NOTATTACHED)]
        else []) /\
     (hub_is_superspeed = false ->
      (is_Some udev ->
       head added = Some (SetDeviceState (if st =? 0 then USB_STATE_DEFAULT
                                          else USB_STATE_NOTATTACHED))) /\
      (st = 0 -> head (slept s2) = Some 50))) \/
    (exists warm',
       (warm' = true \/ warm' = warm) /\
       (hub_is_superspeed = false ->
        settled st = false /\ added = [] /\ warm' = warm) /\
       reset_tries wire port1 hub_is_superspeed hub_is_wusb set_answer
         has_reset_device (S n) fuel udev delay warm st0 r
       = reset_tries wire port1 hub_is_superspeed hub_is_wusb set_answer
           has_reset_device n fuel sp HUB_LONG_RESET_TIME warm' st r2).
Proof.
  intros Hd Hfuel. cbn zeta. rewrite reset_tries_S.
  destruct (reset_try fuel udev delay warm r Hd Hfuel)
    as (st & sp & s' & Hrun & Hsp).
  cbn zeta in Hrun. rewrite Hrun. cbn iota.
  set (feature := if warm then USB_PORT_FEAT_BH_PORT_RESET
                  else USB_PORT_FEAT_RESET) in *.
  set (r1 := ResetIo s' (SetFeature feature :: requests r) (S (sets r))).
  assert (Hb : bool_decide (is_Some sp) = bool_decide (is_Some udev)).
  { destruct (decide (is_Some udev)) as [Hu | Hu].
    - rewrite !bool_decide_eq_true_2; tauto.
    - rewrite !bool_decide_eq_false_2; tauto. }
  destruct (settled st) eqn:Hset.
  2:{ exists st, sp, s', []. split; [exact Hsp|]. split; [constructor|].
      right. exists warm. split; [now right|]. split; [auto|]. reflexivity. }
  unfold rbind.
  destruct (hub_port_finish_reset_spec (bool_decide (is_Some sp)) st r1)
    as (s3 & reqs3 & Hfin & added & Hreq & Hall & Hsettled & _).
  rewrite Hfin. subst reqs3. cbn [requests sets r1] in *.
  destruct (Hsettled Hset) as (Hfilter & Hhead & Hsleep).
  rewrite Hb in Hfilter, Hhead.
  destruct hub_is_superspeed eqn:Hss; cbn [negb].
  - unfold lift. cbn [hubio requests sets].
    destruct (hub_port_status wire port1 (0, 0) s3) as [[rc [ps pc]] s4].
    destruct (rc <? 0).
    { exists st, sp, s4, added. split; [exact Hsp|]. split; [exact Hall|].
      left. split; [reflexivity|]. split; [exact Hset|].
      split; [exact Hfilter | discriminate]. }
    destruct (negb (hub_port_warm_reset_required true ps)).
    { exists st, sp, s4, added. split; [exact Hsp|]. split; [exact Hall|].
      left. split; [reflexivity|]. split; [exact Hset|].
      split; [exact Hfilter | discriminate]. }
    exists st, sp, s4, added. split; [exact Hsp|]. split; [exact Hall|].
    right. exists true. split; [now left|]. split; [discriminate | reflexivity].
  - unfold rret. exists st, sp, s3, added.
    split; [exact Hsp|]. split; [exact Hall|].
    left. split; [reflexivity|]. split; [exact Hset|].
    split; [exact Hfilter|]. intros _. split.
    + intros Hu. apply Hhead. now apply bool_decide_eq_true_2.
    + exact Hsleep.
Qed.

(** The number of reset requests in a piece of the log. *)
Lemma reset_requests_app (added more : list request) :
  length (filter (fun q => is_hot_reset q || is_warm_reset q = true)
            (added ++ more)) =
  (length (filter (fun q => is_hot_reset q || is_warm_reset q = true) added)
   + length (filter (fun q => is_hot_reset q || is_warm_reset q = true) more))%nat.
Proof. now rewrite filter_app, length_app. Qed.

Lemma no_reset_requests (added : list request) :
  Forall (fun q => is_hot_reset q = false /\ is_warm_reset q = false) added ->
  filter (fun q => is_hot_reset q || is_warm_reset q = true) added = [].
Proof.
  induction 1 as [|q l [Hh Hw] _ IH]; [reflexivity|].
  rewrite filter_cons_False; [exact IH|]. rewrite Hh, Hw. discriminate.
Qed.

(** The loop from any try on: it ends, with one reset request per try
    made and at most [n] of them, and none of them hot once a warm reset
    was decided on. *)
Lemma reset_tries_bounded : forall (n : nat) fuel udev delay (warm : bool) st0 r,
  1 <= delay < 2 ^ 31 - 20 -> (25 <= fuel)%nat ->
  exists st sp r' added,
    reset_tries wire port1 hub_is_superspeed hub_is_wusb set_answer
      has_reset_device n fuel udev delay warm st0 r = (Some (st, sp), r') /\
    requests r' = added ++ requests r /\
    (sets r' <= sets r + n)%nat /\
    length (filter (fun q => is_hot_reset q || is_warm_reset q = true) added)
    = (sets r' - sets r)%nat /\
    (sets r <= sets r')%nat /\
    (warm = true -> Forall (fun q => is_hot_reset q = false) added).
Proof.
  induction n as [|n IH]; intros fuel udev delay warm st0 r Hd Hfuel.
  { exists st0, udev, r, []. cbn. repeat split; try lia. constructor. }
  destruct (reset_tries_step n fuel udev delay warm st0 r Hd Hfuel)
    as (st & sp & s2 & added & Hsp & Hall & Hcase).
  cbn zeta in Hcase.
  set (feature := if warm then USB_PORT_FEAT_BH_PORT_RESET
                  else USB_PORT_FEAT_RESET) in *.
  assert (Hfeat : is_hot_reset (SetFeature feature)
                  || is_warm_reset (SetFeature feature) = true).
  { subst feature. now destruct warm. }
  assert (Hone : length (filter (fun q => is_hot_reset q || is_warm_reset q = true)
                           (added ++ [SetFeature feature])) = 1%nat).
  { rewrite reset_requests_app, (no_reset_requests added Hall).
    rewrite filter_cons_True by exact Hfeat. reflexivity. }
  assert (Hnohot : warm = true ->
            Forall (fun q => is_hot_reset q = false)
              (added ++ [SetFeature feature])).
  { intros ->. apply Forall_app. split.
    - eapply Forall_impl; [exact Hall|]. now intros q [Hq _].
    - repeat constructor. }
  destruct Hcase as [(Hrun & _) | (warm' & Hw & _ & Hrun)].
  - exists st, sp, (ResetIo s2 (added ++ SetFeature feature :: requests r)
                      (S (sets r))), (added ++ [SetFeature feature]).
    split; [exact Hrun|]. cbn [requests sets].
    split; [now rewrite <- app_assoc|]. split; [lia|].
    split; [rewrite Hone; lia|]. split; [lia | exact Hnohot].
  - set (r2 := ResetIo s2 (added ++ SetFeature feature :: requests r)
                 (S (sets r))) in *.
    destruct (IH fuel sp HUB_LONG_RESET_TIME warm' st r2
                ltac:(unfold HUB_LONG_RESET_TIME; lia) Hfuel)
      as (st' & sp' & r' & added' & Hrun' & Hreq' & Hle & Hcount & Hge & Hhot).
    exists st', sp', r', (added' ++ added ++ [SetFeature feature]).
    split; [now rewrite Hrun|]. subst r2. cbn [requests sets] in *.
    split; [rewrite Hreq', <- !app_assoc; reflexivity|].
    split; [lia|]. split.
    { rewrite reset_requests_app, Hcount, Hone. lia. }
    split; [lia|].
    intros ->. apply Forall_app. split; [|now apply Hnohot].
    apply Hhot. destruct Hw as [-> | ->]; reflexivity.
Qed.


End Port.
(** X28: with a delay of at least 1 ms and below 2^31 - 20 ms, so that
    the counter of [hub_port_wait_reset] does not wrap, [hub_port_reset]
    comes back on every hub and for every behaviour of the port, after
    at most five reset requests; it has made one request per try, and
    once a warm reset is asked for, none of the requests is a hot one. *)
Theorem hub_port_reset_makes_at_most_five_requests
    (wire : Z -> nat -> urb_result) (port1 : Z)
    (hub_is_superspeed hub_is_wusb : bool) (set_answer : nat -> Z)
    (has_reset_device : bool) (fuel : nat) (udev : option usb_device_speed)
    (delay : Z) (warm : bool) (r : reset_io) :
  1 <= delay < 2 ^ 31 - 20 -> (25 <= fuel)%nat ->
  exists st sp r' added,
    hub_port_reset wire port1 hub_is_superspeed hub_is_wusb set_answer
      has_reset_device fuel udev delay warm r = (Some (st, sp), r') /\
    requests r' = added ++ requests r /\
    (sets r <= sets r' <= sets r + 5)%nat /\
    length (filter (fun q => is_hot_reset q || is_warm_reset q = true) added)
    = (sets r' - sets r)%nat /\
    (warm = true -> Forall (fun q => is_hot_reset q = false) added).
Proof.
  intros Hd Hfuel. unfold hub_port_reset.
  change (Z.to_nat PORT_RESET_TRIES) with 5%nat.
  assert (Hloop : forall w st0 r0,
    exists st sp r' added,
      reset_tries wire port1 hub_is_superspeed hub_is_wusb set_answer
        has_reset_device 5 fuel udev delay w st0 r0 = (Some (st, sp), r') /\
      requests r' = added ++ requests r0 /\
      (sets r0 <= sets r' <= sets r0 + 5)%nat /\
      length (filter (fun q => is_hot_reset q || is_warm_reset q = true) added)
      = (sets r' - sets r0)%nat /\
      (w = true -> Forall (fun q => is_hot_reset q = false) added)).
  { intros w st0 r0.
    destruct (reset_tries_bounded wire port1 hub_is_superspeed hub_is_wusb
                set_answer has_reset_device 5 fuel udev delay w st0 r0
                Hd Hfuel)
      as (st & sp & r' & added & Hrun & Hreq & Hle & Hcount & Hge & Hhot).
    exists st, sp, r', added. repeat split; try assumption; lia. }
  destruct hub_is_superspeed; cbn [negb].
  - destruct warm; cbn [negb]; [apply Hloop|].
    unfold rbind, lift.
    destruct (hub_port_status wire port1 (0, 0) (hubio r))
      as [[status [ps pc]] s1].
    destruct (status <? 0).
    + exists status, udev, (ResetIo s1 (requests r) (sets r)), [].
      unfold rret. cbn. repeat split; try lia.
    + destruct (Hloop (hub_port_warm_reset_required true ps) status
                  (ResetIo s1 (requests r) (sets r)))
        as (st & sp & r' & added & Hrun & Hreq & Hle & Hcount & _).
      exists st, sp, r', added. cbn [requests sets] in *.
      repeat split; try assumption; try lia.
  - destruct warm; [|apply Hloop].
    exists (- EINVAL), udev, r, []. unfold rret. cbn.
    repeat split; try lia. constructor.
Qed.

Lemma hub_port_reset_witness :
  exists st sp r',
    hub_port_reset HubStatus.reset_done_port 1 false false accepted true 25
      (Some USB_SPEED_UNKNOWN) 10 false rio0 = (Some (st, sp), r') /\
    (sets r' <= 5)%nat.
Proof.
  destruct (hub_port_reset_makes_at_most_five_requests
              HubStatus.reset_done_port 1 false false accepted true 25
              (Some USB_SPEED_UNKNOWN) 10 false rio0 ltac:(lia) ltac:(lia))
    as (st & sp & r' & added & Hrun & _ & Hle & _).
  exists st, sp, r'. split; [exact Hrun|]. cbn in Hle. lia.
Defined.



End PortResetSpec.

(** ** Giving a device its address *)

Module AddressingSpec.
Import Topology Addressing.

(** X30: [hub_set_address] on a device in the DEFAULT state: when the
    request succeeds the device is in the ADDRESS state with the new
    number (a wireless device keeps its own), and nothing else of it has
    changed; asking again returns 0 and changes nothing, whatever the
    request would answer.  When the request fails, its error is returned
    and the device is as it was. *)
Theorem hub_set_address_once
    (jiffies : Z) (has_address_device : bool) (answer : Z)
    (udev : usb_device) (wusb : bool) (devnum : Z) :
  state udev = USB_STATE_DEFAULT ->
  has_address_device = true \/ 1 < devnum ->
  (answer <> 0 ->
   hub_set_address jiffies has_address_device answer udev wusb devnum
   = Val (answer, udev)) /\
  (answer = 0 ->
   let udev' :=
     UsbDevice USB_STATE_ADDRESS (if wusb then Topology.devnum udev else devnum)
       (has_parent udev) (maxchild udev) (actconfig udev)
       (active_duration udev) (intfdata udev) in
   hub_set_address jiffies has_address_device answer udev wusb devnum
   = Val (0, udev') /\
   forall jiffies' answer' devnum',
     has_address_device = true \/ 1 < devnum' ->
     hub_set_address jiffies' has_address_device answer' udev' wusb devnum'
     = Val (0, udev')).
Proof.
  intros Hst Hok.
  assert (Hguard : forall d, has_address_device = true \/ 1 < d ->
            negb has_address_device && (d <=? 1) = false).
  { intros d [-> | Hd]; [reflexivity|].
    assert (H : (d <=? 1) = false) by lia. rewrite H. apply andb_false_r. }
  split.
  - intros Hne. unfold hub_set_address. rewrite (Hguard devnum Hok), Hst.
    rewrite (bool_decide_eq_false_2 (USB_STATE_DEFAULT = USB_STATE_ADDRESS))
      by discriminate.
    rewrite (bool_decide_eq_true_2 (USB_STATE_DEFAULT = USB_STATE_DEFAULT))
      by reflexivity.
    cbn [negb]. assert (H : (answer =? 0) = false) by lia. now rewrite H.
  - intros ->. cbn zeta. split.
    + unfold hub_set_address. rewrite (Hguard devnum Hok), Hst.
      rewrite (bool_decide_eq_false_2 (USB_STATE_DEFAULT = USB_STATE_ADDRESS))
        by discriminate.
      rewrite (bool_decide_eq_true_2 (USB_STATE_DEFAULT = USB_STATE_DEFAULT))
        by reflexivity.
      cbn [negb Z.eqb]. unfold usb_set_device_state, update_devnum.
      destruct wusb; cbn [negb state has_parent active_duration intfdata
                               Topology.devnum maxchild actconfig];
        rewrite ?Hst;
        rewrite (bool_decide_eq_false_2 (USB_STATE_DEFAULT = USB_STATE_NOTATTACHED))
          by discriminate;
        rewrite (bool_decide_eq_false_2 (USB_STATE_ADDRESS = USB_STATE_NOTATTACHED))
          by discriminate;
        rewrite (bool_decide_eq_false_2 (USB_STATE_DEFAULT = USB_STATE_SUSPENDED))
          by discriminate;
        rewrite (bool_decide_eq_false_2 (USB_STATE_ADDRESS = USB_STATE_SUSPENDED))
          by discriminate;
        rewrite (bool_decide_eq_false_2 (USB_STATE_ADDRESS = USB_STATE_CONFIGURED))
          by discriminate;
        cbn [negb orb andb]; unfold set_state;
        cbn [state has_parent active_duration intfdata
               Topology.devnum maxchild actconfig];
        destruct (has_parent udev); reflexivity.
    + intros jiffies' answer' devnum' Hok'. unfold hub_set_address.
      rewrite (Hguard devnum' Hok'). cbn [state].
      now rewrite bool_decide_eq_true_2 by reflexivity.
Qed.

Lemma hub_set_address_witness :
  hub_set_address 0 true 0 reset_device false 5
  = Val (0, UsbDevice USB_STATE_ADDRESS 5 true 0 None 0 None).
Proof.
  exact (proj1 (proj2 (hub_set_address_once 0 true 0 reset_device false 5
                         eq_refl (or_introl eq_refl)) eq_refl)).
Defined.

End AddressingSpec.
